(** * Invoice-management API: request authorisation and data-access layer

    A shallow embedding of the Express/Prisma service: the JWT gate
    ([verifyJwt]), the response envelope ([sendSuccess], [sendError]), the
    pagination helper ([getPagination]), the id validator
    ([validateNumericId]) and the user, tax-profile, invoice and auth
    controllers, over an explicit model of the relational store. *)

From Stdlib Require Import ZArith QArith Lia String Ascii List.
From stdpp Require Import gmap strings list fin_maps.
Import ListNotations.

Local Open Scope string_scope.
Local Open Scope Z_scope.

(** ** JavaScript numbers

    A JS number is a double.  Every finite double is a rational, and the
    operations the controllers apply to request numbers ([<], [<=],
    [Math.min], [Number.isInteger], truthiness) are exact on doubles, so the
    model keeps the value as a rational and adds the three non-finite
    values.  The conversion [Number(...)] of a raw query or path string is a
    language builtin: the model starts from its result. *)

Inductive JsNum : Type :=
  | JNaN
  | JNum (q : Q)
  | JPosInf
  | JNegInf.

Definition JInt (z : Z) : JsNum := JNum (inject_Z z).

(** [Number.isNaN] *)
Definition Number_isNaN (n : JsNum) : bool :=
  match n with JNaN => true | _ => false end.

(** [a < b]; any comparison with NaN is false. *)
Definition js_lt (a b : JsNum) : bool :=
  match a, b with
  | JNaN, _ | _, JNaN => false
  | JNum x, JNum y => negb (Qle_bool y x)
  | JNum _, JPosInf => true
  | JNum _, JNegInf => false
  | JPosInf, _ => false
  | JNegInf, JNegInf => false
  | JNegInf, _ => true
  end.

(** [a <= b] *)
Definition js_le (a b : JsNum) : bool :=
  match a, b with
  | JNaN, _ | _, JNaN => false
  | JNum x, JNum y => Qle_bool x y
  | JNum _, JPosInf => true
  | JNum _, JNegInf => false
  | JPosInf, JPosInf => true
  | JPosInf, _ => false
  | JNegInf, _ => true
  end.

(** [Math.min(a, b)] *)
Definition Math_min (a b : JsNum) : JsNum :=
  match a, b with
  | JNaN, _ | _, JNaN => JNaN
  | _, _ => if js_le a b then a else b
  end.

(** [Number.isInteger] *)
Definition Number_isInteger (n : JsNum) : bool :=
  match n with
  | JNum q => (Qnum q mod Zpos (Qden q) =? 0)%Z
  | _ => false
  end.

(** Truthiness of a number: [0] and [NaN] are falsy. *)
Definition num_truthy (n : JsNum) : bool :=
  match n with
  | JNaN => false
  | JNum q => negb (Qeq_bool q 0)
  | _ => true
  end.

(** [n || d] on numbers *)
Definition num_or (n d : JsNum) : JsNum := if num_truthy n then n else d.

(** [a - b] and [a * b], on the finite values the paging code meets;
    a non-finite operand gives NaN here (the store rejects both alike). *)
Definition js_sub (a b : JsNum) : JsNum :=
  match a, b with
  | JNum x, JNum y => JNum (x - y)
  | _, _ => JNaN
  end.

Definition js_mul (a b : JsNum) : JsNum :=
  match a, b with
  | JNum x, JNum y => JNum (x * y)
  | _, _ => JNaN
  end.

(** The integer a number denotes, when [Number.isInteger] holds. *)
Definition to_integer (n : JsNum) : option Z :=
  match n with
  | JNum q => if Number_isInteger n then Some (Qnum q / Zpos (Qden q))%Z else None
  | _ => None
  end.

(** The 64-bit integer the store client reads a numeric [skip] or [take]
    as: the fraction is dropped; a value beyond the 64-bit range, NaN or an
    infinity is refused. *)
Definition to_int64 (n : JsNum) : option Z :=
  match n with
  | JNum q =>
      let z := Z.quot (Qnum q) (Zpos (Qden q)) in
      if (- 2 ^ 63 <=? z) && (z <=? 2 ^ 63 - 1) then Some z else None
  | _ => None
  end.

(** ** src/utils/pagination.ts *)

Definition DEFAULT_PAGE : JsNum := JInt 1.
Definition DEFAULT_LIMIT : JsNum := JInt 10.
Definition MAX_LIMIT : JsNum := JInt 100.

Record Pagination : Type := { page : JsNum; limit : JsNum }.

(** [getPagination(query)], from [rawPage = Number(query.page)] and
    [rawLimit = Number(query.limit)]. *)
Definition getPagination (rawPage rawLimit : JsNum) : Pagination :=
  {| page :=
       if Number_isNaN rawPage || js_lt rawPage (JInt 1)
       then DEFAULT_PAGE else rawPage;
     limit :=
       if Number_isNaN rawLimit || js_lt rawLimit (JInt 1)
       then DEFAULT_LIMIT else Math_min rawLimit MAX_LIMIT |}.

(** The paging prologue of the tax-profile and invoice [list] handlers:
    [page = Number(req.query.page) || 1], [limit = Number(req.query.limit) || 10]. *)
Definition inlinePagination (rawPage rawLimit : JsNum) : Pagination :=
  {| page := num_or rawPage (JInt 1);
     limit := num_or rawLimit (JInt 10) |}.

(** [skip = (page - 1) * limit] *)
Definition skipOf (p : Pagination) : JsNum :=
  js_mul (js_sub (page p) (JInt 1)) (limit p).

(** [a === b] on numbers *)
Definition js_eq (a b : JsNum) : bool :=
  match a, b with
  | JNum x, JNum y => Qeq_bool x y
  | JPosInf, JPosInf | JNegInf, JNegInf => true
  | _, _ => false
  end.

(** ** JavaScript values

    Objects are finite maps from property names to values; a spread
    [{...a, ...b}] is a union in which the later operand wins. *)

#[local] Set Warnings "-register-all".

Inductive Val : Type :=
  | VUndefined
  | VNull
  | VBool (b : bool)
  | VNum (n : JsNum)
  | VStr (s : string)
  | VDecimal (d : Q)            (* Prisma.Decimal *)
  | VDate (t : Z)               (* Date, milliseconds since the epoch *)
  | VArr (l : list Val)
  | VObj (o : gmap string Val)
  | VInvalidDate.               (* a Date whose time value is NaN *)

Abbreviation Obj := (gmap string Val).

Definition is_undefined (v : Val) : bool :=
  match v with VUndefined => true | _ => false end.

(** Truthiness of a string-valued request field ([undefined] and [""] are falsy). *)
Definition str_truthy (s : option string) : bool :=
  match s with
  | Some s => negb (String.eqb s "")
  | None => false
  end.

(** [{ ...acc, ...src }] *)
Definition spread (src acc : Obj) : Obj := src ∪ acc.

(** ** The runtime the handlers run in

    Library calls whose results the handlers only pass on: the clock, date
    parsing, bcrypt, jsonwebtoken, zod's e-mail format and the text of the
    store client's error messages.  A runtime is the library at one
    instant: the clock reading and the token signed for a payload are those
    of one request, and a request served later runs in another runtime. *)

Inductive PrismaCode : Type :=
  | P2002 (target : list string)   (* unique constraint failed on [target] *)
  | P2003                          (* foreign key constraint failed *)
  | P2025                          (* record required by the operation not found *)
  | PValidation.                   (* PrismaClientValidationError: no [code] *)

Class Runtime : Type := {
  (** [Date.now()] *)
  now : Z;
  (** [new Date(t).toISOString()] *)
  toISOString : Z -> string;
  (** [new Date(text).getTime()]: [None] for an Invalid Date *)
  Date_parse : string -> option Z;
  (** zod's [z.string().email()] format check *)
  zod_email : string -> bool;
  (** bcrypt.hashSync(plain, SALT_ROUNDS) *)
  hashPassword : string -> string;
  (** bcrypt.compareSync(plain, hash) *)
  comparePassword : string -> string -> bool;
  (** jwt.sign(payload, JWT_SECRET, { expiresIn: '1h' }), issued at [now] *)
  signJwt : Obj -> string;
  (** jwt.verify(token, JWT_SECRET): [None] when it throws *)
  jwt_verify : string -> option Val;
  (** [err.message] of a store error *)
  prisma_message : PrismaCode -> string;
}.

(** ** Requests and responses *)

(** A [Prisma.Decimal]: a finite decimal, or one of NaN and the two
    infinities. *)
Inductive Decimal : Type :=
  | DecFinite (d : Q)
  | DecNonFinite.

(** A query parameter handed to [new Prisma.Decimal(String(...))]: falsy
    (absent or empty), a decimal numeral, one of the texts [NaN] and
    [Infinity], which the constructor accepts, or text it rejects, throwing
    [[DecimalError] Invalid argument: ] followed by [shown]. *)
Inductive DecimalParam : Type :=
  | DAbsent
  | DValue (d : Q)
  | DNonFinite
  | DInvalid (shown : string).

Record Request : Type := {
  (** [req.id], set by the request-id middleware *)
  req_id : option string;
  (** [req.headers.authorization] *)
  authorization : option string;
  (** [req.cookies] *)
  cookies : gmap string string;
  (** [Number(req.params.id)] *)
  params_id : JsNum;
  (** [Number(req.query.page)], [Number(req.query.limit)] *)
  query_page : JsNum;
  query_limit : JsNum;
  (** the string-valued query parameters ([email], [name], [status], [tax_id_number]) *)
  query : gmap string string;
  (** [req.query.userId]: [None] when falsy, else its [Number(...)] *)
  query_userId : option JsNum;
  (** [req.query.minAmount], [req.query.maxAmount] *)
  query_minAmount : DecimalParam;
  query_maxAmount : DecimalParam;
  (** [req.body] *)
  body : Obj;
  (** the outcome of the update schema's [safeParse(req.body)]:
      [None] when [success] is false, else [result.data]; [parse_body]
      fills it in from [body] *)
  parsed : option Obj;
  (** [req.user], attached by the auth gate *)
  user : option Val;
}.

Record Response : Type := {
  status : Z;
  (** the object given to [res.json], [None] for a bare [res.send()] *)
  json : option Obj;
  (** cookie set through [res.cookie('access_token', ...)] *)
  set_cookie : option string;
}.

(** ** src/utils/responses.ts *)

(** [...(req?.id && { requestId: req.id })] *)
Definition requestIdField (req : option Request) : Obj :=
  match req with
  | Some r =>
      match req_id r with
      | Some i => if String.eqb i "" then ∅ else {[ "requestId" := VStr i ]}
      | None => ∅
      end
  | None => ∅
  end.

Section Envelope.
Context `{Runtime}.

Definition sendSuccess (data : Val) (statusCode : Z) (req : option Request) : Response :=
  {| status := statusCode;
     json := Some (spread (requestIdField req)
               (<["timestamp" := VStr (toISOString now)]>
                  (<["data" := data]> (<["success" := VBool true]> ∅))));
     set_cookie := None |}.

Definition sendError (error : string) (statusCode : Z) (req : option Request)
    (extra : option Obj) : Response :=
  {| status := statusCode;
     json := Some (spread (default ∅ extra)
               (spread (requestIdField req)
                  (<["timestamp" := VStr (toISOString now)]>
                     (<["error" := VStr error]> (<["success" := VBool false]> ∅)))));
     set_cookie := None |}.
End Envelope.

(** ** Strings: the pieces of [String.prototype] and of SQL matching used *)

(** [s.split(' ')] *)
Fixpoint split_space (s : string) : list string :=
  match s with
  | EmptyString => [EmptyString]
  | String c rest =>
      if Ascii.eqb c " "%char then EmptyString :: split_space rest
      else match split_space rest with
           | [] => [String c EmptyString]
           | w :: ws => String c w :: ws
           end
  end.

(** SQL [LIKE] as PostgreSQL evaluates it, on strings of one-byte
    characters: in the pattern [%] matches any run of characters, [_] any
    one character, and a backslash makes the character after it literal (a
    pattern ending in a lone backslash is an error; the patterns below end
    in [%]). *)
Fixpoint like (pat : string) : string -> bool :=
  match pat with
  | EmptyString => fun s => match s with EmptyString => true | _ => false end
  | String c pat' =>
      if Ascii.eqb c "%"%char then
        fix any_suffix (s : string) : bool :=
          like pat' s
          || match s with
             | EmptyString => false
             | String _ s' => any_suffix s'
             end
      else if Ascii.eqb c "_"%char then
        fun s => match s with
                 | String _ s' => like pat' s'
                 | EmptyString => false
                 end
      else if Ascii.eqb c "092"%char then
        match pat' with
        | String d pat'' =>
            fun s => match s with
                     | String x s' => Ascii.eqb x d && like pat'' s'
                     | EmptyString => false
                     end
        | EmptyString => fun _ => false
        end
      else
        fun s => match s with
                 | String x s' => Ascii.eqb x c && like pat' s'
                 | EmptyString => false
                 end
  end.

(** [{ contains: needle }]: the client sends [LIKE '%needle%'] and leaves
    the [%], [_] and backslash of [needle] as they are, so they act as
    wildcards and escape. *)
Definition includes (needle hay : string) : bool :=
  like ("%" ++ needle ++ "%") hay.

(** Case folding of the letters A-Z, the rest unchanged. *)
Definition lower_ascii (c : ascii) : ascii :=
  let n := N_of_ascii c in
  if ((65 <=? n) && (n <=? 90))%N then ascii_of_N (n + 32) else c.

Fixpoint lower (s : string) : string :=
  match s with
  | EmptyString => EmptyString
  | String c rest => String (lower_ascii c) (lower rest)
  end.

(** [{ contains: needle, mode: 'insensitive' }]: [ILIKE '%needle%'] *)
Definition includes_ci (needle hay : string) : bool :=
  includes (lower needle) (lower hay).

(** ** The relational store behind the Prisma client

    Three tables of rows; a row maps column names to values.  The
    operations follow the client's documented behaviour on PostgreSQL:
    [findUnique] yields [null] for a missing row, [update] and [delete] fail
    with P2025 on a missing row, a duplicate e-mail fails with P2002, a
    dangling owner with P2003, deletes cascade along
    User -> TaxProfile -> Invoice, and [contains] is case-sensitive unless
    [mode: 'insensitive'] is given. *)

Inductive Model : Type := User | TaxProfile | Invoice.

Record Store : Type := {
  users : list Obj;
  taxProfiles : list Obj;
  invoices : list Obj;
  (** next value of the [User.id] sequence *)
  next_user_id : Z;
}.

Definition table (m : Model) (s : Store) : list Obj :=
  match m with
  | User => users s
  | TaxProfile => taxProfiles s
  | Invoice => invoices s
  end.

Definition has_id (i : JsNum) (r : Obj) : bool :=
  match r !! "id" with
  | Some (VNum n) => js_eq n i
  | _ => false
  end.

Definition num_field_is (k : string) (i : JsNum) (r : Obj) : bool :=
  match r !! k with
  | Some (VNum n) => js_eq n i
  | _ => false
  end.

Definition str_field_is (k : string) (v : string) (r : Obj) : bool :=
  match r !! k with
  | Some (VStr s) => String.eqb s v
  | _ => false
  end.

Definition row_id (r : Obj) : JsNum :=
  match r !! "id" with
  | Some (VNum n) => n
  | _ => JNaN
  end.

(** [where] clauses *)

Inductive QueryMode : Type := ModeDefault | ModeInsensitive.

Record StringFilter : Type := { contains : string; mode : QueryMode }.

Record DecimalFilter : Type := { gte : option Decimal; lte : option Decimal }.

Definition string_filter_ok (f : option StringFilter) (v : option Val) : bool :=
  match f with
  | None => true
  | Some f =>
      match v with
      | Some (VStr s) =>
          match mode f with
          | ModeDefault => includes (contains f) s
          | ModeInsensitive => includes_ci (contains f) s
          end
      | _ => false
      end
  end.

Definition decimal_filter_ok (f : option DecimalFilter) (v : option Val) : bool :=
  match f with
  | None => true
  | Some f =>
      match v with
      | Some (VDecimal a) =>
          match gte f with
          | Some (DecFinite lo) => Qle_bool lo a
          | Some DecNonFinite => false
          | None => true
          end
          && match lte f with
             | Some (DecFinite hi) => Qle_bool a hi
             | Some DecNonFinite => false
             | None => true
             end
      | _ => false
      end
  end.

(** A decimal filter the store accepts: its bounds are finite. *)
Definition decimal_filter_accepted (f : option DecimalFilter) : bool :=
  match f with
  | None => true
  | Some f =>
      match gte f with Some DecNonFinite => false | _ => true end
      && match lte f with Some DecNonFinite => false | _ => true end
  end.

(** [filter] of the user list: [{ email?: { contains }, name?: { contains } }] *)
Record UserWhere : Type := {
  uw_email : option StringFilter;
  uw_name : option StringFilter;
}.

(** [filter] of the tax-profile list *)
Record TaxProfileWhere : Type := {
  tw_name : option StringFilter;
  tw_userId : option JsNum;
  tw_tax_id_number : option StringFilter;
}.

(** [filter] of the invoice list:
    [{ status?, taxProfile?: { user: { email: {...} } }, amount?: { gte?, lte? } }] *)
Record InvoiceWhere : Type := {
  iw_status : option string;
  iw_taxProfile_user_email : option StringFilter;
  iw_amount : option DecimalFilter;
}.

Definition user_matches (w : UserWhere) (r : Obj) : bool :=
  string_filter_ok (uw_email w) (r !! "email")
  && string_filter_ok (uw_name w) (r !! "name").

Definition taxProfile_matches (w : TaxProfileWhere) (r : Obj) : bool :=
  string_filter_ok (tw_name w) (r !! "name")
  && match tw_userId w with
     | Some u => num_field_is "userId" u r
     | None => true
     end
  && string_filter_ok (tw_tax_id_number w) (r !! "tax_id_number").

(** The owner of an invoice: its tax profile, then that profile's user. *)
Definition taxProfile_of (s : Store) (inv : Obj) : option Obj :=
  match inv !! "taxProfileId" with
  | Some (VNum t) => List.find (has_id t) (taxProfiles s)
  | _ => None
  end.

Definition user_of (s : Store) (profile : Obj) : option Obj :=
  match profile !! "userId" with
  | Some (VNum u) => List.find (has_id u) (users s)
  | _ => None
  end.

Definition owner_email (s : Store) (inv : Obj) : option Val :=
  match taxProfile_of s inv with
  | Some p =>
      match user_of s p with
      | Some u => u !! "email"
      | None => None
      end
  | None => None
  end.

Definition invoice_matches (s : Store) (w : InvoiceWhere) (r : Obj) : bool :=
  match iw_status w with
  | Some st => str_field_is "status" st r
  | None => true
  end
  && match iw_taxProfile_user_email w with
     | Some f => string_filter_ok (Some f) (owner_email s r)
     | None => true
     end
  && decimal_filter_ok (iw_amount w) (r !! "amount").

(** *** Ordering and paging of [findMany] *)

Definition sort_key (k : string) (r : Obj) : Z :=
  match r !! k with
  | Some (VDate t) => t
  | Some (VNum n) => default 0 (to_integer n)
  | _ => 0
  end.

Fixpoint insert_desc (key : Obj -> Z) (r : Obj) (l : list Obj) : list Obj :=
  match l with
  | [] => [r]
  | x :: rest => if key x <=? key r then r :: l else x :: insert_desc key r rest
  end.

(** [orderBy: { k: 'desc' }] *)
Definition orderBy_desc (k : string) (l : list Obj) : list Obj :=
  foldr (insert_desc (sort_key k)) [] l.

(** [skip] and [take] are read as 64-bit integers and [skip] must not be
    negative, otherwise the client rejects the query; a negative [take]
    pages from the end of the ordering. *)
Definition page_rows (skip_n take_n : JsNum) (rows : list Obj) : option (list Obj) :=
  match to_int64 skip_n, to_int64 take_n with
  | Some s, Some t =>
      if s <? 0 then None
      else if 0 <=? t
           then Some (firstn (Z.to_nat t) (skipn (Z.to_nat s) rows))
           else Some (rev (firstn (Z.to_nat (- t)) (skipn (Z.to_nat s) (rev rows))))
  | _, _ => None
  end.

(** *** Handlers as computations over the store

    A computation reads and writes the store, records each client call it
    issues, and ends in a value or in a thrown exception. *)

Inductive Op : Type :=
  | OpFindUnique | OpCreate | OpUpdate | OpDelete | OpCount | OpFindMany.

Inductive Exn : Type :=
  | JsError (message : string)        (* [new Error(message)] *)
  | PrismaError (code : PrismaCode).

Record World : Type := {
  db : Store;
  (** the client calls issued so far, oldest first *)
  calls : list (Model * Op);
}.

Definition M (A : Type) : Type := World -> (Exn + A) * World.

Definition ret {A} (a : A) : M A := fun w => (inr a, w).

Definition bind {A B} (m : M A) (k : A -> M B) : M B :=
  fun w =>
    match m w with
    | (inr a, w') => k a w'
    | (inl e, w') => (inl e, w')
    end.

Definition throw {A} (e : Exn) : M A := fun w => (inl e, w).

(** [try { m } catch (err) { h(err) }] *)
Definition try_catch {A} (m : M A) (h : Exn -> M A) : M A :=
  fun w =>
    match m w with
    | (inl e, w') => h e w'
    | r => r
    end.

(** A throwing pure call ([validateNumericId]) inside a computation. *)
Definition lift {A} (r : Exn + A) : M A :=
  match r with
  | inl e => throw e
  | inr a => ret a
  end.

Definition get_db : M Store := fun w => (inr (db w), w).

Definition put_db (s : Store) : M unit :=
  fun w => (inr tt, {| db := s; calls := calls w |}).

Definition call (m : Model) (o : Op) : M unit :=
  fun w => (inr tt, {| db := db w; calls := calls w ++ [(m, o)] |}).

Declare Scope handler_scope.
Delimit Scope handler_scope with handler.
Notation "x <- m ;; k" := (bind m (fun x => k))
  (at level 100, m at next level, right associativity) : handler_scope.
Notation "m ;;; k" := (bind m (fun _ => k))
  (at level 100, right associativity) : handler_scope.
Local Open Scope handler_scope.

(** [err.code] and [err.message] *)
Definition exn_code (e : Exn) : option string :=
  match e with
  | PrismaError (P2002 _) => Some "P2002"
  | PrismaError P2003 => Some "P2003"
  | PrismaError P2025 => Some "P2025"
  | _ => None
  end.

Section Client.
Context `{Runtime}.

Definition exn_message (e : Exn) : string :=
  match e with
  | JsError m => m
  | PrismaError c => prisma_message c
  end.

Definition set_table (m : Model) (rows : list Obj) (s : Store) : Store :=
  match m with
  | User => {| users := rows; taxProfiles := taxProfiles s;
               invoices := invoices s; next_user_id := next_user_id s |}
  | TaxProfile => {| users := users s; taxProfiles := rows;
                     invoices := invoices s; next_user_id := next_user_id s |}
  | Invoice => {| users := users s; taxProfiles := taxProfiles s;
                  invoices := rows; next_user_id := next_user_id s |}
  end.

(** [prisma.<model>.findUnique({ where: { id } })].  The id is looked up
    as it is given: the 32-bit range of the id column is not a part of
    these calls, and a property that needs an id within it says so
    ([fits_id_column]). *)
Definition findUnique (m : Model) (i : JsNum) : M (option Obj) :=
  call m OpFindUnique ;;;
  s <- get_db ;;
  ret (List.find (has_id i) (table m s)).

(** [prisma.user.findUnique({ where: { email } })]; a non-string [email]
    is rejected by the client's argument validation. *)
Definition findUnique_email (email : Val) : M (option Obj) :=
  call User OpFindUnique ;;;
  match email with
  | VStr e => s <- get_db ;; ret (List.find (str_field_is "email" e) (users s))
  | _ => throw (PrismaError PValidation)
  end.

(** Rows removed together with row [i] of table [m] (ON DELETE CASCADE). *)
Definition cascade_delete (m : Model) (i : JsNum) (s : Store) : Store :=
  let keep_id (r : Obj) := negb (has_id i r) in
  match m with
  | Invoice => set_table Invoice (List.filter keep_id (invoices s)) s
  | TaxProfile =>
      {| users := users s;
         taxProfiles := List.filter keep_id (taxProfiles s);
         invoices := List.filter (fun r => negb (num_field_is "taxProfileId" i r)) (invoices s);
         next_user_id := next_user_id s |}
  | User =>
      let gone := List.filter (num_field_is "userId" i) (taxProfiles s) in
      {| users := List.filter keep_id (users s);
         taxProfiles := List.filter (fun r => negb (num_field_is "userId" i r)) (taxProfiles s);
         invoices := List.filter
           (fun r => negb (existsb (fun p => num_field_is "taxProfileId" (row_id p) r) gone))
           (invoices s);
         next_user_id := next_user_id s |}
  end.

(** [prisma.<model>.delete({ where: { id } })] *)
Definition delete_row (m : Model) (i : JsNum) : M Obj :=
  call m OpDelete ;;;
  s <- get_db ;;
  match List.find (has_id i) (table m s) with
  | None => throw (PrismaError P2025)
  | Some r => put_db (cascade_delete m i s) ;;; ret r
  end.

(** The client checks the [data] of an update before it queries: an
    invoice date that is an Invalid Date is refused. *)
Definition client_rejects (m : Model) (data : Obj) : bool :=
  match m, data !! "issuedAt" with
  | Invoice, Some VInvalidDate => true
  | _, _ => false
  end.

(** What makes the store refuse an update of row [i] with [data]: [data]
    the client rejects, or a constraint the new row would violate. *)
Definition update_violation (m : Model) (i : JsNum) (data : Obj) (s : Store)
    : option PrismaCode :=
  if client_rejects m data then Some PValidation else
  match m with
  | User =>
      match data !! "email" with
      | Some (VStr e) =>
          if existsb (fun r => str_field_is "email" e r && negb (has_id i r)) (users s)
          then Some (P2002 ["email"]) else None
      | _ => None
      end
  | TaxProfile =>
      match data !! "userId" with
      | Some (VNum u) => if existsb (has_id u) (users s) then None else Some P2003
      | _ => None
      end
  | Invoice =>
      match data !! "taxProfileId" with
      | Some (VNum t) => if existsb (has_id t) (taxProfiles s) then None else Some P2003
      | _ => None
      end
  end.

(** The row after an update: the supplied columns replaced, and the
    store-managed [updatedAt] of users and tax profiles advanced. *)
Definition updated_row (m : Model) (data r : Obj) : Obj :=
  match m with
  | Invoice => spread data r
  | _ => <["updatedAt" := VDate now]> (spread data r)
  end.

(** [prisma.<model>.update({ where: { id }, data })] *)
Definition update_row (m : Model) (i : JsNum) (data : Obj) : M Obj :=
  call m OpUpdate ;;;
  s <- get_db ;;
  if client_rejects m data then throw (PrismaError PValidation) else
  match List.find (has_id i) (table m s) with
  | None => throw (PrismaError P2025)
  | Some r =>
      match update_violation m i data s with
      | Some c => throw (PrismaError c)
      | None =>
          let r' := updated_row m data r in
          put_db (set_table m
                    (List.map (fun x => if has_id i x then r' else x) (table m s)) s) ;;;
          ret r'
      end
  end.

(** A value the client accepts for the optional text column [name]: a
    string, [null], or [undefined] (the field is then left out). *)
Definition name_accepted (name : Val) : bool :=
  match name with
  | VStr _ | VNull | VUndefined => true
  | _ => false
  end.

(** The store after an insert into [User] has drawn its id from the
    sequence; the value is gone whether or not the insert succeeds. *)
Definition id_drawn (s : Store) : Store :=
  {| users := users s; taxProfiles := taxProfiles s;
     invoices := invoices s; next_user_id := next_user_id s + 1 |}.

(** [prisma.user.create({ data: { email, password, name } })]: the client
    checks the types of [email] and [name] before it queries; the insert
    draws the id, then fails on the unique index of [email] or adds the row. *)
Definition create_user (email : Val) (password : string) (name : Val) : M Obj :=
  call User OpCreate ;;;
  s <- get_db ;;
  match email with
  | VStr e =>
      if negb (name_accepted name) then throw (PrismaError PValidation)
      else if existsb (str_field_is "email" e) (users s)
      then put_db (id_drawn s) ;;; throw (PrismaError (P2002 ["email"]))
      else
        let r : Obj :=
          <["id" := VNum (JInt (next_user_id s))]>
            (<["email" := VStr e]>
               (<["password" := VStr password]>
                  (<["name" := if is_undefined name then VNull else name]>
                     (<["createdAt" := VDate now]>
                        (<["updatedAt" := VDate now]> ∅))))) in
        put_db {| users := users s ++ [r]; taxProfiles := taxProfiles s;
                  invoices := invoices s; next_user_id := next_user_id s + 1 |} ;;;
        ret r
  | _ => throw (PrismaError PValidation)
  end.

(** [prisma.<model>.count({ where })]; [accepted] tells whether the client
    accepts the [where] clause. *)
Definition count (m : Model) (accepted : bool) (matches : Store -> Obj -> bool) : M Z :=
  call m OpCount ;;;
  s <- get_db ;;
  if accepted
  then ret (Z.of_nat (length (List.filter (matches s) (table m s))))
  else throw (PrismaError PValidation).

(** [prisma.<model>.findMany({ where, include, skip, take, orderBy: { k: 'desc' } })];
    [incl] attaches the related rows an [include] asks for. *)
Definition findMany (m : Model) (accepted : bool) (matches : Store -> Obj -> bool)
    (incl : Store -> Obj -> Obj) (skip_n take_n : JsNum) (k : string) : M (list Obj) :=
  call m OpFindMany ;;;
  s <- get_db ;;
  if accepted
  then match page_rows skip_n take_n
               (orderBy_desc k (List.filter (matches s) (table m s))) with
       | Some rows => ret (List.map (incl s) rows)
       | None => throw (PrismaError PValidation)
       end
  else throw (PrismaError PValidation).

(** no [include] *)
Definition plain (_ : Store) (r : Obj) : Obj := r.

(** [include: { taxProfile: { include: { user: true } } }] *)
Definition include_owner (s : Store) (inv : Obj) : Obj :=
  match taxProfile_of s inv with
  | Some p =>
      let p' := match user_of s p with
                | Some u => <["user" := VObj u]> p
                | None => p
                end in
      <["taxProfile" := VObj p']> inv
  | None => inv
  end.
End Client.

(** ** src/utils/validators.ts *)

(** [validateNumericId(id, fieldName)], from [parsed = Number(id)]. *)
Definition validateNumericId (parsed : JsNum) (fieldName : string) : Exn + JsNum :=
  if negb (Number_isInteger parsed) || js_le parsed (JInt 0)
  then inl (JsError ("Invalid " ++ fieldName ++ " format. Must be a positive integer."))
  else inr parsed.

(** ** src/auth/auth.utils.ts: the gate *)

(** What a middleware does with a request: answer it, or hand it on. *)
Inductive Gate : Type :=
  | Responded (r : Response)
  | Next (req : Request).

Definition with_user (req : Request) (payload : Val) : Request :=
  {| req_id := req_id req; authorization := authorization req; cookies := cookies req;
     params_id := params_id req; query_page := query_page req;
     query_limit := query_limit req; query := query req;
     query_userId := query_userId req; query_minAmount := query_minAmount req;
     query_maxAmount := query_maxAmount req; body := body req; parsed := parsed req;
     user := Some payload |}.

(** [req.headers.authorization?.split(' ')[1]] *)
Definition header_token (req : Request) : option string :=
  match authorization req with
  | Some h => split_space h !! 1%nat
  | None => None
  end.

(** [header_token ?? req.cookies['access_token']] *)
Definition request_token (req : Request) : option string :=
  match header_token req with
  | Some t => Some t
  | None => cookies req !! "access_token"
  end.

(** [res.status(code).json({ error })] *)
Definition bare_error (code : Z) (error : string) : Response :=
  {| status := code; json := Some {[ "error" := VStr error ]}; set_cookie := None |}.

Section AuthGate.
Context `{Runtime}.

Definition verifyJwt (req : Request) : Gate :=
  let token := request_token req in
  if negb (str_truthy token) then Responded (bare_error 401 "Missing token")
  else
    match jwt_verify (default "" token) with
    | Some payload => Next (with_user req payload)
    | None => Responded (bare_error 401 "Invalid token")
    end.

(** A route [router.METHOD(path, verifyJwt, handler)]. *)
Definition protected (handler : Request -> M Response) (req : Request) : M Response :=
  match verifyJwt req with
  | Responded r => ret r
  | Next req' => handler req'
  end.
End AuthGate.

(** ** Shared controller helpers *)

(** [Object.fromEntries(Object.entries(obj).filter(([, v]) => v !== undefined))] *)
Definition cleanUndefined (obj : Obj) : Obj :=
  filter (fun kv => is_undefined kv.2 = false) obj.

(** Truthiness of a value. *)
Definition val_truthy (v : Val) : bool :=
  match v with
  | VUndefined | VNull => false
  | VBool b => b
  | VNum n => num_truthy n
  | VStr s => negb (String.eqb s "")
  | _ => true
  end.

(** [res.status(204).send()] *)
Definition no_content : Response :=
  {| status := 204; json := None; set_cookie := None |}.

(** [{ contains: String(req.query[k]) }] when the parameter is truthy. *)
Definition contains_param (req : Request) (k : string) (m : QueryMode)
    : option StringFilter :=
  if str_truthy (query req !! k)
  then Some {| contains := default "" (query req !! k); mode := m |}
  else None.

(** ** src/schemas: the zod schemas of the request bodies

    A schema maps the value it is given to the value it parses to, or
    fails; [optin] tells whether it accepts [undefined] as its input.
    Lengths count one-byte characters. *)

Record Schema : Type := {
  run : Val -> option Val;
  optin : bool;
}.

(** [z.string()] followed by checks on the text *)
Definition z_string (check : string -> bool) : Schema :=
  {| run := fun v => match v with
                     | VStr s => if check s then Some v else None
                     | _ => None
                     end;
     optin := false |}.

(** [z.number().int().positive()]: a safe integer greater than zero *)
Definition z_positive_int : Schema :=
  {| run := fun v => match v with
                     | VNum n =>
                         if Number_isInteger n && js_lt (JInt 0) n
                            && js_le n (JInt 9007199254740991)
                         then Some v else None
                     | _ => None
                     end;
     optin := false |}.

(** [schema.optional()]: [undefined] stays [undefined], unless the inner
    schema takes [undefined] itself, which then runs. *)
Definition z_optional (f : Schema) : Schema :=
  {| run := fun v => if optin f then run f v
                     else match v with
                          | VUndefined => Some VUndefined
                          | _ => run f v
                          end;
     optin := true |}.

(** [schema.transform(g)] *)
Definition z_transform (f : Schema) (g : Val -> Val) : Schema :=
  {| run := fun v => g <$> run f v; optin := optin f |}.

(** The result [v] of key [k] goes into the parsed object; a result that
    is [undefined] is kept only when the input has the key. *)
Definition object_key (input : Obj) (k : string) (v : Val) (data : Obj) : Obj :=
  match v with
  | VUndefined =>
      match input !! k with
      | Some _ => <[k := VUndefined]> data
      | None => data
      end
  | _ => <[k := v]> data
  end.

(** [z.object(shape).safeParse(input)]: each key of the shape is run on
    [input[key]], a missing key reading [undefined]; keys outside the
    shape are dropped. [None] when [success] is false. *)
Definition safeParse (shape : list (string * Schema)) (input : Obj) : option Obj :=
  foldr (fun '(k, f) acc =>
           data ← acc;
           v ← run f (default VUndefined (input !! k));
           Some (object_key input k v data))
        (Some ∅) shape.

(** [z.object(shape).partial()] *)
Definition partial (shape : list (string * Schema)) : list (string * Schema) :=
  List.map (fun '(k, f) => (k, z_optional f)) shape.

Definition digit (c : ascii) : option Z :=
  let n := N_of_ascii c in
  if ((48 <=? n) && (n <=? 57))%N then Some (Z.of_N n - 48) else None.

(** The number the leading digits of [s] denote after [acc], and the rest. *)
Fixpoint read_digits (acc : Z) (s : string) : Z * string :=
  match s with
  | String c rest =>
      match digit c with
      | Some d => read_digits (10 * acc + d) rest
      | None => (acc, s)
      end
  | EmptyString => (acc, s)
  end.

(** The decimal a text of the form [/^\d+(\.\d{1,2})?$/] denotes. *)
Definition amount_of (s : string) : option Q :=
  match s with
  | String c _ =>
      match digit c with
      | Some _ =>
          let (whole, rest) := read_digits 0 s in
          match rest with
          | EmptyString => Some (inject_Z whole)
          | String "." (String a EmptyString) =>
              match digit a with
              | Some d => Some ((10 * whole + d) # 10)
              | None => None
              end
          | String "." (String a (String b EmptyString)) =>
              match digit a, digit b with
              | Some d, Some e => Some ((100 * whole + 10 * d + e) # 100)
              | _, _ => None
              end
          | _ => None
          end
      | None => None
      end
  | EmptyString => None
  end.

(** A letter, a digit or a hyphen: [/[A-Z0-9\-]/i] *)
Definition tax_id_char (c : ascii) : bool :=
  let n := N_of_ascii c in
  (((48 <=? n) && (n <=? 57)) || ((65 <=? n) && (n <=? 90))
   || ((97 <=? n) && (n <=? 122)) || (n =? 45))%N.

Section Schemas.
Context `{Runtime}.

(** src/schemas/user.schema.ts *)

Definition Email : Schema := z_string zod_email.

Definition Password : Schema := z_string (fun s => (12 <=? String.length s)%nat).

Definition Name : Schema := z_string (fun _ => true).

Definition UserCreateSchema : list (string * Schema) :=
  [("email", Email); ("password", Password); ("name", Name)].

Definition UserUpdateSchema : list (string * Schema) := partial UserCreateSchema.

(** src/schemas/taxProfile.schema.ts *)

Definition TaxProfileUserId : Schema := z_positive_int.

Definition TaxProfileName : Schema := z_string (fun s => (1 <=? String.length s)%nat).

Definition TaxProfileTaxIdNumber : Schema :=
  z_string (fun s => (5 <=? String.length s)%nat && (String.length s <=? 30)%nat
                     && forallb tax_id_char (list_ascii_of_string s)).

Definition TaxProfileAddress : Schema :=
  z_string (fun s => (10 <=? String.length s)%nat && (String.length s <=? 255)%nat).

Definition TaxProfileCreateSchema : list (string * Schema) :=
  [("userId", TaxProfileUserId); ("name", TaxProfileName);
   ("tax_id_number", TaxProfileTaxIdNumber); ("address", TaxProfileAddress)].

Definition TaxProfileUpdateSchema : list (string * Schema) :=
  partial TaxProfileCreateSchema.

(** src/schemas/invoice.schema.ts *)

Definition TaxProfileId : Schema := z_positive_int.

(** [.regex(...).transform(v => new Prisma.Decimal(v))] *)
Definition InvoiceAmount : Schema :=
  z_transform
    (z_string (fun s => match amount_of s with Some _ => true | None => false end))
    (fun v => match v with
              | VStr s => VDecimal (default 0%Q (amount_of s))
              | _ => v
              end).

Definition InvoiceStatus : Schema :=
  z_string (fun s => String.eqb s "draft" || String.eqb s "sent" || String.eqb s "paid").

(** [z.string().optional().transform(v => (v ? new Date(v) : new Date()))] *)
Definition InvoiceIssuedAt : Schema :=
  z_transform
    (z_optional (z_string (fun _ => true)))
    (fun v => match v with
              | VStr s =>
                  if String.eqb s "" then VDate now
                  else match Date_parse s with
                       | Some t => VDate t
                       | None => VInvalidDate
                       end
              | _ => VDate now
              end).

Definition InvoiceCreateSchema : list (string * Schema) :=
  [("taxProfileId", TaxProfileId); ("amount", InvoiceAmount);
   ("status", InvoiceStatus); ("issuedAt", InvoiceIssuedAt)].

Definition InvoiceUpdateSchema : list (string * Schema) := partial InvoiceCreateSchema.

(** The schema each update handler parses [req.body] with. *)
Definition UpdateSchema (m : Model) : list (string * Schema) :=
  match m with
  | User => UserUpdateSchema
  | TaxProfile => TaxProfileUpdateSchema
  | Invoice => InvoiceUpdateSchema
  end.
End Schemas.

(** ** src/services/user.service.ts *)

Module UserService.
Section UserService.
Context `{Runtime}.

Definition getUser (id : JsNum) : M (option Obj) := findUnique User id.

Definition updateUser (id : JsNum) (data : Obj) : M Obj := update_row User id data.

Definition deleteUser (id : JsNum) : M Obj := delete_row User id.

Definition listUsers (page limit : JsNum) (filter : UserWhere) : M (list Obj) :=
  let skip_n := js_mul (js_sub page (JInt 1)) limit in
  findMany User true (fun _ => user_matches filter) plain skip_n limit "createdAt".
End UserService.
End UserService.

(** ** src/controllers/user.controller.ts *)

Module UserController.
Section UserController.
Context `{Runtime}.

(** [create]; [result] is the outcome of [UserCreateSchema.safeParse(req.body)]:
    [None] when [success] is false, else [result.data]. The password is
    hashed while the [data] object is built, before the store is called. *)
Definition create (result : option Obj) (req : Request) : M Response :=
  try_catch
    (match result with
     | None => ret (sendError "Validation failed" 400 (Some req) None)
     | Some data =>
         hashed <- match default VUndefined (data !! "password") with
                   | VStr p => ret (hashPassword p)
                   | _ => throw (JsError "Illegal arguments")
                   end ;;
         u <- create_user (default VUndefined (data !! "email")) hashed
                (default VUndefined (data !! "name")) ;;
         ret (sendSuccess (VObj u) 201 (Some req))
     end)
    (fun _ => ret (sendError "Creation failed" 500 (Some req) None)).

Definition get (req : Request) : M Response :=
  try_catch
    (id <- lift (validateNumericId (params_id req) "User ID") ;;
     found <- UserService.getUser id ;;
     match found with
     | None => ret (sendError "Not found" 404 (Some req) None)
     | Some u => ret (sendSuccess (VObj u) 200 (Some req))
     end)
    (fun err => ret (sendError (exn_message err) 400 (Some req) None)).

(** [if (cleaned.password) cleaned.password = hashPassword(cleaned.password)];
    bcrypt throws on a truthy value that is not a string. *)
Definition hash_supplied_password (cleaned : Obj) : M Obj :=
  match cleaned !! "password" with
  | Some v =>
      if val_truthy v
      then match v with
           | VStr p => ret (<["password" := VStr (hashPassword p)]> cleaned)
           | _ => throw (JsError "Illegal arguments")
           end
      else ret cleaned
  | None => ret cleaned
  end.

Definition update (req : Request) : M Response :=
  try_catch
    (id <- lift (validateNumericId (params_id req) "User ID") ;;
     match parsed req with
     | None => ret (sendError "Validation failed" 400 (Some req) None)
     | Some data =>
         cleaned <- hash_supplied_password (cleanUndefined data) ;;
         u <- UserService.updateUser id cleaned ;;
         ret (sendSuccess (VObj u) 200 (Some req))
     end)
    (fun err => ret (sendError (exn_message err) 400 (Some req) None)).

Definition remove (req : Request) : M Response :=
  try_catch
    (id <- lift (validateNumericId (params_id req) "User ID") ;;
     UserService.deleteUser id ;;;
     ret no_content)
    (fun err => ret (sendError (exn_message err) 400 (Some req) None)).

Definition list (req : Request) : M Response :=
  try_catch
    (let p := getPagination (query_page req) (query_limit req) in
     let filter := {| uw_email := contains_param req "email" ModeDefault;
                      uw_name := contains_param req "name" ModeDefault |} in
     found <- UserService.listUsers (page p) (limit p) filter ;;
     ret (sendSuccess
            (VObj (<["page" := VNum (page p)]>
                     (<["limit" := VNum (limit p)]>
                        (<["data" := VArr (VObj <$> found)]> ∅))))
            200 (Some req)))
    (fun _ => ret (sendError "List failed" 500 (Some req) None)).
End UserController.
End UserController.

(** ** src/controllers/taxProfile.controller.ts *)

Module TaxProfileController.
Section TaxProfileController.
Context `{Runtime}.

Definition get (req : Request) : M Response :=
  try_catch
    (id <- lift (validateNumericId (params_id req) "Tax Profile ID") ;;
     found <- findUnique TaxProfile id ;;
     match found with
     | None => ret (sendError "Not found" 404 (Some req) None)
     | Some p => ret (sendSuccess (VObj p) 200 (Some req))
     end)
    (fun err => ret (sendError (exn_message err) 400 (Some req) None)).

Definition update (req : Request) : M Response :=
  try_catch
    (id <- lift (validateNumericId (params_id req) "Tax Profile ID") ;;
     match parsed req with
     | None => ret (sendError "Validation failed" 400 (Some req) None)
     | Some data =>
         p <- update_row TaxProfile id (cleanUndefined data) ;;
         ret (sendSuccess (VObj p) 200 (Some req))
     end)
    (fun err => ret (sendError (exn_message err) 400 (Some req) None)).

Definition remove (req : Request) : M Response :=
  try_catch
    (id <- lift (validateNumericId (params_id req) "Tax Profile ID") ;;
     delete_row TaxProfile id ;;;
     ret no_content)
    (fun err =>
       match exn_code err with
       | Some "P2025" => ret (sendError "Not found" 404 (Some req) None)
       | _ => ret (sendError (exn_message err) 400 (Some req) None)
       end).

(** The [userId] filter is validated outside the [try]: its exception
    leaves the handler. *)
Definition list (req : Request) : M Response :=
  let p := inlinePagination (query_page req) (query_limit req) in
  let skip_n := skipOf p in
  userId <- match query_userId req with
            | Some raw => u <- lift (validateNumericId raw "ID") ;; ret (Some u)
            | None => ret None
            end ;;
  let filter := {| tw_name := contains_param req "name" ModeDefault;
                   tw_userId := userId;
                   tw_tax_id_number := contains_param req "tax_id_number" ModeDefault |} in
  try_catch
    (total <- count TaxProfile true (fun _ => taxProfile_matches filter) ;;
     profiles <- findMany TaxProfile true (fun _ => taxProfile_matches filter) plain
                   skip_n (limit p) "id" ;;
     ret (sendSuccess
            (VObj (<["page" := VNum (page p)]>
                     (<["limit" := VNum (limit p)]>
                        (<["total" := VNum (JInt total)]>
                           (<["data" := VArr (VObj <$> profiles)]> ∅)))))
            200 (Some req)))
    (fun _ => ret (sendError "Internal server error" 500 (Some req) None)).
End TaxProfileController.
End TaxProfileController.

(** ** src/controllers/invoice.controller.ts *)

Module InvoiceController.
Section InvoiceController.
Context `{Runtime}.

Definition get (req : Request) : M Response :=
  try_catch
    (id <- lift (validateNumericId (params_id req) "Invoice ID") ;;
     found <- findUnique Invoice id ;;
     match found with
     | None => ret (sendError "Not found" 404 (Some req) None)
     | Some i => ret (sendSuccess (VObj i) 200 (Some req))
     end)
    (fun err => ret (sendError (exn_message err) 400 (Some req) None)).

Definition update (req : Request) : M Response :=
  try_catch
    (id <- lift (validateNumericId (params_id req) "Invoice ID") ;;
     match parsed req with
     | None => ret (sendError "Validation failed" 400 (Some req) None)
     | Some data =>
         i <- update_row Invoice id (cleanUndefined data) ;;
         ret (sendSuccess (VObj i) 200 (Some req))
     end)
    (fun err => ret (sendError (exn_message err) 400 (Some req) None)).

Definition remove (req : Request) : M Response :=
  try_catch
    (id <- lift (validateNumericId (params_id req) "Invoice ID") ;;
     delete_row Invoice id ;;;
     ret no_content)
    (fun err =>
       match exn_code err with
       | Some "P2025" => ret (sendError "Not found" 404 (Some req) None)
       | _ => ret (sendError (exn_message err) 400 (Some req) None)
       end).

(** [new Prisma.Decimal(String(raw))] under [if (raw)] *)
Definition to_decimal (raw : DecimalParam) : M (option Decimal) :=
  match raw with
  | DAbsent => ret None
  | DValue d => ret (Some (DecFinite d))
  | DNonFinite => ret (Some DecNonFinite)
  | DInvalid shown => throw (JsError ("[DecimalError] Invalid argument: " ++ shown))
  end.

(** The [filter] object the handler assembles before the [try]. *)
Definition build_filter (req : Request) : M InvoiceWhere :=
  let status_f := if str_truthy (query req !! "status")
                  then Some (default "" (query req !! "status")) else None in
  let email_f := contains_param req "email" ModeInsensitive in
  lo <- to_decimal (query_minAmount req) ;;
  let amount1 := match lo with
                 | Some d => Some {| gte := Some d; lte := None |}
                 | None => None
                 end in
  hi <- to_decimal (query_maxAmount req) ;;
  let amount2 := match hi with
                 | Some d =>
                     Some {| gte := match amount1 with Some f => gte f | None => None end;
                             lte := Some d |}
                 | None => amount1
                 end in
  ret {| iw_status := status_f;
         iw_taxProfile_user_email := email_f;
         iw_amount := amount2 |}.

Definition list (req : Request) : M Response :=
  let p := inlinePagination (query_page req) (query_limit req) in
  let skip_n := skipOf p in
  filter <- build_filter req ;;
  try_catch
    (total <- count Invoice (decimal_filter_accepted (iw_amount filter))
                (fun s => invoice_matches s filter) ;;
     found <- findMany Invoice (decimal_filter_accepted (iw_amount filter))
                (fun s => invoice_matches s filter) include_owner
                skip_n (limit p) "issuedAt" ;;
     ret (sendSuccess
            (VObj (<["page" := VNum (page p)]>
                     (<["limit" := VNum (limit p)]>
                        (<["total" := VNum (JInt total)]>
                           (<["data" := VArr (VObj <$> found)]> ∅)))))
            200 (Some req)))
    (fun _ => ret (sendError "Internal server error" 500 (Some req) None)).
End InvoiceController.
End InvoiceController.

(** ** src/controllers/auth.controller.ts *)

Module AuthController.
Section AuthController.
Context `{Runtime}.

(** Writes of requests served concurrently: they take effect while this
    handler is suspended between its two store calls. *)
Variable others : Store -> Store.

Definition interleave : M unit := s <- get_db ;; put_db (others s).

(** [req.body.k] *)
Definition field (req : Request) (k : string) : Val :=
  default VUndefined (body req !! k).

(** [res.cookie('access_token', token, ...)] then [sendSuccess(...)]. *)
Definition with_cookie (token : string) (r : Response) : Response :=
  {| status := status r; json := json r; set_cookie := Some token |}.

Definition session_reply (code : Z) (req : Request) (u : Obj) (email name : Val)
    : Response :=
  let token := signJwt {[ "sub" := default VUndefined (u !! "id") ]} in
  with_cookie token
    (sendSuccess
       (VObj (<["token" := VStr token]>
                (<["user" := VObj (<["id" := default VUndefined (u !! "id")]>
                                     (<["email" := email]>
                                        (<["name" := name]> ∅)))]> ∅)))
       code (Some req)).

(** [err.code === 'P2002' && err.meta?.target?.includes('email')] *)
Definition is_email_conflict (err : Exn) : bool :=
  match err with
  | PrismaError (P2002 target) => existsb (String.eqb "email") target
  | _ => false
  end.

Definition register (req : Request) : M Response :=
  let email := field req "email" in
  let password := field req "password" in
  let name := field req "name" in
  try_catch
    (existing <- findUnique_email email ;;
     match existing with
     | Some _ => ret (sendError "Email already used" 409 (Some req) None)
     | None =>
         interleave ;;;
         hashed <- match password with
                   | VStr p => ret (hashPassword p)
                   | _ => throw (JsError "Illegal arguments")
                   end ;;
         u <- create_user email hashed name ;;
         ret (session_reply 201 req u email name)
     end)
    (fun err =>
       if is_email_conflict err
       then ret (sendError "Email already used" 409 (Some req) None)
       else ret (sendError "Registration failed" 500 (Some req) None)).

(** [comparePassword(password, user.password)]; bcrypt throws unless both
    arguments are strings. *)
Definition password_matches (password : Val) (u : Obj) : M bool :=
  match password, u !! "password" with
  | VStr p, Some (VStr h) => ret (comparePassword p h)
  | _, _ => throw (JsError "Illegal arguments")
  end.

Definition login (req : Request) : M Response :=
  let email := field req "email" in
  let password := field req "password" in
  try_catch
    (found <- findUnique_email email ;;
     match found with
     | None => ret (sendError "Invalid credentials" 401 (Some req) None)
     | Some u =>
         ok <- password_matches password u ;;
         if ok
         then ret (session_reply 200 req u
                     (default VUndefined (u !! "email"))
                     (default VUndefined (u !! "name")))
         else ret (sendError "Invalid credentials" 401 (Some req) None)
     end)
    (fun _ => ret (sendError "Login failed" 500 (Some req) None)).

(** [res.clearCookie('access_token', ...)]: the cookie is sent back with an
    empty value (and an expiry in the past). *)
Definition clear_cookie (r : Response) : Response :=
  {| status := status r; json := json r; set_cookie := Some "" |}.

Definition logout (req : Request) : M Response :=
  try_catch
    (ret (clear_cookie
            (sendSuccess (VObj {[ "message" := VStr "Logged out" ]}) 200 (Some req))))
    (fun _ => ret (sendError "Logout failed" 500 (Some req) None)).

(** src/routes/auth.routes.ts: [router.post('/logout', verifyJwt, logout)] *)
Definition logout_route : Request -> M Response := protected logout.
End AuthController.
End AuthController.

(** ** Routes: the handler behind each id-addressed endpoint *)

Inductive Action : Type := Get | Update | Remove.

Section Routes.
Context `{Runtime}.

(** [router.get('/:id', ...)], [router.patch('/:id', ...)],
    [router.delete('/:id', ...)] of the three routers. *)
Definition handler (m : Model) (a : Action) : Request -> M Response :=
  match m, a with
  | User, Get => UserController.get
  | User, Update => UserController.update
  | User, Remove => UserController.remove
  | TaxProfile, Get => TaxProfileController.get
  | TaxProfile, Update => TaxProfileController.update
  | TaxProfile, Remove => TaxProfileController.remove
  | Invoice, Get => InvoiceController.get
  | Invoice, Update => InvoiceController.update
  | Invoice, Remove => InvoiceController.remove
  end.
End Routes.

(** The request as the update handler of [m] has it once it has run
    [safeParse(req.body)] on its schema. *)
Definition parse_body `{Runtime} (m : Model) (req : Request) : Request :=
  {| req_id := req_id req; authorization := authorization req; cookies := cookies req;
     params_id := params_id req; query_page := query_page req;
     query_limit := query_limit req; query := query req;
     query_userId := query_userId req; query_minAmount := query_minAmount req;
     query_maxAmount := query_maxAmount req; body := body req;
     parsed := safeParse (UpdateSchema m) (body req); user := user req |}.

(** The field name each controller passes to [validateNumericId]. *)
Definition id_label (m : Model) : string :=
  match m with
  | User => "User ID"
  | TaxProfile => "Tax Profile ID"
  | Invoice => "Invoice ID"
  end.

(** ** A concrete runtime and sample data, for evaluating the handlers *)

Module Sample.

Definition runtime : Runtime := {|
  now := 1762432496000;
  toISOString := fun _ => "2025-11-06T12:34:56.000Z";
  Date_parse := fun text =>
    if String.eqb text "2025-11-06T12:00:00Z" then Some 1762430400000 else None;
  zod_email := fun text => includes "@" text;
  hashPassword := fun p => "$2a$10$" ++ p;
  comparePassword := fun p h => String.eqb ("$2a$10$" ++ p) h;
  signJwt := fun _ => "header.payload.signature";
  jwt_verify := fun t =>
    if String.eqb t "header.payload.signature"
    then Some (VObj {[ "sub" := VNum (JInt 1) ]}) else None;
  prisma_message := fun c =>
    match c with
    | P2002 _ => "Unique constraint failed"
    | P2003 => "Foreign key constraint violated"
    | P2025 => "No record was found for the operation"
    | PValidation => "Invalid invocation"
    end;
|}.

Definition request : Request := {|
  req_id := Some "req-1";
  authorization := None;
  cookies := ∅;
  params_id := JNaN;
  query_page := JNaN;
  query_limit := JNaN;
  query := ∅;
  query_userId := None;
  query_minAmount := DAbsent;
  query_maxAmount := DAbsent;
  body := ∅;
  parsed := None;
  user := None;
|}.

Definition with_id (i : JsNum) (r : Request) : Request :=
  {| req_id := req_id r; authorization := authorization r; cookies := cookies r;
     params_id := i; query_page := query_page r; query_limit := query_limit r;
     query := query r; query_userId := query_userId r;
     query_minAmount := query_minAmount r; query_maxAmount := query_maxAmount r;
     body := body r; parsed := parsed r; user := user r |}.

Definition with_parsed (d : Obj) (r : Request) : Request :=
  {| req_id := req_id r; authorization := authorization r; cookies := cookies r;
     params_id := params_id r; query_page := query_page r; query_limit := query_limit r;
     query := query r; query_userId := query_userId r;
     query_minAmount := query_minAmount r; query_maxAmount := query_maxAmount r;
     body := body r; parsed := Some d; user := user r |}.

Definition with_body (b : Obj) (r : Request) : Request :=
  {| req_id := req_id r; authorization := authorization r; cookies := cookies r;
     params_id := params_id r; query_page := query_page r; query_limit := query_limit r;
     query := query r; query_userId := query_userId r;
     query_minAmount := query_minAmount r; query_maxAmount := query_maxAmount r;
     body := b; parsed := parsed r; user := user r |}.

Definition with_query (pg lim : JsNum) (q : gmap string string)
    (lo hi : DecimalParam) (r : Request) : Request :=
  {| req_id := req_id r; authorization := authorization r; cookies := cookies r;
     params_id := params_id r; query_page := pg; query_limit := lim;
     query := q; query_userId := query_userId r;
     query_minAmount := lo; query_maxAmount := hi;
     body := body r; parsed := parsed r; user := user r |}.

Definition with_credentials (h : option string) (c : gmap string string)
    (r : Request) : Request :=
  {| req_id := req_id r; authorization := h; cookies := c;
     params_id := params_id r; query_page := query_page r; query_limit := query_limit r;
     query := query r; query_userId := query_userId r;
     query_minAmount := query_minAmount r; query_maxAmount := query_maxAmount r;
     body := body r; parsed := parsed r; user := user r |}.

Definition alice : Obj :=
  <["id" := VNum (JInt 1)]>
    (<["email" := VStr "Alice@Example.com"]>
       (<["password" := VStr "$2a$10$SuperSecret123!"]>
          (<["name" := VStr "Alice"]>
             (<["createdAt" := VDate 1762420000000]>
                (<["updatedAt" := VDate 1762420000000]> ∅))))).

Definition profile : Obj :=
  <["id" := VNum (JInt 1)]>
    (<["userId" := VNum (JInt 1)]>
       (<["name" := VStr "Primary Business"]>
          (<["tax_id_number" := VStr "US12-3456789"]>
             (<["address" := VStr "123 Business Street, New York"]>
                (<["createdAt" := VDate 1762420000000]>
                   (<["updatedAt" := VDate 1762420000000]> ∅)))))).

Definition invoice (i : Z) (amount : Q) (st : string) : Obj :=
  <["id" := VNum (JInt i)]>
    (<["taxProfileId" := VNum (JInt 1)]>
       (<["amount" := VDecimal amount]>
          (<["status" := VStr st]>
             (<["issuedAt" := VDate (1762420000000 + i)]> ∅)))).

Definition empty : Store :=
  {| users := []; taxProfiles := []; invoices := []; next_user_id := 1 |}.

Definition store : Store :=
  {| users := [alice];
     taxProfiles := [profile];
     invoices := [invoice 1 (10055 # 100) "draft"; invoice 2 (15075 # 100) "sent";
                  invoice 3 (5 # 1) "sent"];
     next_user_id := 2 |}.

(** A store holding [n] draft invoices. *)
Definition crowded (n : nat) : Store :=
  {| users := [alice];
     taxProfiles := [profile];
     invoices := List.map (fun i => invoice (Z.of_nat i) (1 # 1) "draft") (seq 1 n);
     next_user_id := 2 |}.

Definition world (s : Store) : World := {| db := s; calls := [] |}.

(** Request bodies *)
Definition rename_body : Obj :=
  <["name" := VStr "Alice Updated"]>
    (<["password" := VStr "NewPassword123!"]>
       (<["email" := VUndefined]> ∅)).

Definition signup_body : Obj :=
  <["email" := VStr "Alice@Example.com"]>
    (<["password" := VStr "AnotherSecret1!"]>
       (<["name" := VStr "Impostor"]> ∅)).

Definition login_body : Obj :=
  <["email" := VStr "Alice@Example.com"]>
    (<["password" := VStr "WrongPassword1!"]> ∅).

Definition paid_body : Obj := {[ "status" := VStr "paid" ]}.


Definition no_password_body : Obj := {[ "email" := VStr "Alice@Example.com" ]}.

Definition bob_body : Obj :=
  <["email" := VStr "bob@example.com"]>
    (<["password" := VStr "SuperSecret123!"]>
       (<["name" := VStr "Bob"]> ∅)).

End Sample.

(** Reading a response. *)
Definition data_field (r : Response) (k : string) : option Val :=
  match json r with
  | Some o =>
      match o !! "data" with
      | Some (VObj d) => d !! k
      | _ => None
      end
  | None => None
  end.

Definition items (r : Response) : list Val :=
  match data_field r "data" with
  | Some (VArr l) => l
  | _ => []
  end.

(** The response a handler run ends in, if no exception leaves it. *)
Definition answered (out : (Exn + Response) * World) : option Response :=
  match fst out with
  | inr r => Some r
  | inl _ => None
  end.

(** * Vocabulary of the properties *)

(** A field the serialised body carries: present, and not [undefined]. *)
Definition carried (o : Obj) (k : string) : bool :=
  match o !! k with
  | Some v => negb (is_undefined v)
  | None => false
  end.

(** The base shape: a boolean [success], a [timestamp], and [data] without
    [error] on success or a string [error] without [data] on failure. *)
Definition has_envelope (r : Response) : bool :=
  match json r with
  | None => false
  | Some o =>
      carried o "timestamp"
      && match o !! "success" with
         | Some (VBool true) => carried o "data" && negb (carried o "error")
         | Some (VBool false) =>
             match o !! "error" with Some (VStr _) => true | _ => false end
             && negb (carried o "data")
         | _ => false
         end
  end.

(** The extra fields of an error response leave the base fields alone. *)
Definition extra_keeps_base (extra : option Obj) : Prop :=
  forall o, extra = Some o ->
    o !! "success" = None /\ o !! "data" = None
    /\ o !! "error" = None /\ o !! "timestamp" = None.

(** Every response of every id-addressed endpoint has the base shape. *)
Definition every_response_enveloped `{Runtime} : Prop :=
  forall (m : Model) (a : Action) (req : Request) (w : World) (r : Response),
    fst (handler m a req w) = inr r -> has_envelope r = true.

Definition invalid_id_message (m : Model) : string :=
  "Invalid " ++ id_label m ++ " format. Must be a positive integer.".

(** [Number(id)] is a positive integer. *)
Definition positive_integer (n : JsNum) : Prop :=
  Number_isInteger n = true /\ js_le n (JInt 0) = false.

(** An id that fits the 32-bit [INTEGER] column the ids are stored in. *)
Definition fits_id_column (n : JsNum) : Prop := js_le n (JInt 2147483647) = true.

(** [needle] occurs in [hay] as it stands. *)
Definition contains_text (needle hay : string) : Prop :=
  exists pre post, hay = pre ++ needle ++ post.

(** The same, decided by scanning [hay]. *)
Fixpoint occurs (needle hay : string) : bool :=
  String.prefix needle hay
  || match hay with
     | EmptyString => false
     | String _ rest => occurs needle rest
     end.

(** No character of [s] is special in a [LIKE] pattern. *)
Fixpoint wildcard_free (s : string) : bool :=
  match s with
  | EmptyString => true
  | String c rest =>
      negb (Ascii.eqb c "%"%char) && negb (Ascii.eqb c "_"%char)
      && negb (Ascii.eqb c "092"%char) && wildcard_free rest
  end.

(** Rows of a table with the same id are the same row (the primary key). *)
Definition unique_ids (rows : list Obj) : Prop :=
  forall a b i, In a rows -> In b rows ->
    has_id i a = true -> has_id i b = true -> a = b.

(** [addr] is the e-mail address of the account that owns invoice [inv]:
    the user that the tax profile of [inv] names. *)
Definition owner_address (s : Store) (inv : Obj) (addr : string) : Prop :=
  exists p u t i,
    inv !! "taxProfileId" = Some (VNum t)
    /\ In p (taxProfiles s) /\ has_id t p = true
    /\ p !! "userId" = Some (VNum i)
    /\ In u (users s) /\ has_id i u = true
    /\ u !! "email" = Some (VStr addr).

(** [o] is invoice [inv] with its owner attached: the columns of [inv]
    and, under [taxProfile], the tax profile [inv] names, which carries
    under [user] the account it names. *)
Definition with_owner_attached (s : Store) (inv o : Obj) : Prop :=
  (forall k, k <> "taxProfile" -> o !! k = inv !! k)
  /\ forall t p,
       inv !! "taxProfileId" = Some (VNum t) ->
       In p (taxProfiles s) -> has_id t p = true ->
       exists p',
         o !! "taxProfile" = Some (VObj p')
         /\ (forall k, k <> "user" -> p' !! k = p !! k)
         /\ forall i u,
              p !! "userId" = Some (VNum i) ->
              In u (users s) -> has_id i u = true ->
              p' !! "user" = Some (VObj u).

(** The selection the invoice list is described by: every filter that is
    given must hold of the record. *)
Definition invoice_selected (s : Store) (req : Request) (r : Obj) : Prop :=
  (forall st, query req !! "status" = Some st -> st <> "" ->
     r !! "status" = Some (VStr st))
  /\ (forall e, query req !! "email" = Some e -> e <> "" ->
        exists addr, owner_address s r addr /\ contains_text (lower e) (lower addr))
  /\ (forall lo, query_minAmount req = DValue lo ->
        exists a, r !! "amount" = Some (VDecimal a) /\ (lo <= a)%Q)
  /\ (forall hi, query_maxAmount req = DValue hi ->
        exists a, r !! "amount" = Some (VDecimal a) /\ (a <= hi)%Q).

(** The bound a parameter that the [Decimal] constructor accepts gives. *)
Definition bound_of (d : DecimalParam) : option Decimal :=
  match d with
  | DValue q => Some (DecFinite q)
  | DNonFinite => Some DecNonFinite
  | _ => None
  end.

(** The filter [build_filter] assembles when both amounts are well formed. *)
Definition assembled_filter (req : Request) : InvoiceWhere :=
  {| iw_status := if str_truthy (query req !! "status")
                  then Some (default "" (query req !! "status")) else None;
     iw_taxProfile_user_email := contains_param req "email" ModeInsensitive;
     iw_amount :=
       match bound_of (query_minAmount req), bound_of (query_maxAmount req) with
       | None, None => None
       | lo, hi => Some {| gte := lo; lte := hi |}
       end |}.

(** An amount bound that is left out or is a finite decimal. *)
Definition finite_or_absent (d : DecimalParam) : Prop :=
  d = DAbsent \/ exists q, d = DValue q.

(** What the [Password] schema accepts for the optional [password] field:
    a string of at least 12 characters. *)
Definition validated_password (data : Obj) : Prop :=
  forall v, data !! "password" = Some v ->
    v = VUndefined \/ exists p, v = VStr p /\ (12 <= String.length p)%nat.

(** The value stored for column [k] when the body supplies [v]: the bcrypt
    hash for a user's password, [v] itself otherwise. *)
Definition stored `{Runtime} (m : Model) (k : string) (v : Val) : Val :=
  match m, v with
  | User, VStr p => if String.eqb k "password" then VStr (hashPassword p) else v
  | _, _ => v
  end.

(** The [data] a controller hands to the store for a validated body. *)
Definition update_data `{Runtime} (m : Model) (data : Obj) : Obj :=
  match m with
  | User =>
      match cleanUndefined data !! "password" with
      | Some (VStr p) => <["password" := VStr (hashPassword p)]> (cleanUndefined data)
      | _ => cleanUndefined data
      end
  | _ => cleanUndefined data
  end.

(** The schema a shape has for key [k]. *)
Fixpoint schema_of (k : string) (shape : list (string * Schema)) : option Schema :=
  match shape with
  | [] => None
  | (k', f) :: rest => if String.eqb k k' then Some f else schema_of k rest
  end.

(** The value the parsed object has at a key whose schema gave [v]. *)
Definition parsed_value (input : Obj) (k : string) (v : Val) : option Val :=
  match v with
  | VUndefined =>
      match input !! k with
      | Some _ => Some VUndefined
      | None => None
      end
  | _ => Some v
  end.

(** Some account has the e-mail address [e]. *)
Definition email_taken (e : string) (s : Store) : Prop :=
  exists u, In u (users s) /\ u !! "email" = Some (VStr e).



(** [s] contains a space. *)
Fixpoint has_space (s : string) : bool :=
  match s with
  | EmptyString => false
  | String c rest => Ascii.eqb c " "%char || has_space rest
  end.

(** The row [r] names, under column [k], the id of one of [owners]. *)
Definition owner_exists (k : string) (owners : list Obj) (r : Obj) : bool :=
  match r !! k with
  | Some (VNum n) => existsb (has_id n) owners
  | _ => false
  end.

(** Referential integrity: every tax profile has its user and every
    invoice its tax profile (the two foreign keys of the migration). *)
Definition references_hold (s : Store) : Prop :=
  (forall p, In p (taxProfiles s) -> owner_exists "userId" (users s) p = true)
  /\ (forall i, In i (invoices s) -> owner_exists "taxProfileId" (taxProfiles s) i = true).

(** What the update schemas let through: no [id] field (unknown keys are
    stripped), and [userId] and [taxProfileId], when given, are numbers. *)
Definition schema_shaped (data : Obj) : Prop :=
  data !! "id" = None
  /\ (forall v, data !! "userId" = Some v -> v = VUndefined \/ exists n, v = VNum n)
  /\ (forall v, data !! "taxProfileId" = Some v -> v = VUndefined \/ exists n, v = VNum n).

(** The [data] that reaches the store: no [id], and numeric owner ids. *)
Definition store_shaped (data : Obj) : Prop :=
  data !! "id" = None
  /\ (forall v, data !! "userId" = Some v -> exists n, v = VNum n)
  /\ (forall v, data !! "taxProfileId" = Some v -> exists n, v = VNum n).

(** The e-mail addresses of the accounts, in table order. *)
Definition emails (s : Store) : list string :=
  omap (fun u => match u !! "email" with
                 | Some (VStr e) => Some e
                 | _ => None
                 end) (users s).

(** Every element of a list stands in [R] to each one after it. *)
Fixpoint pairwise (R : Obj -> Obj -> Prop) (l : list Obj) : Prop :=
  match l with
  | [] => True
  | x :: rest => (forall y, In y rest -> R x y) /\ pairwise R rest
  end.

(** The records of an array, largest value of the ordering field [k] first. *)
Definition descending (k : string) (vs : list Val) : Prop :=
  exists rows,
    vs = VObj <$> rows
    /\ pairwise (fun a b => sort_key k b <= sort_key k a) rows.

(** * Properties *)

(** ** The model on the documented examples *)

Example getPagination_doc1 :
  getPagination (JInt 5) (JInt 50) = {| page := JInt 5; limit := JInt 50 |}.
Proof. reflexivity. Qed.

Example getPagination_doc2 :
  getPagination (JInt (-1)) (JInt 999) = {| page := JInt 1; limit := JInt 100 |}.
Proof. reflexivity. Qed.

Example getPagination_doc3 :
  getPagination JNaN JNaN = {| page := JInt 1; limit := JInt 10 |}.
Proof. reflexivity. Qed.

Example inlinePagination_999 :
  inlinePagination (JInt 1) (JInt 999) = {| page := JInt 1; limit := JInt 999 |}.
Proof. reflexivity. Qed.

Example split_space_bearer : split_space "Bearer abc.def" = ["Bearer"; "abc.def"].
Proof. reflexivity. Qed.

Example split_space_single : split_space "Bearer" = ["Bearer"].
Proof. reflexivity. Qed.

Example includes_ci_ex : includes_ci "alice" "Alice@Test.com" = true
                         /\ includes "alice" "Alice@Test.com" = false.
Proof. split; reflexivity. Qed.

Example validateNumericId_7 : validateNumericId (JInt 7) "ID" = inr (JInt 7).
Proof. reflexivity. Qed.

Example validateNumericId_0 :
  validateNumericId (JInt 0) "User ID"
  = inl (JsError "Invalid User ID format. Must be a positive integer.").
Proof. reflexivity. Qed.

Example validateNumericId_half : validateNumericId (JNum (3 # 2)) "ID"
  = inl (JsError "Invalid ID format. Must be a positive integer.").
Proof. reflexivity. Qed.

(** Unfolding a handler run, and splitting it along its branches. *)

Ltac run_handler :=
  cbv beta iota zeta delta
    [UserService.getUser UserService.updateUser UserService.deleteUser
     findUnique update_row delete_row count findMany
     try_catch bind ret throw lift call get_db put_db];
  cbn [db calls fst snd table].

Ltac open_controllers :=
  unfold UserController.get, UserController.update, UserController.remove,
    TaxProfileController.get, TaxProfileController.update, TaxProfileController.remove,
    InvoiceController.get, InvoiceController.update, InvoiceController.remove,
    UserController.hash_supplied_password.

Ltac case_run :=
  repeat (run_handler;
          match goal with
          | |- context [validateNumericId ?n ?f] => destruct (validateNumericId n f)
          | |- context [parsed ?r] => destruct (parsed r)
          | |- context [cleanUndefined ?d !! ?k] => destruct (cleanUndefined d !! k)
          | |- context [val_truthy ?v] => destruct (val_truthy v)
          | |- context [client_rejects ?m ?d] => destruct (client_rejects m d)
          | |- context [List.find ?p ?l] => destruct (List.find p l)
          | |- context [update_violation ?m ?i ?d ?s] =>
              destruct (update_violation m i d s)
          | |- context [exn_code ?e] => destruct e as [? | []]; cbn [exn_code]
          | |- context [match ?v with VStr _ => _ | _ => _ end] => destruct v
          end).

(** ** Pagination *)

Lemma js_le_refl_int (z : Z) : js_le (JInt z) (JInt z) = true.
Proof. simpl. apply Qle_bool_iff. apply Qle_refl. Qed.

Lemma Math_min_le_r (a b : JsNum) :
  Number_isNaN a = false -> js_le b b = true -> js_le (Math_min a b) b = true.
Proof.
  intros Ha Hb. unfold Math_min.
  destruct a; try discriminate; destruct b; try discriminate;
    match goal with
    | |- context [if ?c then _ else _] => destruct c eqn:E; auto
    end.
Qed.

(** [getPagination] normalises as documented: page 1 and limit 10 for a
    missing, non-numeric or below-one value, and never a limit above 100. *)
Lemma getPagination_normalizes (rawPage rawLimit : JsNum) :
  let p := getPagination rawPage rawLimit in
  (Number_isNaN rawPage = true \/ js_lt rawPage (JInt 1) = true -> page p = JInt 1)
  /\ (Number_isNaN rawLimit = true \/ js_lt rawLimit (JInt 1) = true -> limit p = JInt 10)
  /\ (js_lt MAX_LIMIT rawLimit = true -> limit p = JInt 100)
  /\ js_le (limit p) MAX_LIMIT = true
  /\ js_le (JInt 1) (page p) = true.
Proof.
  cbn zeta. unfold getPagination; cbn [page limit].
  repeat split.
  - intros [-> | ->]; [reflexivity | now rewrite orb_true_r].
  - intros [-> | ->]; [reflexivity | now rewrite orb_true_r].
  - intros Hgt.
    destruct rawLimit as [| q | |]; try discriminate.
    + cbn in Hgt. cbn [Number_isNaN orb].
      destruct (js_lt (JNum q) (JInt 1)) eqn:Hlt.
      * exfalso. cbn in Hlt.
        apply negb_true_iff in Hgt, Hlt.
        apply not_true_iff_false in Hgt, Hlt.
        rewrite Qle_bool_iff in Hgt, Hlt.
        apply Qnot_le_lt in Hgt, Hlt.
        assert (Hc : (inject_Z 100 < inject_Z 1)%Q)
          by (eapply Qlt_trans; eassumption).
        revert Hc. unfold Qlt; cbn. lia.
      * unfold Math_min, MAX_LIMIT. cbn [js_le JInt].
        apply negb_true_iff in Hgt. now rewrite Hgt.
    + reflexivity.
  - destruct (Number_isNaN rawLimit) eqn:Hn; cbn [orb]; [reflexivity |].
    destruct (js_lt rawLimit (JInt 1)); [reflexivity |].
    apply Math_min_le_r; [assumption | reflexivity].
  - destruct (Number_isNaN rawPage) eqn:Hn; cbn [orb]; [reflexivity |].
    destruct (js_lt rawPage (JInt 1)) eqn:Hlt; [reflexivity |].
    destruct rawPage as [| q | |]; try discriminate.
    + cbn in Hlt |- *. now apply negb_false_iff in Hlt.
    + reflexivity.
Qed.

(** C1 (the defect): on the invoice and tax-profile lists the paging
    values are taken as [Number(x) || default], without [getPagination].
    A request with [limit=999] keeps the limit 999, and on a store of 101
    invoices the page holds all 101 rows, more than the maximum of 100. *)
Theorem C1_invoice_list_limit_999_not_clamped :
  let req := Sample.with_query JNaN (JInt 999) ∅ DAbsent DAbsent Sample.request in
  let r := answered (@InvoiceController.list Sample.runtime req
                       (Sample.world (Sample.crowded 101))) in
  let r' := answered (@TaxProfileController.list Sample.runtime req
                        (Sample.world Sample.store)) in
  limit (inlinePagination (query_page req) (query_limit req)) = JInt 999
  /\ limit (getPagination (query_page req) (query_limit req)) = JInt 100
  /\ status <$> r = Some 200
  /\ (r ≫= fun r => data_field r "limit") = Some (VNum (JInt 999))
  /\ (length ∘ items) <$> r = Some 101%nat
  /\ (r' ≫= fun r => data_field r "limit") = Some (VNum (JInt 999)).
Proof.
  cbn zeta. repeat split; vm_compute; reflexivity.
Qed.

(** ** The auth gate *)

Lemma str_truthy_Some (t : string) : t <> "" -> str_truthy (Some t) = true.
Proof.
  intros Hne. unfold str_truthy.
  destruct (String.eqb t "") eqn:E; [| reflexivity].
  apply String.eqb_eq in E. contradiction.
Qed.



(** ** The response envelope *)

Lemma requestIdField_lookup (req : option Request) (k : string) :
  k <> "requestId" -> requestIdField req !! k = None.
Proof.
  intros Hk. unfold requestIdField.
  destruct req as [r |]; [| apply lookup_empty].
  destruct (req_id r) as [i |]; [| apply lookup_empty].
  destruct (String.eqb i ""); [apply lookup_empty |].
  now apply lookup_singleton_ne.
Qed.

Lemma sendSuccess_has_envelope `{Runtime} (data : Val) (code : Z) (req : option Request) :
  is_undefined data = false -> has_envelope (sendSuccess data code req) = true.
Proof.
  intros Hd. unfold has_envelope, sendSuccess, carried, spread; cbn [json].
  rewrite !lookup_union_r by (apply requestIdField_lookup; discriminate).
  simplify_map_eq. now rewrite Hd.
Qed.

Lemma sendError_has_envelope `{Runtime} (error : string) (code : Z)
    (req : option Request) (extra : option Obj) :
  extra_keeps_base extra -> has_envelope (sendError error code req extra) = true.
Proof.
  intros Hx. unfold has_envelope, sendError, carried, spread; cbn [json].
  assert (Hnone : forall k, k = "success" \/ k = "data" \/ k = "error" \/ k = "timestamp" ->
                            default ∅ extra !! k = None).
  { intros k Hk. destruct extra as [o |]; [| apply lookup_empty].
    destruct (Hx o eq_refl) as (H1 & H2 & H3 & H4). cbn.
    destruct Hk as [-> | [-> | [-> | ->]]]; assumption. }
  rewrite !(lookup_union_r (default ∅ extra)) by (apply Hnone; tauto).
  rewrite !lookup_union_r by (apply requestIdField_lookup; discriminate).
  now simplify_map_eq.
Qed.

Lemma no_extra_keeps_base : extra_keeps_base None.
Proof. intros o [=]. Qed.

(** What the id-addressed endpoints answer: an enveloped body, or the bare
    204 of a delete. *)
Lemma handler_response_shape `{Runtime} (m : Model) (a : Action) (req : Request)
    (w : World) (r : Response) :
  fst (handler m a req w) = inr r ->
  has_envelope r = true \/ (a = Remove /\ r = no_content).
Proof.
  destruct m, a; cbn [handler]; open_controllers; case_run;
    cbn [fst]; intros [= <-];
    first [ left; apply sendSuccess_has_envelope; reflexivity
          | left; apply sendError_has_envelope; apply no_extra_keeps_base
          | right; split; reflexivity ].
Qed.

(** C3 (as amended): a response built by [sendSuccess] from a defined
    payload, or by [sendError], carries a boolean [success], a [timestamp],
    and [data] alone (success) or a string [error] alone (failure); extra
    fields on an error response keep that shape when none of them is named
    success, data, error or timestamp, as is the case for the one extra
    the program passes, [errorId]. Every response of a get, update or
    delete endpoint has that shape, except the 204 of a delete, which has
    no body. *)
Theorem C3_envelope_of_sendSuccess_sendError `{Runtime} :
  (forall data code req,
      is_undefined data = false -> has_envelope (sendSuccess data code req) = true)
  /\ (forall error code req extra,
        extra_keeps_base extra -> has_envelope (sendError error code req extra) = true)
  /\ (forall errorId, extra_keeps_base (Some {[ "errorId" := VStr errorId ]}))
  /\ (forall m a req w r,
        fst (handler m a req w) = inr r ->
        has_envelope r = true \/ (a = Remove /\ r = no_content /\ json r = None)).
Proof.
  split; [| split; [| split]].
  - intros. now apply sendSuccess_has_envelope.
  - intros. now apply sendError_has_envelope.
  - intros errorId o [= <-]. now rewrite !lookup_singleton_ne by discriminate.
  - intros m a req w r Hrun.
    destruct (handler_response_shape m a req w r Hrun) as [Hok | [Ha ->]];
      [now left | right; repeat split; exact Ha].
Qed.

Lemma C3_envelope_witness :
  has_envelope (@sendSuccess Sample.runtime (VObj Sample.alice) 200 (Some Sample.request))
  = true
  /\ has_envelope (@sendError Sample.runtime "Internal server error" 500
                     (Some Sample.request) (Some {[ "errorId" := VStr "1762432496000" ]}))
     = true.
Proof.
  destruct (@C3_envelope_of_sendSuccess_sendError Sample.runtime) as (Hs & He & Hx & _).
  split.
  - apply Hs. reflexivity.
  - apply He. apply Hx.
Defined.

(** C3 (as stated) fails: the successful delete of invoice 2 is answered
    204 with no body, so the response carries neither [success] nor
    [timestamp]. *)
Lemma C3_counterexample_delete_has_no_body :
  ~ @every_response_enveloped Sample.runtime.
Proof.
  intros Hall.
  specialize (Hall Invoice Remove (Sample.with_id (JInt 2) Sample.request)
                (Sample.world Sample.store) no_content).
  assert (Hrun : fst (@handler Sample.runtime Invoice Remove
                        (Sample.with_id (JInt 2) Sample.request)
                        (Sample.world Sample.store)) = inr no_content)
    by (vm_compute; reflexivity).
  specialize (Hall Hrun). discriminate Hall.
Qed.

(** The auth gate answers outside the envelope: its body is the bare
    [{ error }]. *)
Example gate_rejection_has_no_envelope :
  has_envelope (bare_error 401 "Missing token") = false.
Proof. reflexivity. Qed.

(** ** The user list stays within the maximum page size *)

Lemma getPagination_limit_ge_1 (rawPage rawLimit : JsNum) :
  js_le (JInt 1) (limit (getPagination rawPage rawLimit)) = true.
Proof.
  unfold getPagination; cbn [limit].
  destruct (Number_isNaN rawLimit) eqn:Hn; cbn [orb]; [reflexivity |].
  destruct (js_lt rawLimit (JInt 1)) eqn:Hlt; [reflexivity |].
  destruct rawLimit as [| q | |]; try discriminate; [| reflexivity].
  cbn in Hlt. apply negb_false_iff in Hlt.
  unfold Math_min, MAX_LIMIT. cbn [js_le JInt].
  destruct (Qle_bool q (inject_Z 100)); [exact Hlt | reflexivity].
Qed.

(** The integer part of a number between two non-negative integers lies
    between them. *)
Lemma to_int64_between (n : JsNum) (a b t : Z) :
  0 <= a ->
  js_le (JInt a) n = true -> js_le n (JInt b) = true -> to_int64 n = Some t ->
  a <= t <= b.
Proof.
  intros H0. destruct n as [| q | |]; try discriminate.
  unfold to_int64, JInt, js_le.
  intros Ha Hb. apply Qle_bool_iff in Ha, Hb.
  unfold Qle, inject_Z in Ha, Hb; cbn [Qnum Qden] in Ha, Hb.
  cbn zeta. destruct (_ && _); [| discriminate].
  intros [= <-].
  rewrite Z.quot_div_nonneg by nia.
  pose proof (Z.div_mod (Qnum q) (Z.pos (Qden q)) ltac:(lia)) as Hdm.
  pose proof (Z.mod_pos_bound (Qnum q) (Z.pos (Qden q)) ltac:(lia)) as Hmod.
  nia.
Qed.


Lemma page_rows_at_most (sk tk : JsNum) (t : Z) (rows pg : list Obj) :
  page_rows sk tk rows = Some pg -> to_int64 tk = Some t -> 0 <= t ->
  Z.of_nat (length pg) <= t.
Proof.
  unfold page_rows. intros Hp Ht Hpos. rewrite Ht in Hp.
  destruct (to_int64 sk) as [s |]; [| discriminate].
  destruct (s <? 0); [discriminate |].
  destruct (0 <=? t) eqn:E; [| apply Z.leb_gt in E; lia].
  injection Hp as <-. rewrite length_firstn. lia.
Qed.

Lemma items_sendError `{Runtime} (e : string) (code : Z) (req : option Request) :
  items (sendError e code req None) = [].
Proof.
  unfold items, data_field, sendError, spread; cbn [json default].
  rewrite lookup_union_r by apply lookup_empty.
  rewrite lookup_union_r by (apply requestIdField_lookup; discriminate).
  now simplify_map_eq.
Qed.

Lemma items_sendSuccess `{Runtime} (d : Obj) (l : list Val) (code : Z)
    (req : option Request) :
  d !! "data" = Some (VArr l) -> items (sendSuccess (VObj d) code req) = l.
Proof.
  intros Hd. unfold items, data_field, sendSuccess, spread; cbn [json].
  rewrite lookup_union_r by (apply requestIdField_lookup; discriminate).
  now simplify_map_eq.
Qed.

(** The user list goes through [getPagination]: whatever the request, a
    page never holds more than 100 records. *)
Lemma user_list_at_most_100 `{Runtime} (req : Request) (w : World) (r : Response) :
  answered (UserController.list req w) = Some r -> (length (items r) <= 100)%nat.
Proof.
  unfold answered, UserController.list, UserService.listUsers.
  set (p := getPagination (query_page req) (query_limit req)).
  run_handler.
  destruct (page_rows _ (limit p) _) as [rows |] eqn:Hrows; run_handler.
  - intros [= <-]. erewrite items_sendSuccess by (now simplify_map_eq).
    rewrite length_fmap, length_map.
    destruct (to_int64 (limit p)) as [t |] eqn:Ht.
    + assert (Hb : 1 <= t <= 100).
      { apply (to_int64_between (limit p)); [lia | | | exact Ht].
        - apply getPagination_limit_ge_1.
        - apply getPagination_normalizes. }
      pose proof (page_rows_at_most _ _ t _ _ Hrows Ht ltac:(lia)). lia.
    + unfold page_rows in Hrows. rewrite Ht in Hrows.
      destruct (to_int64 _); discriminate.
  - intros [= <-]. rewrite items_sendError. cbn. lia.
Qed.

(** ** Ids: malformed against missing *)

Lemma validateNumericId_ok (n : JsNum) (f : string) :
  positive_integer n -> validateNumericId n f = inr n.
Proof. intros [Hi Hp]. unfold validateNumericId. now rewrite Hi, Hp. Qed.

Lemma validateNumericId_bad (n : JsNum) (f : string) :
  ~ positive_integer n ->
  validateNumericId n f = inl (JsError ("Invalid " ++ f ++ " format. Must be a positive integer.")).
Proof.
  intros Hn. unfold validateNumericId, positive_integer in *.
  destruct (Number_isInteger n); [| reflexivity].
  destruct (js_le n (JInt 0)); [reflexivity |]. exfalso. now apply Hn.
Qed.

Lemma cleanUndefined_lookup (obj : Obj) (k : string) :
  cleanUndefined obj !! k
  = match obj !! k with
    | Some v => if is_undefined v then None else Some v
    | None => None
    end.
Proof.
  unfold cleanUndefined. rewrite map_lookup_filter.
  destruct (obj !! k) as [v |]; [| reflexivity]. cbn.
  destruct (is_undefined v); reflexivity.
Qed.

Lemma hash_supplied_password_validated `{Runtime} (data : Obj) (w : World) :
  validated_password data ->
  UserController.hash_supplied_password (cleanUndefined data) w
  = (inr (update_data User data), w).
Proof.
  intros Hv. unfold UserController.hash_supplied_password, update_data.
  rewrite cleanUndefined_lookup.
  destruct (data !! "password") as [v |] eqn:E; [| reflexivity].
  destruct (Hv v E) as [-> | (p & -> & Hlen)]; [reflexivity |].
  cbn [is_undefined val_truthy].
  destruct p as [| c p]; [cbn in Hlen; lia | reflexivity].
Qed.

(** ** The schemas of the update bodies *)

Lemma object_key_lookup_ne (input : Obj) (k k' : string) (v : Val) (data : Obj) :
  k' <> k -> object_key input k v data !! k' = data !! k'.
Proof.
  intros Hne. unfold object_key.
  destruct v; try (now rewrite lookup_insert_ne by congruence).
  destruct (input !! k); [now rewrite lookup_insert_ne by congruence | reflexivity].
Qed.

Lemma object_key_lookup_eq (input : Obj) (k : string) (v : Val) (data : Obj) :
  data !! k = None -> object_key input k v data !! k = parsed_value input k v.
Proof.
  intros Hnone. unfold object_key, parsed_value.
  destruct v; try apply lookup_insert_eq.
  destruct (input !! k); [apply lookup_insert_eq | exact Hnone].
Qed.

Lemma safeParse_cons (k : string) (f : Schema) (shape : list (string * Schema))
    (input : Obj) :
  safeParse ((k, f) :: shape) input
  = (data ← safeParse shape input;
     v ← run f (default VUndefined (input !! k));
     Some (object_key input k v data)).
Proof. reflexivity. Qed.

(** A key outside the shape is dropped. *)
Lemma safeParse_lookup_outside (shape : list (string * Schema)) (input data : Obj)
    (k : string) :
  safeParse shape input = Some data -> schema_of k shape = None -> data !! k = None.
Proof.
  revert data. induction shape as [| [k' f] shape IH]; intros data.
  - intros [= <-] _. apply lookup_empty.
  - rewrite safeParse_cons. cbn [schema_of].
    destruct (safeParse shape input) as [data' |]; [| discriminate]. cbn.
    destruct (run f _) as [v |]; [| discriminate]. cbn. intros [= <-].
    destruct (String.eqb k k') eqn:E; [discriminate |].
    apply String.eqb_neq in E. intros Hk.
    rewrite object_key_lookup_ne by exact E. now apply IH.
Qed.

(** A key of the shape holds what its schema parses the input's value to. *)
Lemma safeParse_lookup (shape : list (string * Schema)) (input data : Obj)
    (k : string) (f : Schema) :
  NoDup shape.*1 ->
  safeParse shape input = Some data -> schema_of k shape = Some f ->
  exists v, run f (default VUndefined (input !! k)) = Some v
            /\ data !! k = parsed_value input k v.
Proof.
  revert data. induction shape as [| [k' f'] shape IH]; intros data Hnd.
  - intros _ [=].
  - rewrite safeParse_cons. cbn [schema_of].
    apply NoDup_cons in Hnd as [Hk' Hnd].
    destruct (safeParse shape input) as [data' |] eqn:Hrest; [| discriminate]. cbn.
    destruct (run f' _) as [v |] eqn:Hrun; [| discriminate]. cbn. intros [= <-].
    destruct (String.eqb k k') eqn:E.
    + apply String.eqb_eq in E. subst k'. intros [= <-]. exists v.
      split; [exact Hrun |]. apply object_key_lookup_eq.
      apply (safeParse_lookup_outside shape input data' k Hrest).
      clear - Hk'. induction shape as [| [k2 f2] shape IH]; [reflexivity |].
      cbn [schema_of]. cbn in Hk'. apply not_elem_of_cons in Hk' as [Hne Hk'].
      destruct (String.eqb k k2) eqn:E; [apply String.eqb_eq in E; congruence |].
      now apply IH.
    + apply String.eqb_neq in E. intros Hf.
      rewrite object_key_lookup_ne by exact E. now apply IH.
Qed.

Lemma NoDup_UpdateSchema `{Runtime} (m : Model) : NoDup (UpdateSchema m).*1.
Proof. destruct m; apply (bool_decide_unpack _); vm_compute; exact I. Qed.

(** The user update schema lets through a password of at least twelve
    characters, or none. *)
Lemma UserUpdateSchema_password `{Runtime} (body data : Obj) :
  safeParse UserUpdateSchema body = Some data -> validated_password data.
Proof.
  intros Hparse v Hv.
  destruct (safeParse_lookup _ body data "password" (z_optional Password)
              (NoDup_UpdateSchema User) Hparse eq_refl) as (x & Hrun & Hdata).
  rewrite Hdata in Hv. clear Hdata.
  unfold z_optional, Password, z_string in Hrun. cbn [run optin] in Hrun.
  destruct (default VUndefined (body !! "password")) as [| | | | p | | | | |];
    try discriminate.
  - injection Hrun as <-. unfold parsed_value in Hv.
    destruct (body !! "password"); [| discriminate].
    injection Hv as <-. now left.
  - destruct (12 <=? String.length p)%nat eqn:Hlen; [| discriminate].
    injection Hrun as <-. injection Hv as <-. right. exists p.
    split; [reflexivity | now apply Nat.leb_le].
Qed.

(** A field the body leaves out is left out of the parsed data, except the
    [issuedAt] of an invoice. *)
Lemma UpdateSchema_omitted `{Runtime} (m : Model) (body data : Obj) (k : string) :
  safeParse (UpdateSchema m) body = Some data ->
  body !! k = None -> (m = Invoice -> k <> "issuedAt") ->
  data !! k = None.
Proof.
  intros Hparse Hbody Hk.
  destruct (schema_of k (UpdateSchema m)) as [f |] eqn:Hf;
    [| exact (safeParse_lookup_outside _ body data k Hparse Hf)].
  destruct (safeParse_lookup _ body data k f (NoDup_UpdateSchema m) Hparse Hf)
    as (v & Hrun & ->).
  unfold parsed_value. rewrite Hbody in Hrun |- *. cbn [default from_option id] in Hrun.
  assert (Hv : v = VUndefined).
  { destruct m; cbn in Hf;
      repeat match type of Hf with
             | (if String.eqb ?a ?b then _ else _) = _ =>
                 destruct (String.eqb a b) eqn:?
             end;
      try discriminate; injection Hf as <-; cbn in Hrun;
      try (now injection Hrun as <-).
    exfalso. apply (Hk eq_refl). now apply String.eqb_eq. }
  subst v. reflexivity.
Qed.

(** The invoice update schema gives a body without [issuedAt] the current
    time for it. *)
Lemma InvoiceUpdateSchema_issuedAt `{Runtime} (body data : Obj) :
  safeParse InvoiceUpdateSchema body = Some data ->
  body !! "issuedAt" = None ->
  data !! "issuedAt" = Some (VDate now).
Proof.
  intros Hparse Hbody.
  destruct (safeParse_lookup _ body data "issuedAt" (z_optional InvoiceIssuedAt)
              (NoDup_UpdateSchema Invoice) Hparse eq_refl) as (v & Hrun & ->).
  rewrite Hbody in Hrun. cbn in Hrun. now injection Hrun as <-.
Qed.

(** C4 (the defect): every get, update and delete endpoint answers an id
    that is not a positive integer 400 with the validator's message,
    before any store call; for a positive integer that fits the id column
    and matches no row, the three gets and the tax-profile and invoice
    delete answer 404 "Not found". The three update handlers have no branch
    for the store's "record not found" error: an update of such an id with
    a valid body is answered 400 with the store's message, not 404, and
    the store is left as it was. *)
Theorem C4_update_of_missing_row_is_400 `{Runtime} (m : Model) (req : Request)
    (w : World) :
  (~ positive_integer (params_id req) ->
     forall a, handler m a req w
               = (inr (sendError (invalid_id_message m) 400 (Some req) None), w))
  /\ (positive_integer (params_id req) -> fits_id_column (params_id req) ->
      List.find (has_id (params_id req)) (table m (db w)) = None ->
      handler m Get req w
      = (inr (sendError "Not found" 404 (Some req) None),
         {| db := db w; calls := calls w ++ [(m, OpFindUnique)] |})
      /\ (m <> User ->
          handler m Remove req w
          = (inr (sendError "Not found" 404 (Some req) None),
             {| db := db w; calls := calls w ++ [(m, OpDelete)] |}))
      /\ (forall data, safeParse (UpdateSchema m) (body req) = Some data ->
            client_rejects m (update_data m data) = false ->
            handler m Update (parse_body m req) w
            = (inr (sendError (prisma_message P2025) 400 (Some req) None),
               {| db := db w; calls := calls w ++ [(m, OpUpdate)] |}))).
Proof.
  split.
  - intros Hbad a.
    destruct m, a; cbn [handler]; open_controllers; run_handler;
      rewrite (validateNumericId_bad _ _ Hbad); reflexivity.
  - intros Hok _ Hnone. split; [| split].
    + destruct m; cbn [handler table] in *; open_controllers; run_handler;
        rewrite (validateNumericId_ok _ _ Hok); run_handler;
        cbn [table]; now rewrite Hnone.
    + intros Hm.
      destruct m; [congruence | |]; cbn [handler table] in *; open_controllers;
        run_handler; rewrite (validateNumericId_ok _ _ Hok); run_handler;
        cbn [table]; now rewrite Hnone.
    + intros data Hparsed Hacc.
      assert (Hvalid : m = User -> validated_password data).
      { intros ->. exact (UserUpdateSchema_password _ _ Hparsed). }
      change (sendError (prisma_message P2025) 400 (Some req) None)
        with (sendError (prisma_message P2025) 400 (Some (parse_body m req)) None).
      destruct m; cbn [handler table] in *;
        unfold UserController.update, TaxProfileController.update,
          InvoiceController.update;
        run_handler; cbn [parse_body params_id parsed];
        rewrite (validateNumericId_ok _ _ Hok), Hparsed; run_handler.
      1: rewrite (hash_supplied_password_validated data _ (Hvalid eq_refl)).
      2, 3: unfold update_data in Hacc.
      all: run_handler; cbn [table]; now rewrite Hacc, Hnone.
Qed.

Lemma C4_witness :
  let req := Sample.with_body Sample.paid_body (Sample.with_id (JInt 5) Sample.request) in
  @handler Sample.runtime Invoice Update (@parse_body Sample.runtime Invoice req)
    (Sample.world Sample.store)
  = (inr (@sendError Sample.runtime "No record was found for the operation" 400
            (Some req) None),
     {| db := Sample.store; calls := [(Invoice, OpUpdate)] |})
  /\ @handler Sample.runtime Invoice Get req (Sample.world Sample.store)
     = (inr (@sendError Sample.runtime "Not found" 404 (Some req) None),
        {| db := Sample.store; calls := [(Invoice, OpFindUnique)] |}).
Proof.
  cbn zeta. split.
  - refine (proj2 (proj2 (proj2 (@C4_update_of_missing_row_is_400 Sample.runtime Invoice
                                   (Sample.with_body Sample.paid_body
                                      (Sample.with_id (JInt 5) Sample.request))
                                   (Sample.world Sample.store))
                            (conj eq_refl eq_refl) eq_refl eq_refl))
              (<["status" := VStr "paid"]> {[ "issuedAt" := VDate 1762432496000 ]})
              _ eq_refl).
    vm_compute. reflexivity.
  - exact (proj1 (proj2 (@C4_update_of_missing_row_is_400 Sample.runtime Invoice
                           (Sample.with_body Sample.paid_body
                              (Sample.with_id (JInt 5) Sample.request))
                           (Sample.world Sample.store))
                    (conj eq_refl eq_refl) eq_refl eq_refl)).
Defined.

(** C5 (the defect): the user delete has no branch for the store's
    "record not found" error, so deleting a user id that matches no row is
    answered 400 with the store's message, where the tax-profile and
    invoice deletes answer 404; the store is left as it was, so every
    repetition gives the same answer. *)
Theorem C5_user_delete_missing_is_400 `{Runtime} (req : Request) (w : World) :
  positive_integer (params_id req) ->
  List.find (has_id (params_id req)) (users (db w)) = None ->
  UserController.remove req w
  = (inr (sendError (prisma_message P2025) 400 (Some req) None),
     {| db := db w; calls := calls w ++ [(User, OpDelete)] |}).
Proof.
  intros Hok Hnone.
  unfold UserController.remove. run_handler.
  rewrite (validateNumericId_ok _ _ Hok). cbn [table].
  now rewrite Hnone.
Qed.

Lemma C5_witness :
  status (match fst (@UserController.remove Sample.runtime
                       (Sample.with_id (JInt 42) Sample.request)
                       (Sample.world Sample.store)) with
          | inr r => r
          | inl _ => no_content
          end) = 400.
Proof.
  rewrite (@C5_user_delete_missing_is_400 Sample.runtime
             (Sample.with_id (JInt 42) Sample.request) (Sample.world Sample.store)).
  - reflexivity.
  - split; reflexivity.
  - reflexivity.
Defined.

(** ** SQL pattern matching *)

Lemma append_String (c : ascii) (a b : string) : String c a ++ b = String c (a ++ b).
Proof. reflexivity. Qed.

Lemma prefix_String (c x : ascii) (n t : string) :
  String.prefix (String c n) (String x t) = Ascii.eqb x c && String.prefix n t.
Proof.
  cbn [String.prefix]. destruct (ascii_dec c x) as [-> | Hne].
  - now rewrite Ascii.eqb_refl.
  - destruct (Ascii.eqb x c) eqn:E; [| reflexivity].
    apply Ascii.eqb_eq in E. congruence.
Qed.

Lemma prefix_spec (n h : string) :
  String.prefix n h = true <-> exists post, h = n ++ post.
Proof.
  revert h. induction n as [| c n IH]; intros h.
  - split; [intros _; now exists h | intros _; now destruct h].
  - destruct h as [| x h].
    + split; [discriminate | intros (post & [=])].
    + rewrite prefix_String, andb_true_iff, Ascii.eqb_eq, IH. split.
      * intros (-> & post & ->). now exists post.
      * intros (post & Heq). rewrite append_String in Heq.
        injection Heq as -> ->. split; [reflexivity | now exists post].
Qed.

(** [occurs] decides the substring relation. *)
Lemma occurs_spec (n h : string) : occurs n h = true <-> contains_text n h.
Proof.
  unfold contains_text. split.
  - induction h as [| x h IH]; cbn [occurs]; rewrite orb_true_iff, prefix_spec.
    + intros [(post & ->) | [=]]. now exists "", post.
    + intros [(post & ->) | Hrest]; [now exists "", post |].
      destruct (IH Hrest) as (pre & post & ->). now exists (String x pre), post.
  - intros (pre & post & ->). induction pre as [| x pre IH].
    + change ("" ++ n ++ post) with (n ++ post).
      assert (Hp : String.prefix n (n ++ post) = true)
        by (apply prefix_spec; now exists post).
      destruct (n ++ post); cbn [occurs]; now rewrite Hp.
    + rewrite append_String. cbn [occurs]. rewrite IH. apply orb_true_r.
Qed.

Lemma like_percent_unfold (p h : string) :
  like (String "%" p) h
  = like p h || match h with
                | EmptyString => false
                | String _ h' => like (String "%" p) h'
                end.
Proof. destruct h; reflexivity. Qed.

Lemma like_percent_all (t : string) : like "%" t = true.
Proof.
  induction t as [| x t IH]; [reflexivity |].
  rewrite like_percent_unfold. rewrite IH. apply orb_true_r.
Qed.

(** A pattern without special characters, followed by [%], matches the
    texts it is a prefix of. *)
Lemma like_prefix (n : string) :
  wildcard_free n = true -> forall t, like (n ++ "%") t = String.prefix n t.
Proof.
  induction n as [| c n IH]; intros Hfree t.
  - change ("" ++ "%") with "%". rewrite like_percent_all. now destruct t.
  - cbn [wildcard_free] in Hfree.
    apply andb_true_iff in Hfree as [Hfree Hn].
    apply andb_true_iff in Hfree as [Hfree H3].
    apply andb_true_iff in Hfree as [H1 H2].
    apply negb_true_iff in H1, H2, H3.
    rewrite append_String. cbn [like]. rewrite H1, H2, H3.
    destruct t as [| x t]; [reflexivity |].
    now rewrite prefix_String, (IH Hn).
Qed.

(** On a text without special characters [contains] is the substring test. *)
Lemma includes_occurs (n h : string) :
  wildcard_free n = true -> includes n h = occurs n h.
Proof.
  intros Hfree. unfold includes.
  change ("%" ++ n ++ "%") with (String "%" (n ++ "%")).
  induction h as [| x h IH]; rewrite like_percent_unfold, (like_prefix n Hfree);
    cbn [occurs]; [reflexivity | now rewrite IH].
Qed.

Lemma wildcard_free_lower (s : string) : wildcard_free (lower s) = wildcard_free s.
Proof.
  induction s as [| c s IH]; [reflexivity |].
  cbn [lower wildcard_free]. rewrite IH. f_equal.
  destruct c as [[] [] [] [] [] [] [] []]; reflexivity.
Qed.

Lemma includes_ci_occurs (n h : string) :
  wildcard_free n = true -> includes_ci n h = occurs (lower n) (lower h).
Proof.
  intros Hfree. unfold includes_ci. apply includes_occurs.
  now rewrite wildcard_free_lower.
Qed.

(** ** Primary keys: the row an id names *)

Lemma find_has_id_unique (rows : list Obj) (i : JsNum) (r : Obj) :
  unique_ids rows -> In r rows -> has_id i r = true ->
  List.find (has_id i) rows = Some r.
Proof.
  intros Hu Hin Hid.
  destruct (List.find (has_id i) rows) as [r' |] eqn:Hf.
  - apply find_some in Hf as [Hin' Hid']. f_equal. exact (Hu r' r i Hin' Hin Hid' Hid).
  - exfalso. pose proof (find_none _ _ Hf r Hin) as Hno. congruence.
Qed.

(** With primary keys in force, the owner the store finds for an invoice
    is the account the invoice belongs to. *)
Lemma owner_email_address (s : Store) (inv : Obj) (addr : string) :
  unique_ids (taxProfiles s) -> unique_ids (users s) ->
  owner_email s inv = Some (VStr addr) <-> owner_address s inv addr.
Proof.
  intros Hp Hu. unfold owner_email, taxProfile_of, user_of, owner_address. split.
  - destruct (inv !! "taxProfileId") as [[| | | t | | | | | |] |]; try discriminate.
    destruct (List.find (has_id t) (taxProfiles s)) as [p |] eqn:Hfp; [| discriminate].
    destruct (p !! "userId") as [[| | | i | | | | | |] |] eqn:Hpu; try discriminate.
    destruct (List.find (has_id i) (users s)) as [u |] eqn:Hfu; [| discriminate].
    intros Hmail. apply find_some in Hfp as [? ?], Hfu as [? ?].
    exists p, u, t, i. repeat split; assumption.
  - intros (p & u & t & i & -> & Hinp & Hidp & Hpu & Hinu & Hidu & Hmail).
    rewrite (find_has_id_unique _ t p Hp Hinp Hidp), Hpu.
    now rewrite (find_has_id_unique _ i u Hu Hinu Hidu).
Qed.

(** ** The invoice list: filters and total *)

Lemma str_field_is_true (k v : string) (r : Obj) :
  str_field_is k v r = true <-> r !! k = Some (VStr v).
Proof.
  unfold str_field_is. split.
  - destruct (r !! k) as [[] |]; try discriminate.
    intros E. apply String.eqb_eq in E. now subst.
  - intros ->. apply String.eqb_refl.
Qed.

Lemma str_truthy_true (q : option string) :
  str_truthy q = true <-> exists s, q = Some s /\ s <> "".
Proof.
  unfold str_truthy. split.
  - destruct q as [s |]; [| discriminate]. intros E. exists s. split; [reflexivity |].
    intros ->. discriminate E.
  - intros (s & -> & Hne). destruct (String.eqb s "") eqn:E; [| reflexivity].
    apply String.eqb_eq in E. contradiction.
Qed.

Lemma str_truthy_false (q : option string) :
  str_truthy q = false -> forall s, q = Some s -> s = "".
Proof.
  unfold str_truthy. intros E s ->.
  apply negb_false_iff in E. now apply String.eqb_eq in E.
Qed.

Lemma build_filter_assembled `{Runtime} (req : Request) (w : World) :
  (forall t, query_minAmount req <> DInvalid t) ->
  (forall t, query_maxAmount req <> DInvalid t) ->
  InvoiceController.build_filter req w = (inr (assembled_filter req), w).
Proof.
  intros Hlo Hhi.
  unfold InvoiceController.build_filter, InvoiceController.to_decimal, assembled_filter,
    bind, ret, throw.
  destruct (query_minAmount req) as [| lo | | t], (query_maxAmount req) as [| hi | | t'];
    first [reflexivity | now destruct (Hlo t) | now destruct (Hhi t')].
Qed.


Lemma status_filter_spec (req : Request) (r : Obj) :
  match iw_status (assembled_filter req) with
  | Some st => str_field_is "status" st r
  | None => true
  end = true
  <-> (forall st, query req !! "status" = Some st -> st <> "" ->
         r !! "status" = Some (VStr st)).
Proof.
  cbn [assembled_filter iw_status].
  destruct (str_truthy (query req !! "status")) eqn:E.
  - apply str_truthy_true in E as (st & Hq & Hne). rewrite Hq. cbn [default].
    rewrite str_field_is_true. split.
    + intros Hr st' [= <-] _. exact Hr.
    + intros Hall. now apply Hall.
  - split; [| reflexivity].
    intros _ st Hq Hne. exfalso. apply Hne. eapply str_truthy_false; eassumption.
Qed.

Lemma email_filter_spec (s : Store) (req : Request) (r : Obj) :
  unique_ids (taxProfiles s) -> unique_ids (users s) ->
  (forall e, query req !! "email" = Some e -> wildcard_free e = true) ->
  match iw_taxProfile_user_email (assembled_filter req) with
  | Some f => string_filter_ok (Some f) (owner_email s r)
  | None => true
  end = true
  <-> (forall e, query req !! "email" = Some e -> e <> "" ->
         exists addr, owner_address s r addr /\ contains_text (lower e) (lower addr)).
Proof.
  intros Hp Hu Hfree.
  cbn [assembled_filter iw_taxProfile_user_email]. unfold contains_param.
  destruct (str_truthy (query req !! "email")) eqn:E.
  - apply str_truthy_true in E as (e & Hq & Hne). rewrite Hq.
    cbn [default string_filter_ok mode contains from_option id]. split.
    + intros Hm e' [= <-] _.
      destruct (owner_email s r) as [[| | | | addr | | | | |] |] eqn:Ho; try discriminate.
      exists addr. split; [now apply owner_email_address |].
      apply occurs_spec. now rewrite <- includes_ci_occurs by (now apply Hfree).
    + intros Hall. destruct (Hall e eq_refl Hne) as (addr & Ho & Hin).
      apply (owner_email_address s r addr Hp Hu) in Ho. rewrite Ho.
      rewrite includes_ci_occurs by (now apply Hfree). now apply occurs_spec.
  - split; [| reflexivity].
    intros _ e Hq Hne. exfalso. apply Hne. eapply str_truthy_false; eassumption.
Qed.

Lemma amount_filter_spec (req : Request) (r : Obj) :
  finite_or_absent (query_minAmount req) -> finite_or_absent (query_maxAmount req) ->
  decimal_filter_ok (iw_amount (assembled_filter req)) (r !! "amount") = true
  <-> (forall lo, query_minAmount req = DValue lo ->
         exists a, r !! "amount" = Some (VDecimal a) /\ (lo <= a)%Q)
      /\ (forall hi, query_maxAmount req = DValue hi ->
            exists a, r !! "amount" = Some (VDecimal a) /\ (a <= hi)%Q).
Proof.
  intros Hlo Hhi. cbn [assembled_filter iw_amount].
  destruct Hlo as [-> | (lo & ->)], Hhi as [-> | (hi & ->)];
    cbn [bound_of decimal_filter_ok gte lte].
  - split; [| reflexivity]. intros _. split; intros ? [=].
  - destruct (r !! "amount") as [[] |];
      try (split; [discriminate | intros [_ Hx]; destruct (Hx hi eq_refl) as (a & [=] & _)]).
    cbn [andb]. rewrite Qle_bool_iff. split.
    + intros Hle. split; [intros ? [=] |]. intros ? [= <-]. eauto.
    + intros [_ Hx]. destruct (Hx hi eq_refl) as (a & [= <-] & Hle). exact Hle.
  - destruct (r !! "amount") as [[] |];
      try (split; [discriminate | intros [Hx _]; destruct (Hx lo eq_refl) as (a & [=] & _)]).
    rewrite andb_true_r, Qle_bool_iff. split.
    + intros Hle. split; [| intros ? [=]]. intros ? [= <-]. eauto.
    + intros [Hx _]. destruct (Hx lo eq_refl) as (a & [= <-] & Hle). exact Hle.
  - destruct (r !! "amount") as [[] |];
      try (split; [discriminate | intros [Hx _]; destruct (Hx lo eq_refl) as (a & [=] & _)]).
    rewrite andb_true_iff, !Qle_bool_iff. split.
    + intros [H1 H2]. split; intros ? [= <-]; eauto.
    + intros [Hx Hy].
      destruct (Hx lo eq_refl) as (a & [= <-] & H1).
      destruct (Hy hi eq_refl) as (a & [= <-] & H2). now split.
Qed.

(** With primary keys in force and an e-mail text free of pattern
    characters, the rows the assembled filter matches are the rows the
    described selection holds of. *)
Lemma invoice_matches_selected (s : Store) (req : Request) (r : Obj) :
  finite_or_absent (query_minAmount req) -> finite_or_absent (query_maxAmount req) ->
  unique_ids (taxProfiles s) -> unique_ids (users s) ->
  (forall e, query req !! "email" = Some e -> wildcard_free e = true) ->
  invoice_matches s (assembled_filter req) r = true <-> invoice_selected s req r.
Proof.
  intros Hlo Hhi Hp Hu Hfree. unfold invoice_matches, invoice_selected.
  rewrite !andb_true_iff, status_filter_spec, (email_filter_spec s req r Hp Hu Hfree),
    (amount_filter_spec req r Hlo Hhi).
  tauto.
Qed.


Lemma to_integer_JInt (z : Z) : to_integer (JInt z) = Some z.
Proof.
  unfold to_integer, JInt, Number_isInteger, inject_Z; cbn [Qnum Qden].
  now rewrite Z.mod_1_r, Z.div_1_r.
Qed.

Lemma skipOf_JInt (pg lim : Z) :
  skipOf {| page := JInt pg; limit := JInt lim |}
  = JNum (((pg * 1 + - (1) * 1) * lim) # 1).
Proof. reflexivity. Qed.







(** The tables of the sample store have one row each. *)
Lemma unique_ids_singleton (r : Obj) : unique_ids [r].
Proof. intros a b i [<- | []] [<- | []] _ _. reflexivity. Qed.



(** ** Partial updates *)

Lemma update_data_lookup `{Runtime} (m : Model) (data : Obj) (k : string) :
  (m = User -> validated_password data) ->
  update_data m data !! k
  = match data !! k with
    | Some v => if is_undefined v then None else Some (stored m k v)
    | None => None
    end.
Proof.
  intros Hv. unfold update_data, stored.
  destruct m; try (rewrite cleanUndefined_lookup;
                   destruct (data !! k) as [[] |]; reflexivity).
  specialize (Hv eq_refl).
  rewrite (cleanUndefined_lookup data "password").
  destruct (data !! "password") as [v |] eqn:E.
  - destruct (Hv v E) as [-> | (p & -> & _)]; cbn [is_undefined].
    + rewrite cleanUndefined_lookup.
      destruct (String.eqb k "password") eqn:Ek.
      * apply String.eqb_eq in Ek. subst k. rewrite E. reflexivity.
      * destruct (data !! k) as [[] |]; reflexivity.
    + destruct (String.eqb k "password") eqn:Ek.
      * apply String.eqb_eq in Ek. subst k. rewrite lookup_insert_eq, E. reflexivity.
      * apply String.eqb_neq in Ek.
        rewrite lookup_insert_ne by congruence. rewrite cleanUndefined_lookup.
        destruct (data !! k) as [[] |]; reflexivity.
  - rewrite cleanUndefined_lookup.
    destruct (String.eqb k "password") eqn:Ek.
    + apply String.eqb_eq in Ek. subst k. rewrite E. reflexivity.
    + destruct (data !! k) as [[] |]; reflexivity.
Qed.

Lemma update_violation_None (m : Model) (i : JsNum) (data : Obj) (s : Store) :
  update_violation m i data s = None -> client_rejects m data = false.
Proof. unfold update_violation. now destruct (client_rejects m data). Qed.

(** An update with parsed data that the store accepts writes, for each
    field the data hold with a defined value, that value (the bcrypt hash
    of it for a user's password), and leaves every other column of the row
    as it was, but for the store-managed [updatedAt]. The other rows of
    the table are untouched. *)
Lemma accepted_update_frame `{Runtime} (m : Model) (req : Request) (w : World)
    (data row : Obj) :
  positive_integer (params_id req) ->
  parsed req = Some data ->
  (m = User -> validated_password data) ->
  List.find (has_id (params_id req)) (table m (db w)) = Some row ->
  update_violation m (params_id req) (update_data m data) (db w) = None ->
  exists row' w',
    handler m Update req w = (inr (sendSuccess (VObj row') 200 (Some req)), w')
    /\ table m (db w')
       = List.map (fun x => if has_id (params_id req) x then row' else x) (table m (db w))
    /\ (forall k, k <> "updatedAt" ->
          row' !! k = match data !! k with
                      | Some v => if is_undefined v then row !! k else Some (stored m k v)
                      | None => row !! k
                      end).
Proof.
  intros Hok Hparsed Hvalid Hrow Hfree.
  pose proof (update_violation_None _ _ _ _ Hfree) as Hacc.
  exists (updated_row m (update_data m data) row).
  assert (Hframe : forall k, k <> "updatedAt" ->
            updated_row m (update_data m data) row !! k
            = match data !! k with
              | Some v => if is_undefined v then row !! k else Some (stored m k v)
              | None => row !! k
              end).
  { intros k Hk.
    assert (Hu : (spread (update_data m data) row) !! k
                 = match data !! k with
                   | Some v => if is_undefined v then row !! k else Some (stored m k v)
                   | None => row !! k
                   end).
    { unfold spread. rewrite lookup_union, (update_data_lookup m data k Hvalid).
      destruct (data !! k) as [v |]; [destruct (is_undefined v) |];
        destruct (row !! k); reflexivity. }
    unfold updated_row. destruct m; try exact Hu;
      rewrite lookup_insert_ne by congruence; exact Hu. }
  destruct m; cbn [handler];
    unfold UserController.update, TaxProfileController.update, InvoiceController.update;
    run_handler; rewrite (validateNumericId_ok _ _ Hok), Hparsed; run_handler.
  1: rewrite (hash_supplied_password_validated data _ (Hvalid eq_refl)).
  2, 3: unfold update_data in Hfree, Hacc.
  all: run_handler; cbn [table db] in *; rewrite Hacc, Hrow, Hfree;
    eexists; split; [reflexivity |]; split; [reflexivity | exact Hframe].
Qed.

(** The response names the request by its id alone. *)
Lemma sendSuccess_parse_body `{Runtime} (m : Model) (data : Val) (code : Z)
    (req : Request) :
  sendSuccess data code (Some (parse_body m req)) = sendSuccess data code (Some req).
Proof. reflexivity. Qed.

(** C7 (the defect): an update whose body the schema and the store accept
    writes each field the body supplies (a user's password as its bcrypt
    hash) and keeps every column the body leaves out, the store-managed
    [updatedAt] apart, with one exception: the invoice update schema is
    the create schema made partial, and keeps the default of [issuedAt],
    so an invoice update whose body leaves [issuedAt] out overwrites the
    stored date with the current time. *)
Theorem C7_invoice_update_resets_issuedAt `{Runtime} (m : Model) (req : Request)
    (w : World) (data row : Obj) :
  positive_integer (params_id req) ->
  safeParse (UpdateSchema m) (body req) = Some data ->
  List.find (has_id (params_id req)) (table m (db w)) = Some row ->
  update_violation m (params_id req) (update_data m data) (db w) = None ->
  exists row' w',
    handler m Update (parse_body m req) w
    = (inr (sendSuccess (VObj row') 200 (Some req)), w')
    /\ table m (db w')
       = List.map (fun x => if has_id (params_id req) x then row' else x) (table m (db w))
    /\ (forall k v, data !! k = Some v -> is_undefined v = false -> k <> "updatedAt" ->
          row' !! k = Some (stored m k v))
    /\ (forall k, body req !! k = None -> k <> "updatedAt" ->
          (m = Invoice -> k <> "issuedAt") ->
          row' !! k = row !! k)
    /\ (m = Invoice -> body req !! "issuedAt" = None ->
        row' !! "issuedAt" = Some (VDate now)).
Proof.
  intros Hok Hparse Hrow Hfree.
  assert (Hvalid : m = User -> validated_password data).
  { intros ->. exact (UserUpdateSchema_password _ _ Hparse). }
  destruct (accepted_update_frame m (parse_body m req) w data row Hok Hparse Hvalid
              Hrow Hfree) as (row' & w' & Hrun & Htable & Hframe).
  exists row', w'. rewrite sendSuccess_parse_body in Hrun.
  split; [exact Hrun |]. split; [exact Htable |]. split; [| split].
  - intros k v Hk Hdef Hne. rewrite (Hframe k Hne), Hk, Hdef. reflexivity.
  - intros k Hbody Hne Hdate. rewrite (Hframe k Hne).
    now rewrite (UpdateSchema_omitted m _ _ k Hparse Hbody Hdate).
  - intros -> Hbody. rewrite (Hframe "issuedAt") by discriminate.
    now rewrite (InvoiceUpdateSchema_issuedAt _ _ Hparse Hbody).
Qed.

Lemma C7_witness :
  let req := Sample.with_body Sample.paid_body (Sample.with_id (JInt 1) Sample.request) in
  exists row' w',
    @handler Sample.runtime Invoice Update (@parse_body Sample.runtime Invoice req)
      (Sample.world Sample.store)
    = (inr (@sendSuccess Sample.runtime (VObj row') 200 (Some req)), w')
    /\ Sample.invoice 1 (10055 # 100) "draft" !! "issuedAt" = Some (VDate 1762420000001)
    /\ row' !! "issuedAt" = Some (VDate 1762432496000)
    /\ row' !! "status" = Some (VStr "paid")
    /\ row' !! "amount" = Some (VDecimal (10055 # 100)).
Proof.
  cbn zeta.
  destruct (@C7_invoice_update_resets_issuedAt Sample.runtime Invoice
              (Sample.with_body Sample.paid_body (Sample.with_id (JInt 1) Sample.request))
              (Sample.world Sample.store)
              (<["status" := VStr "paid"]> {[ "issuedAt" := VDate 1762432496000 ]})
              (Sample.invoice 1 (10055 # 100) "draft"))
    as (row' & w' & Hrun & _ & Hset & Hkeep & Hdate).
  - split; reflexivity.
  - vm_compute. reflexivity.
  - reflexivity.
  - vm_compute. reflexivity.
  - exists row', w'. split; [exact Hrun |].
    split; [reflexivity |].
    split; [apply Hdate; reflexivity |].
    split; [apply (Hset "status"); [reflexivity | reflexivity | discriminate] |].
    rewrite (Hkeep "amount"); [reflexivity | reflexivity | discriminate | discriminate].
Defined.

(** ** The user list filter *)

(** C8 (the defect): the user list passes [{ contains }] without
    [mode: 'insensitive'] (the invoice list passes it), so the match is
    case-sensitive: with a user "Alice@Example.com" stored, the filter
    [email=alice] returns no record although the address contains the text
    when case is ignored; [email=Alice] returns it. *)
Theorem C8_user_list_filter_is_case_sensitive :
  let lower_q := Sample.with_query JNaN JNaN {[ "email" := "alice" ]}
                   DAbsent DAbsent Sample.request in
  let exact_q := Sample.with_query JNaN JNaN {[ "email" := "Alice" ]}
                   DAbsent DAbsent Sample.request in
  includes_ci "alice" "Alice@Example.com" = true
  /\ status <$> answered (@UserController.list Sample.runtime lower_q
                            (Sample.world Sample.store)) = Some 200
  /\ items <$> answered (@UserController.list Sample.runtime lower_q
                           (Sample.world Sample.store)) = Some []
  /\ (length ∘ items) <$> answered (@UserController.list Sample.runtime exact_q
                                      (Sample.world Sample.store)) = Some 1%nat.
Proof.
  cbn zeta. repeat split; vm_compute; reflexivity.
Qed.

(** ** Registration and login *)


Lemma find_email_free (e : string) (s : Store) :
  ~ email_taken e s -> List.find (str_field_is "email" e) (users s) = None.
Proof.
  intros Hfree.
  destruct (List.find (str_field_is "email" e) (users s)) as [u |] eqn:E; [| reflexivity].
  apply find_some in E as [Hin He]. apply str_field_is_true in He.
  exfalso. apply Hfree. now exists u.
Qed.

Lemma existsb_email_taken (e : string) (s : Store) :
  email_taken e s -> existsb (str_field_is "email" e) (users s) = true.
Proof.
  intros (u & Hin & He). apply existsb_exists. exists u.
  split; [exact Hin | now apply str_field_is_true].
Qed.




(** C10 (the defect): a login for an e-mail no account has is answered 401
    "Invalid credentials", and so is a login whose password, a string, does
    not verify against the stored hash. The handler compares the password
    without checking that the request has one: for a password that is
    missing or not a string, bcrypt throws when the account exists, and the
    answer is 500 "Login failed", where an unknown e-mail still gets the
    401; the response tells the two apart. *)
Theorem C10_login_without_password_reveals_account `{Runtime} (req : Request)
    (e : string) :
  AuthController.field req "email" = VStr e ->
  (forall w, ~ email_taken e (db w) ->
     answered (AuthController.login req w)
     = Some (sendError "Invalid credentials" 401 (Some req) None))
  /\ (forall w u p h,
        List.find (str_field_is "email" e) (users (db w)) = Some u ->
        AuthController.field req "password" = VStr p ->
        u !! "password" = Some (VStr h) ->
        comparePassword p h = false ->
        answered (AuthController.login req w)
        = Some (sendError "Invalid credentials" 401 (Some req) None))
  /\ (forall w u,
        List.find (str_field_is "email" e) (users (db w)) = Some u ->
        (forall p, AuthController.field req "password" <> VStr p) ->
        answered (AuthController.login req w)
        = Some (sendError "Login failed" 500 (Some req) None)).
Proof.
  intros He. split; [| split].
  - intros w Hfree.
    unfold answered, AuthController.login, findUnique_email. rewrite He.
    run_handler. now rewrite (find_email_free e _ Hfree).
  - intros w u p h Hu Hp Hh Hcmp.
    unfold answered, AuthController.login, findUnique_email,
      AuthController.password_matches.
    rewrite He, Hp. run_handler. rewrite Hu, Hh. run_handler. now rewrite Hcmp.
  - intros w u Hu Hp.
    unfold answered, AuthController.login, findUnique_email,
      AuthController.password_matches.
    rewrite He. run_handler. rewrite Hu.
    destruct (AuthController.field req "password") as [| | | | p | | | | |];
      try reflexivity.
    now destruct (Hp p).
Qed.

Lemma C10_witness :
  let req := Sample.with_body Sample.no_password_body Sample.request in
  answered (@AuthController.login Sample.runtime req (Sample.world Sample.empty))
  = Some (@sendError Sample.runtime "Invalid credentials" 401 (Some req) None)
  /\ answered (@AuthController.login Sample.runtime req (Sample.world Sample.store))
     = Some (@sendError Sample.runtime "Login failed" 500 (Some req) None).
Proof.
  cbn zeta.
  destruct (@C10_login_without_password_reveals_account Sample.runtime
              (Sample.with_body Sample.no_password_body Sample.request)
              "Alice@Example.com" ltac:(vm_compute; reflexivity))
    as (Hunknown & _ & Hthrows).
  split.
  - apply Hunknown. intros (u & [] & _).
  - apply (Hthrows (Sample.world Sample.store) Sample.alice); [reflexivity |].
    intros p Hp. vm_compute in Hp. discriminate Hp.
Defined.

(** * Further properties of the code *)

(** ** Pagination *)

Lemma js_le_1_not_lt (n : JsNum) : js_le (JInt 1) n = true -> js_lt n (JInt 1) = false.
Proof.
  destruct n as [| q | |]; try discriminate; [| reflexivity].
  cbn. intros ->. reflexivity.
Qed.

Lemma js_le_not_NaN_r (a n : JsNum) : js_le a n = true -> Number_isNaN n = false.
Proof. destruct a, n; try discriminate; reflexivity. Qed.

(** X1: whatever the raw values are, [getPagination] returns a page of at
    least 1 and a limit between 1 and 100; a page of at least 1 and a limit
    between 1 and 100 are returned as given; and normalising a second time
    changes nothing. *)
Theorem X1_getPagination_range_and_idempotence (rawPage rawLimit : JsNum) :
  let p := getPagination rawPage rawLimit in
  js_le (JInt 1) (page p) = true
  /\ js_le (JInt 1) (limit p) = true
  /\ js_le (limit p) MAX_LIMIT = true
  /\ (js_le (JInt 1) rawPage = true -> page p = rawPage)
  /\ (js_le (JInt 1) rawLimit = true -> js_le rawLimit MAX_LIMIT = true ->
      limit p = rawLimit)
  /\ getPagination (page p) (limit p) = p.
Proof.
  cbn zeta.
  assert (Hpass_page : forall n, js_le (JInt 1) n = true ->
                                 page (getPagination n rawLimit) = n).
  { intros n Hn. unfold getPagination; cbn [page].
    now rewrite (js_le_not_NaN_r _ _ Hn), (js_le_1_not_lt _ Hn). }
  assert (Hpass_limit : forall m n, js_le (JInt 1) n = true -> js_le n MAX_LIMIT = true ->
                                    limit (getPagination m n) = n).
  { intros m n Hn Hmax. unfold getPagination; cbn [limit].
    rewrite (js_le_not_NaN_r _ _ Hn), (js_le_1_not_lt _ Hn). cbn [orb].
    unfold Math_min. rewrite Hmax. destruct n; try discriminate; reflexivity. }
  pose proof (getPagination_normalizes rawPage rawLimit) as (_ & _ & _ & Hmax & Hpage).
  pose proof (getPagination_limit_ge_1 rawPage rawLimit) as Hlim.
  cbn zeta in Hmax, Hpage.
  repeat split; try assumption.
  - apply Hpass_page.
  - apply Hpass_limit.
  - set (p := getPagination rawPage rawLimit) in *.
    assert (Hp : page (getPagination (page p) (limit p)) = page p).
    { unfold getPagination at 1; cbn [page].
      now rewrite (js_le_not_NaN_r _ _ Hpage), (js_le_1_not_lt _ Hpage). }
    assert (Hl : limit (getPagination (page p) (limit p)) = limit p)
      by (now apply Hpass_limit).
    destruct (getPagination (page p) (limit p)) as [pg' lm'], p as [pg lm].
    cbn [page limit] in *. now subst.
Qed.

Lemma X1_witness :
  page (getPagination (JInt 7) (JInt 25)) = JInt 7
  /\ limit (getPagination (JInt 7) (JInt 25)) = JInt 25.
Proof.
  split.
  - apply (X1_getPagination_range_and_idempotence (JInt 7) (JInt 25)). reflexivity.
  - apply (X1_getPagination_range_and_idempotence (JInt 7) (JInt 25)); reflexivity.
Defined.

(** X2: the user list, which pages through [getPagination], never returns
    more than 100 records, whatever the request asks for; and when it
    answers 200 the [page] and [limit] it reports are the normalised
    values, not the raw ones. *)
Theorem X2_user_list_page_size_at_most_100 `{Runtime} (req : Request) (w : World)
    (r : Response) :
  answered (UserController.list req w) = Some r ->
  (length (items r) <= 100)%nat
  /\ (status r = 200 ->
      let p := getPagination (query_page req) (query_limit req) in
      data_field r "page" = Some (VNum (page p))
      /\ data_field r "limit" = Some (VNum (limit p))).
Proof.
  intros Hr. split; [now apply (user_list_at_most_100 req w) |].
  revert Hr. unfold answered, UserController.list, UserService.listUsers.
  run_handler.
  destruct (page_rows _ _ _) as [rows |]; run_handler; intros [= <-].
  - intros _. cbn zeta.
    unfold data_field, sendSuccess, spread; cbn [json].
    rewrite lookup_union_r by (apply requestIdField_lookup; discriminate).
    split; now simplify_map_eq.
  - cbn [status sendError]. discriminate.
Qed.

Lemma X2_witness :
  exists r,
    answered (@UserController.list Sample.runtime
                (Sample.with_query JNaN (JInt 999) ∅ DAbsent DAbsent Sample.request)
                (Sample.world Sample.store)) = Some r
    /\ (length (items r) <= 100)%nat.
Proof.
  eexists. split; [reflexivity |].
  apply (@X2_user_list_page_size_at_most_100 Sample.runtime
           (Sample.with_query JNaN (JInt 999) ∅ DAbsent DAbsent Sample.request)
           (Sample.world Sample.store)).
  reflexivity.
Defined.

Lemma page_rows_forward_rows (sk tk : JsNum) (s t : Z) (rows : list Obj) :
  to_int64 sk = Some s -> to_int64 tk = Some t -> 0 <= s -> 0 <= t ->
  page_rows sk tk rows = Some (firstn (Z.to_nat t) (skipn (Z.to_nat s) rows)).
Proof.
  intros Hs Ht Hs0 Ht0. unfold page_rows. rewrite Hs, Ht.
  destruct (s <? 0) eqn:E1; [apply Z.ltb_lt in E1; lia |].
  destruct (0 <=? t) eqn:E2; [reflexivity | apply Z.leb_gt in E2; lia].
Qed.

(** The integer part of a non-negative rational within the 64-bit range. *)
Lemma to_int64_nonneg (q : Q) (b : Z) :
  0 <= Qnum q -> Qnum q <= b * Z.pos (Qden q) -> b <= 2 ^ 63 - 1 ->
  exists t, to_int64 (JNum q) = Some t /\ 0 <= t <= b /\ t = Qnum q / Z.pos (Qden q).
Proof.
  intros H0 Hb Hmax. exists (Qnum q / Z.pos (Qden q)). unfold to_int64. cbn zeta.
  destruct q as [n d]; cbn [Qnum Qden] in *.
  rewrite Z.quot_div_nonneg by lia.
  assert (Hq : 0 <= n / Z.pos d <= b).
  { split; [apply Z.div_pos; lia |].
    apply Z.div_le_upper_bound; lia. }
  destruct (- 2 ^ 63 <=? n / Z.pos d) eqn:E1; [| apply Z.leb_gt in E1; lia].
  destruct (n / Z.pos d <=? 2 ^ 63 - 1) eqn:E2; [| apply Z.leb_gt in E2; lia].
  repeat split; lia.
Qed.

(** X3: a limit that is not a whole number (such as 2.5) is not rounded by
    [getPagination]: the user list hands it to the store and reports it as
    given, and the store takes its integer part, so the page holds at most
    that many records. *)
Theorem X3_user_list_fractional_limit_is_truncated `{Runtime} (req : Request)
    (w : World) (q : Q) (pg : Z) :
  query_limit req = JNum q -> (1 <= q)%Q -> (q <= 100)%Q ->
  query_page req = JInt pg -> 1 <= pg <= 2 ^ 53 ->
  exists r,
    UserController.list req w
    = (inr r, {| db := db w; calls := calls w ++ [(User, OpFindMany)] |})
    /\ status r = 200
    /\ data_field r "limit" = Some (VNum (JNum q))
    /\ Z.of_nat (length (items r)) <= Qnum q / Z.pos (Qden q).
Proof.
  intros Hl Hq1 Hq100 Hp Hpg.
  assert (Hn1 : Z.pos (Qden q) <= Qnum q)
    by (unfold Qle in Hq1; cbn in Hq1; lia).
  assert (Hn100 : Qnum q <= 100 * Z.pos (Qden q))
    by (unfold Qle in Hq100; cbn in Hq100; lia).
  assert (Hpage : getPagination (query_page req) (query_limit req)
                  = {| page := JInt pg; limit := JNum q |}).
  { rewrite Hl, Hp. unfold getPagination. cbn [Number_isNaN orb JInt js_lt].
    replace (Qle_bool (inject_Z 1) (inject_Z pg)) with true
      by (symmetry; apply Qle_bool_iff; unfold Qle; cbn; lia).
    replace (Qle_bool (inject_Z 1) q) with true
      by (symmetry; now apply Qle_bool_iff).
    cbn [negb]. unfold Math_min, MAX_LIMIT. cbn [js_le JInt].
    replace (Qle_bool q (inject_Z 100)) with true
      by (symmetry; now apply Qle_bool_iff).
    reflexivity. }
  destruct (to_int64_nonneg q 100) as (t & Ht & Htr & Hfloor); [lia | lia | lia |].
  destruct (to_int64_nonneg ((inject_Z pg - inject_Z 1) * q) ((pg - 1) * 100))
    as (s & Hs & Hsr & _).
  { cbn. nia. }
  { cbn. nia. }
  { nia. }
  unfold UserController.list, UserService.listUsers. rewrite Hpage.
  cbn [page limit js_sub js_mul JInt]. run_handler.
  rewrite (page_rows_forward_rows _ _ s t) by (assumption || lia). run_handler.
  eexists. split; [reflexivity |]. split; [reflexivity |]. split.
  - unfold data_field, sendSuccess, spread; cbn [json].
    rewrite lookup_union_r by (apply requestIdField_lookup; discriminate).
    now simplify_map_eq.
  - erewrite items_sendSuccess by (now simplify_map_eq).
    rewrite length_fmap, length_map, length_firstn. lia.
Qed.

Lemma X3_witness :
  exists r,
    answered (@UserController.list Sample.runtime
                (Sample.with_query (JInt 1) (JNum (5 # 2)) ∅ DAbsent DAbsent
                   Sample.request)
                (Sample.world Sample.store)) = Some r
    /\ status r = 200
    /\ Z.of_nat (length (items r)) <= 2.
Proof.
  destruct (@X3_user_list_fractional_limit_is_truncated Sample.runtime
              (Sample.with_query (JInt 1) (JNum (5 # 2)) ∅ DAbsent DAbsent Sample.request)
              (Sample.world Sample.store) (5 # 2) 1)
    as (r & Hrun & Hstatus & _ & Hlen).
  - reflexivity.
  - unfold Qle; cbn; lia.
  - unfold Qle; cbn; lia.
  - reflexivity.
  - lia.
  - exists r. unfold answered. rewrite Hrun. split; [reflexivity |].
    split; [exact Hstatus | exact Hlen].
Defined.

Lemma num_or_negative (z d : Z) : z < 0 -> num_or (JInt z) (JInt d) = JInt z.
Proof.
  intros Hz. unfold num_or, num_truthy, JInt.
  destruct (Qeq_bool (inject_Z z) 0) eqn:E; [| reflexivity].
  apply Qeq_bool_iff in E. unfold Qeq, inject_Z in E; cbn in E. lia.
Qed.

Lemma num_or_positive (z d : Z) : 0 < z -> num_or (JInt z) (JInt d) = JInt z.
Proof.
  intros Hz. unfold num_or, num_truthy, JInt.
  destruct (Qeq_bool (inject_Z z) 0) eqn:E; [| reflexivity].
  apply Qeq_bool_iff in E. unfold Qeq, inject_Z in E; cbn in E. lia.
Qed.

Lemma page_rows_negative_skip (tk : JsNum) (k : Z) (rows : list Obj) :
  k < 0 -> page_rows (JInt k) tk rows = None.
Proof.
  intros Hk. unfold page_rows, to_int64 at 1, JInt, inject_Z; cbn [Qnum Qden]. cbn zeta.
  rewrite Z.quot_1_r.
  destruct ((- 2 ^ 63 <=? k) && (k <=? 2 ^ 63 - 1)); [| reflexivity].
  destruct (to_int64 tk); [| reflexivity].
  destruct (k <? 0) eqn:E; [reflexivity | apply Z.ltb_ge in E; lia].
Qed.

(** X4: the invoice and tax-profile lists take [page] as given when it is
    not zero: a negative page makes the skip negative, the store rejects
    the query, and both lists answer 500 "Internal server error", where
    [getPagination] would have fallen back to page 1. *)
Theorem X4_inline_paging_negative_page_is_500 `{Runtime} (req : Request) (w : World)
    (pg lim : Z) :
  query_page req = JInt pg -> pg < 0 ->
  query_limit req = JInt lim -> 1 <= lim ->
  (forall t, query_minAmount req <> DInvalid t) ->
  (forall t, query_maxAmount req <> DInvalid t) ->
  query_userId req = None ->
  answered (InvoiceController.list req w)
  = Some (sendError "Internal server error" 500 (Some req) None)
  /\ answered (TaxProfileController.list req w)
     = Some (sendError "Internal server error" 500 (Some req) None)
  /\ page (getPagination (query_page req) (query_limit req)) = JInt 1.
Proof.
  intros Hp Hneg Hl Hlim Hlo Hhi Hu.
  assert (Hskip : forall rows,
             page_rows (skipOf (inlinePagination (query_page req) (query_limit req)))
               (limit (inlinePagination (query_page req) (query_limit req))) rows = None).
  { intros rows. unfold inlinePagination. rewrite Hp, Hl.
    rewrite (num_or_negative pg 1 Hneg), (num_or_positive lim 10) by lia.
    rewrite skipOf_JInt. apply (page_rows_negative_skip _ ((pg * 1 + - (1) * 1) * lim)).
    nia. }
  split; [| split].
  - unfold answered, InvoiceController.list.
    unfold bind at 1. rewrite (build_filter_assembled req w Hlo Hhi).
    run_handler. destruct (decimal_filter_accepted _); run_handler; [| reflexivity].
    now rewrite Hskip.
  - unfold answered, TaxProfileController.list. rewrite Hu.
    run_handler. now rewrite Hskip.
  - rewrite Hp. unfold getPagination; cbn [page].
    replace (js_lt (JInt pg) (JInt 1)) with true; [reflexivity |].
    symmetry. cbn. apply negb_true_iff. apply not_true_iff_false.
    rewrite Qle_bool_iff. unfold Qle, inject_Z; cbn. lia.
Qed.

Lemma X4_witness :
  status <$> answered (@InvoiceController.list Sample.runtime
                         (Sample.with_query (JInt (-1)) (JInt 10) ∅ DAbsent DAbsent
                            Sample.request)
                         (Sample.world Sample.store)) = Some 500.
Proof.
  destruct (@X4_inline_paging_negative_page_is_500 Sample.runtime
              (Sample.with_query (JInt (-1)) (JInt 10) ∅ DAbsent DAbsent Sample.request)
              (Sample.world Sample.store) (-1) 10) as (Hi & _ & _);
    [reflexivity | lia | reflexivity | lia | discriminate | discriminate | reflexivity |].
  rewrite Hi. reflexivity.
Defined.

(** ** The id validator *)

Lemma to_integer_not_integer (n : JsNum) :
  Number_isInteger n = false -> to_integer n = None.
Proof. destruct n; try reflexivity. unfold to_integer. now intros ->. Qed.

Lemma to_integer_positive (n : JsNum) :
  Number_isInteger n = true ->
  (js_le n (JInt 0) = false <-> exists z, 0 < z /\ to_integer n = Some z).
Proof.
  destruct n as [| q | |]; try discriminate.
  intros Hi. unfold to_integer. rewrite Hi.
  unfold Number_isInteger in Hi. apply Z.eqb_eq in Hi.
  pose proof (Z.div_mod (Qnum q) (Z.pos (Qden q)) ltac:(lia)) as Hdm.
  rewrite Hi in Hdm. cbn [js_le JInt].
  split.
  - intros Hle. exists (Qnum q / Z.pos (Qden q)). split; [| reflexivity].
    apply not_true_iff_false in Hle. rewrite Qle_bool_iff in Hle.
    unfold Qle, inject_Z in Hle; cbn [Qnum Qden] in Hle. nia.
  - intros (z & Hz & [= <-]).
    apply not_true_iff_false. rewrite Qle_bool_iff.
    unfold Qle, inject_Z; cbn [Qnum Qden]. nia.
Qed.

(** X5: [validateNumericId] returns its argument, unchanged, exactly when
    that number is a whole number greater than zero; in every other case
    (NaN, an infinity, a fraction, zero, a negative number) it throws the
    error whose message names the field. *)
Theorem X5_validateNumericId_accepts_exactly_positive_integers (n : JsNum) (f : string) :
  (validateNumericId n f = inr n <-> exists z, 0 < z /\ to_integer n = Some z)
  /\ (validateNumericId n f = inr n
      \/ validateNumericId n f
         = inl (JsError ("Invalid " ++ f ++ " format. Must be a positive integer."))).
Proof.
  unfold validateNumericId.
  destruct (Number_isInteger n) eqn:Hi; cbn [negb orb].
  - pose proof (to_integer_positive n Hi) as Hpos.
    destruct (js_le n (JInt 0)) eqn:Hle.
    + split; [| now right]. split; [discriminate |].
      intros Hz. apply Hpos in Hz. discriminate.
    + split; [| now left]. split; [| reflexivity].
      intros _. now apply Hpos.
  - split; [| now right]. split; [discriminate |].
    intros (z & _ & Hz). rewrite (to_integer_not_integer n Hi) in Hz. discriminate.
Qed.

(** ** The envelope's optional fields *)

(** X6: a response carries [requestId] exactly when the request has a
    non-empty [id], and then it is that id; this holds for [sendSuccess] and,
    when the extra fields do not name [requestId], for [sendError]. *)
Theorem X6_requestId_is_the_request_id `{Runtime} (data : Val) (error : string)
    (code : Z) (req : option Request) (extra : option Obj) (o o' : Obj) (i : string) :
  json (sendSuccess data code req) = Some o ->
  json (sendError error code req extra) = Some o' ->
  default ∅ extra !! "requestId" = None ->
  (o !! "requestId" = Some (VStr i)
   <-> exists r, req = Some r /\ req_id r = Some i /\ i <> "")
  /\ (o' !! "requestId" = o !! "requestId")
  /\ (is_Some (o !! "requestId") -> exists j, o !! "requestId" = Some (VStr j)).
Proof.
  intros [= <-] [= <-] Hx. unfold spread.
  assert (Hbase : forall (b : Obj), b !! "requestId" = None ->
             (requestIdField req ∪ b) !! "requestId" = requestIdField req !! "requestId").
  { intros b Hb. rewrite lookup_union, Hb.
    now destruct (requestIdField req !! "requestId"). }
  rewrite (lookup_union_r (default ∅ extra)) by exact Hx.
  rewrite !Hbase by now simplify_map_eq.
  unfold requestIdField.
  destruct req as [r |].
  - destruct (req_id r) as [j |] eqn:Hj.
    + destruct (String.eqb j "") eqn:Ej.
      * apply String.eqb_eq in Ej. subst j. rewrite lookup_empty.
        split; [| split; [reflexivity | intros [? [=]]]].
        split; [discriminate |]. intros (r' & [= <-] & Hi & Hne). congruence.
      * apply String.eqb_neq in Ej. rewrite lookup_singleton_eq.
        split; [| split; [reflexivity | eauto]].
        split.
        -- intros [= <-]. eauto.
        -- intros (r' & [= <-] & Hi & _). congruence.
    + rewrite lookup_empty. split; [| split; [reflexivity | intros [? [=]]]].
      split; [discriminate |]. intros (r' & [= <-] & Hi & _). congruence.
  - rewrite lookup_empty. split; [| split; [reflexivity | intros [? [=]]]].
    split; [discriminate |]. intros (r' & [=] & _).
Qed.

Lemma X6_witness :
  exists o,
    json (@sendSuccess Sample.runtime VNull 200 (Some Sample.request)) = Some o
    /\ o !! "requestId" = Some (VStr "req-1").
Proof.
  eexists. split; [reflexivity |].
  destruct (@X6_requestId_is_the_request_id Sample.runtime VNull "e" 200
              (Some Sample.request) None _ _ "req-1" eq_refl eq_refl eq_refl)
    as [Hiff _].
  apply Hiff. exists Sample.request. repeat split. discriminate.
Defined.

(** X7: in an error response the extra fields are spread last: a field the
    extra object names takes the extra's value, even [error], [success] or
    [requestId]; every other field keeps the value of the base envelope. *)
Theorem X7_sendError_extra_fields_win `{Runtime} (error : string) (code : Z)
    (req : option Request) (x o : Obj) (k : string) :
  json (sendError error code req (Some x)) = Some o ->
  (forall v, x !! k = Some v -> o !! k = Some v)
  /\ (x !! k = None ->
      forall o', json (sendError error code req None) = Some o' -> o !! k = o' !! k).
Proof.
  intros [= <-]. unfold spread; cbn [default]. split.
  - intros v Hv. now apply lookup_union_Some_l.
  - intros Hx o' [= <-]. unfold sendError, spread; cbn [json default].
    rewrite (lookup_union_r x) by exact Hx.
    now rewrite (lookup_union_r ∅) by apply lookup_empty.
Qed.

Lemma X7_witness :
  exists o,
    json (@sendError Sample.runtime "Not found" 404 None
            (Some {[ "error" := VStr "replaced" ]})) = Some o
    /\ o !! "error" = Some (VStr "replaced").
Proof.
  eexists. split; [reflexivity |].
  apply (@X7_sendError_extra_fields_win Sample.runtime "Not found" 404 None
           {[ "error" := VStr "replaced" ]} _ "error" eq_refl).
  reflexivity.
Defined.

(** ** The auth gate: where the token comes from *)

(** X8: as soon as the Authorization header has a second space-separated
    segment, the cookie is not consulted: an empty segment (a header such
    as "Bearer " followed by nothing) is answered 401 "Missing token", a
    segment that does not verify 401 "Invalid token", and one that
    verifies is let through, whatever the [access_token] cookie holds. *)
Theorem X8_header_segment_shadows_cookie `{Runtime} (req : Request) (t : string) :
  header_token req = Some t ->
  verifyJwt req
  = if String.eqb t "" then Responded (bare_error 401 "Missing token")
    else match jwt_verify t with
         | Some payload => Next (with_user req payload)
         | None => Responded (bare_error 401 "Invalid token")
         end.
Proof.
  intros Ht. unfold verifyJwt, request_token. rewrite Ht.
  cbn [str_truthy default]. now destruct (String.eqb t "").
Qed.

Lemma X8_witness :
  @verifyJwt Sample.runtime
    (Sample.with_credentials (Some "Bearer ")
       {[ "access_token" := "header.payload.signature" ]} Sample.request)
  = Responded (bare_error 401 "Missing token").
Proof.
  rewrite (@X8_header_segment_shadows_cookie Sample.runtime
             (Sample.with_credentials (Some "Bearer ")
                {[ "access_token" := "header.payload.signature" ]} Sample.request)
             ""); reflexivity.
Defined.

Lemma append_empty_r (s : string) : (s ++ "")%string = s.
Proof.
  induction s as [| c s IH]; [reflexivity |].
  change (String c (s ++ "") = String c s). now rewrite IH.
Qed.

Lemma split_space_cons (s rest : string) :
  has_space s = false ->
  split_space (s ++ String " " rest) = s :: split_space rest.
Proof.
  induction s as [| c s IH]; intros Hs; [reflexivity |].
  cbn [has_space] in Hs. apply orb_false_iff in Hs as [Hc Hs].
  change (split_space (String c (s ++ String " " rest))
          = String c s :: split_space rest).
  cbn [split_space]. rewrite Hc, (IH Hs). reflexivity.
Qed.

Lemma split_space_single_segment (s : string) :
  has_space s = false -> split_space s = [s].
Proof.
  induction s as [| c s IH]; intros Hs; [reflexivity |].
  cbn [has_space] in Hs. apply orb_false_iff in Hs as [Hc Hs].
  cbn [split_space]. rewrite Hc, (IH Hs). reflexivity.
Qed.

(** X9: the gate never looks at the scheme word and ignores what follows
    the token: for a header "<scheme> <token>" or
    "<scheme> <token> <anything>", with no space inside scheme and token,
    the token read is <token>; if it verifies the request is let through
    with the payload attached. *)
Theorem X9_gate_ignores_scheme_and_trailing_text `{Runtime} (req : Request)
    (scheme t : string) (trailing : option string) (payload : Val) :
  has_space scheme = false -> has_space t = false -> t <> "" ->
  authorization req
  = Some (scheme ++ " " ++ t ++ match trailing with
                                | Some rest => " " ++ rest
                                | None => ""
                                end) ->
  jwt_verify t = Some payload ->
  header_token req = Some t /\ verifyJwt req = Next (with_user req payload).
Proof.
  intros Hs Ht Hne Hauth Hok.
  assert (Hh : header_token req = Some t).
  { unfold header_token. rewrite Hauth.
    change (scheme ++ " " ++ t ++ match trailing with
                                  | Some rest => " " ++ rest
                                  | None => ""
                                  end)
      with (scheme ++ String " " (t ++ match trailing with
                                       | Some rest => String " " rest
                                       | None => ""
                                       end)).
    rewrite (split_space_cons _ _ Hs). cbn [lookup list_lookup].
    destruct trailing as [rest |].
    - now rewrite (split_space_cons _ _ Ht).
    - rewrite append_empty_r. now rewrite (split_space_single_segment _ Ht). }
  split; [exact Hh |].
  unfold verifyJwt, request_token. rewrite Hh, (str_truthy_Some t Hne).
  cbn. now rewrite Hok.
Qed.

Lemma X9_witness :
  @verifyJwt Sample.runtime
    (Sample.with_credentials (Some "Basic header.payload.signature trailing words") ∅
       Sample.request)
  = Next (with_user
            (Sample.with_credentials (Some "Basic header.payload.signature trailing words")
               ∅ Sample.request)
            (VObj {[ "sub" := VNum (JInt 1) ]})).
Proof.
  apply (@X9_gate_ignores_scheme_and_trailing_text Sample.runtime
           (Sample.with_credentials (Some "Basic header.payload.signature trailing words")
              ∅ Sample.request)
           "Basic" "header.payload.signature" (Some "trailing words")
           (VObj {[ "sub" := VNum (JInt 1) ]}));
    [reflexivity | reflexivity | discriminate | reflexivity | reflexivity].
Defined.

(** ** Reads leave the store alone *)

Ltac case_list :=
  repeat (run_handler;
          match goal with
          | |- context [validateNumericId ?n ?f] => destruct (validateNumericId n f)
          | |- context [decimal_filter_accepted ?f] => destruct (decimal_filter_accepted f)
          | |- context [page_rows ?s ?t ?l] => destruct (page_rows s t l)
          | |- context [query_userId ?r] => destruct (query_userId r)
          | |- context [query_minAmount ?r] => destruct (query_minAmount r)
          | |- context [query_maxAmount ?r] => destruct (query_maxAmount r)
          | |- context [List.find ?p ?l] => destruct (List.find p l)
          | |- context [match ?v with VStr _ => _ | _ => _ end] => destruct v
          | |- context [comparePassword ?p ?h] => destruct (comparePassword p h)
          | |- context [match ?o !! ?k with _ => _ end] => destruct (o !! k)
          end).

(** X10: no get, no list and no login ever changes the store, whatever the
    request is and however the handler ends (a response, or an exception
    that leaves the two list handlers which validate outside their [try]). *)
Theorem X10_reads_never_write `{Runtime} (req : Request) (w : World) :
  (forall m, db (snd (handler m Get req w)) = db w)
  /\ db (snd (UserController.list req w)) = db w
  /\ db (snd (TaxProfileController.list req w)) = db w
  /\ db (snd (InvoiceController.list req w)) = db w
  /\ db (snd (AuthController.login req w)) = db w.
Proof.
  split; [| split; [| split; [| split]]].
  - intros m. destruct m; cbn [handler]; open_controllers; case_run; reflexivity.
  - unfold UserController.list, UserService.listUsers. case_list; reflexivity.
  - unfold TaxProfileController.list. case_list; reflexivity.
  - unfold InvoiceController.list, InvoiceController.build_filter,
      InvoiceController.to_decimal.
    case_list; reflexivity.
  - unfold AuthController.login, findUnique_email, AuthController.password_matches,
      AuthController.field.
    case_list; reflexivity.
Qed.

(** ** The store under the handlers *)

Lemma js_eq_sym (a b : JsNum) : js_eq a b = js_eq b a.
Proof.
  destruct a as [| x | |], b as [| y | |]; try reflexivity. cbn.
  destruct (Qeq_bool x y) eqn:E1, (Qeq_bool y x) eqn:E2; try reflexivity.
  - apply Qeq_bool_iff in E1. apply Qeq_sym, Qeq_bool_iff in E1. congruence.
  - apply Qeq_bool_iff in E2. apply Qeq_sym, Qeq_bool_iff in E2. congruence.
Qed.

Lemma js_eq_trans (a b c : JsNum) :
  js_eq a b = true -> js_eq b c = true -> js_eq a c = true.
Proof.
  destruct a as [| x | |], b as [| y | |], c as [| z | |]; try discriminate; try reflexivity.
  cbn. rewrite !Qeq_bool_iff. apply Qeq_trans.
Qed.

Lemma js_eq_congr (a b n : JsNum) : js_eq a b = true -> js_eq n a = js_eq n b.
Proof.
  intros Hab.
  destruct (js_eq n a) eqn:E1, (js_eq n b) eqn:E2; try reflexivity.
  - rewrite (js_eq_trans n a b E1 Hab) in E2. discriminate.
  - rewrite js_eq_sym in Hab. rewrite (js_eq_trans n b a E2 Hab) in E1. discriminate.
Qed.

Lemma find_filter_out (i : JsNum) (l : list Obj) :
  List.find (has_id i) (List.filter (fun r => negb (has_id i r)) l) = None.
Proof.
  induction l as [| x l IH]; [reflexivity |].
  cbn [List.filter]. destruct (has_id i x) eqn:E; cbn [negb]; [exact IH |].
  cbn [List.find]. now rewrite E.
Qed.

Lemma table_cascade_delete `{Runtime} (m : Model) (i : JsNum) (s : Store) :
  table m (cascade_delete m i s) = List.filter (fun r => negb (has_id i r)) (table m s).
Proof. destruct m; reflexivity. Qed.

Lemma remove_existing_run `{Runtime} (m : Model) (req : Request) (w : World) (row : Obj) :
  positive_integer (params_id req) ->
  List.find (has_id (params_id req)) (table m (db w)) = Some row ->
  handler m Remove req w
  = (inr no_content,
     {| db := cascade_delete m (params_id req) (db w);
        calls := calls w ++ [(m, OpDelete)] |}).
Proof.
  intros Hok Hrow.
  destruct m; cbn [handler]; open_controllers; run_handler;
    rewrite (validateNumericId_ok _ _ Hok); run_handler;
    cbn [table] in Hrow; now rewrite Hrow.
Qed.

Lemma get_run `{Runtime} (m : Model) (req : Request) (w : World) :
  positive_integer (params_id req) ->
  handler m Get req w
  = (inr match List.find (has_id (params_id req)) (table m (db w)) with
         | Some row => sendSuccess (VObj row) 200 (Some req)
         | None => sendError "Not found" 404 (Some req) None
         end,
     {| db := db w; calls := calls w ++ [(m, OpFindUnique)] |}).
Proof.
  intros Hok.
  destruct m; cbn [handler]; open_controllers; run_handler;
    rewrite (validateNumericId_ok _ _ Hok); run_handler;
    now destruct (List.find _ _).
Qed.

(** X11: deleting a record that exists is answered 204 after one store
    call, and a get of the same id right after it is answered 404
    "Not found", for users, tax profiles and invoices alike. *)
Theorem X11_get_after_delete_is_404 `{Runtime} (m : Model) (req : Request) (w : World)
    (row : Obj) :
  positive_integer (params_id req) ->
  List.find (has_id (params_id req)) (table m (db w)) = Some row ->
  exists w',
    handler m Remove req w = (inr no_content, w')
    /\ calls w' = (calls w ++ [(m, OpDelete)])%list
    /\ answered (handler m Get req w') = Some (sendError "Not found" 404 (Some req) None).
Proof.
  intros Hok Hrow. eexists. split; [now apply (remove_existing_run m req w row) |].
  split; [reflexivity |].
  unfold answered. rewrite (get_run m req _ Hok). cbn [fst db].
  now rewrite table_cascade_delete, find_filter_out.
Qed.

Lemma X11_witness :
  exists w',
    @handler Sample.runtime User Remove (Sample.with_id (JInt 1) Sample.request)
      (Sample.world Sample.store) = (inr no_content, w')
    /\ answered (@handler Sample.runtime User Get (Sample.with_id (JInt 1) Sample.request) w')
       = Some (@sendError Sample.runtime "Not found" 404
                 (Some (Sample.with_id (JInt 1) Sample.request)) None).
Proof.
  destruct (@X11_get_after_delete_is_404 Sample.runtime User
              (Sample.with_id (JInt 1) Sample.request) (Sample.world Sample.store)
              Sample.alice) as (w' & Hdel & _ & Hget).
  - split; reflexivity.
  - reflexivity.
  - exists w'. split; assumption.
Defined.

(** X12: deleting a user removes, with the user, every tax profile that
    names the user and every invoice that names one of those profiles, and
    nothing else; deleting a tax profile removes it and every invoice that
    names it, and nothing else. *)
Theorem X12_delete_cascades_to_dependents `{Runtime} (req : Request) (w : World)
    (row : Obj) :
  positive_integer (params_id req) ->
  let id := params_id req in
  (List.find (has_id id) (users (db w)) = Some row ->
   exists w',
     UserController.remove req w = (inr no_content, w')
     /\ (forall u, In u (users (db w')) <-> In u (users (db w)) /\ has_id id u = false)
     /\ (forall p, In p (taxProfiles (db w'))
                   <-> In p (taxProfiles (db w)) /\ num_field_is "userId" id p = false)
     /\ (forall i, In i (invoices (db w'))
                   <-> In i (invoices (db w))
                       /\ forall p, In p (taxProfiles (db w)) ->
                                    num_field_is "userId" id p = true ->
                                    num_field_is "taxProfileId" (row_id p) i = false))
  /\ (List.find (has_id id) (taxProfiles (db w)) = Some row ->
      exists w',
        TaxProfileController.remove req w = (inr no_content, w')
        /\ users (db w') = users (db w)
        /\ (forall p, In p (taxProfiles (db w'))
                      <-> In p (taxProfiles (db w)) /\ has_id id p = false)
        /\ (forall i, In i (invoices (db w'))
                      <-> In i (invoices (db w)) /\ num_field_is "taxProfileId" id i = false)).
Proof.
  intros Hok id. split; intros Hrow.
  - eexists. split; [exact (remove_existing_run User req w row Hok Hrow) |].
    cbn [db cascade_delete users taxProfiles invoices].
    split; [| split].
    + intros u. rewrite filter_In. now rewrite negb_true_iff.
    + intros p. rewrite filter_In. now rewrite negb_true_iff.
    + intros i. rewrite filter_In, negb_true_iff. split.
      * intros [Hin Hnone]. split; [exact Hin |]. intros p Hp Hown.
        destruct (num_field_is "taxProfileId" (row_id p) i) eqn:E; [| reflexivity].
        assert (Hex : existsb (fun p => num_field_is "taxProfileId" (row_id p) i)
                        (List.filter (num_field_is "userId" (params_id req))
                           (taxProfiles (db w))) = true).
        { apply existsb_exists. exists p. split; [| exact E].
          apply filter_In. now split. }
        congruence.
      * intros [Hin Hall]. split; [exact Hin |].
        apply not_true_iff_false. intros Hex.
        apply existsb_exists in Hex as (p & Hp & E).
        apply filter_In in Hp as [Hp Hown].
        rewrite (Hall p Hp Hown) in E. discriminate.
  - eexists. split; [exact (remove_existing_run TaxProfile req w row Hok Hrow) |].
    cbn [db cascade_delete users taxProfiles invoices].
    split; [reflexivity |]. split.
    + intros p. rewrite filter_In. now rewrite negb_true_iff.
    + intros i. rewrite filter_In. now rewrite negb_true_iff.
Qed.

Lemma X12_witness :
  exists w',
    @UserController.remove Sample.runtime (Sample.with_id (JInt 1) Sample.request)
      (Sample.world Sample.store) = (inr no_content, w')
    /\ forall p, In p (taxProfiles (db w')) ->
                 num_field_is "userId" (JInt 1) p = false.
Proof.
  destruct (@X12_delete_cascades_to_dependents Sample.runtime
              (Sample.with_id (JInt 1) Sample.request) (Sample.world Sample.store)
              Sample.alice) as [Huser _].
  - split; reflexivity.
  - destruct Huser as (w' & Hrun & _ & Hprofiles & _); [reflexivity |].
    exists w'. split; [exact Hrun |].
    intros p Hp. now apply Hprofiles in Hp.
Defined.

Lemma update_violation_rejected (m : Model) (i : JsNum) (data : Obj) (s : Store) :
  client_rejects m data = true -> update_violation m i data s = Some PValidation.
Proof. intros Hr. unfold update_violation. now rewrite Hr. Qed.

Lemma update_run `{Runtime} (m : Model) (req : Request) (w : World) (data row : Obj) :
  positive_integer (params_id req) ->
  parsed req = Some data ->
  (m = User -> validated_password data) ->
  List.find (has_id (params_id req)) (table m (db w)) = Some row ->
  handler m Update req w
  = match update_violation m (params_id req) (update_data m data) (db w) with
    | Some c =>
        (inr (sendError (prisma_message c) 400 (Some req) None),
         {| db := db w; calls := calls w ++ [(m, OpUpdate)] |})
    | None =>
        let row' := updated_row m (update_data m data) row in
        (inr (sendSuccess (VObj row') 200 (Some req)),
         {| db := set_table m
                    (List.map (fun x => if has_id (params_id req) x then row' else x)
                       (table m (db w)))
                    (db w);
            calls := calls w ++ [(m, OpUpdate)] |})
    end.
Proof.
  intros Hok Hparsed Hvalid Hrow.
  destruct m; cbn [handler];
    unfold UserController.update, TaxProfileController.update, InvoiceController.update;
    run_handler; rewrite (validateNumericId_ok _ _ Hok), Hparsed; run_handler.
  1: rewrite (hash_supplied_password_validated data _ (Hvalid eq_refl)).
  all: cbn [table db update_data] in *;
    match goal with
    | |- context [client_rejects ?a ?b] => destruct (client_rejects a b) eqn:Hrej
    end;
    [ now rewrite (update_violation_rejected _ _ _ _ Hrej)
    | rewrite Hrow;
      match goal with
      | |- context [update_violation ?a ?b ?c ?d] => destruct (update_violation a b c d)
      end; reflexivity ].
Qed.

(** X13: an update that the store rejects (a duplicate e-mail on a user, a
    tax profile naming a user that does not exist, an invoice naming a tax
    profile that does not exist, or an invoice date that is not a date,
    which the client refuses first) is answered 400 with the store's
    message and writes nothing. *)
Theorem X13_rejected_update_writes_nothing `{Runtime} (m : Model) (req : Request)
    (w : World) (data row : Obj) (c : PrismaCode) :
  positive_integer (params_id req) ->
  parsed req = Some data ->
  (m = User -> validated_password data) ->
  List.find (has_id (params_id req)) (table m (db w)) = Some row ->
  update_violation m (params_id req) (update_data m data) (db w) = Some c ->
  handler m Update req w
  = (inr (sendError (prisma_message c) 400 (Some req) None),
     {| db := db w; calls := calls w ++ [(m, OpUpdate)] |})
  /\ (m = User -> c = P2002 ["email"])
  /\ (m <> User ->
      c = if client_rejects m (update_data m data) then PValidation else P2003).
Proof.
  intros Hok Hparsed Hvalid Hrow Hviol.
  split; [now rewrite (update_run m req w data row Hok Hparsed Hvalid Hrow), Hviol |].
  unfold update_violation in Hviol. split.
  - intros ->. cbn [client_rejects] in Hviol.
    repeat match type of Hviol with
           | context [match ?x with _ => _ end] => destruct x; try discriminate
           end;
      congruence.
  - intros Hm.
    destruct (client_rejects m (update_data m data)); [congruence |].
    destruct m; [contradiction | |];
      repeat match type of Hviol with
             | context [match ?x with _ => _ end] => destruct x; try discriminate
             end;
      congruence.
Qed.

Lemma X13_witness :
  answered (@handler Sample.runtime Invoice Update
              (Sample.with_parsed {[ "taxProfileId" := VNum (JInt 77) ]}
                 (Sample.with_id (JInt 1) Sample.request))
              (Sample.world Sample.store))
  = Some (@sendError Sample.runtime "Foreign key constraint violated" 400
            (Some (Sample.with_parsed {[ "taxProfileId" := VNum (JInt 77) ]}
                     (Sample.with_id (JInt 1) Sample.request))) None).
Proof.
  unfold answered.
  destruct (@X13_rejected_update_writes_nothing Sample.runtime Invoice
              (Sample.with_parsed {[ "taxProfileId" := VNum (JInt 77) ]}
                 (Sample.with_id (JInt 1) Sample.request))
              (Sample.world Sample.store)
              {[ "taxProfileId" := VNum (JInt 77) ]}
              (Sample.invoice 1 (10055 # 100) "draft") P2003) as (Hrun & _).
  - split; reflexivity.
  - reflexivity.
  - discriminate.
  - reflexivity.
  - vm_compute. reflexivity.
  - rewrite Hrun. reflexivity.
Defined.

Lemma find_map_replace (i : JsNum) (row' : Obj) (l : list Obj) (row : Obj) :
  List.find (has_id i) l = Some row -> has_id i row' = true ->
  List.find (has_id i) (List.map (fun x => if has_id i x then row' else x) l) = Some row'.
Proof.
  intros Hfind Hid. induction l as [| x l IH]; [discriminate |].
  cbn [List.find List.map] in *.
  destruct (has_id i x) eqn:E; [now rewrite Hid |].
  rewrite E. now apply IH.
Qed.

Lemma update_data_no_id `{Runtime} (m : Model) (data : Obj) :
  data !! "id" = None -> update_data m data !! "id" = None.
Proof.
  intros Hid.
  assert (Hc : cleanUndefined data !! "id" = None)
    by (rewrite cleanUndefined_lookup; now rewrite Hid).
  unfold update_data. destruct m; try exact Hc.
  destruct (cleanUndefined data !! "password") as [[] |]; try exact Hc.
  rewrite lookup_insert_ne by discriminate. exact Hc.
Qed.

Lemma updated_row_id `{Runtime} (m : Model) (data row : Obj) :
  data !! "id" = None -> updated_row m data row !! "id" = row !! "id".
Proof.
  intros Hid.
  assert (Hs : spread data row !! "id" = row !! "id")
    by (unfold spread; now rewrite lookup_union_r).
  unfold updated_row. destruct m; try exact Hs;
    rewrite lookup_insert_ne by discriminate; exact Hs.
Qed.

(** X14: after an update that the store accepts, a get of the same id is
    answered 200 with exactly the row the update answered with. *)
Theorem X14_get_after_update_returns_the_updated_row `{Runtime} (m : Model)
    (req : Request) (w : World) (data row : Obj) :
  positive_integer (params_id req) ->
  parsed req = Some data ->
  data !! "id" = None ->
  (m = User -> validated_password data) ->
  List.find (has_id (params_id req)) (table m (db w)) = Some row ->
  update_violation m (params_id req) (update_data m data) (db w) = None ->
  exists row' w',
    handler m Update req w = (inr (sendSuccess (VObj row') 200 (Some req)), w')
    /\ answered (handler m Get req w') = Some (sendSuccess (VObj row') 200 (Some req)).
Proof.
  intros Hok Hparsed Hid Hvalid Hrow Hfree.
  do 2 eexists. split.
  - rewrite (update_run m req w data row Hok Hparsed Hvalid Hrow), Hfree. reflexivity.
  - unfold answered. rewrite (get_run m req _ Hok). cbn [fst db].
    assert (Htab : forall rows, table m (set_table m rows (db w)) = rows)
      by (intros rows; destruct m; reflexivity).
    rewrite Htab, (find_map_replace _ _ _ row Hrow); [reflexivity |].
    apply find_some in Hrow as [_ Hrow].
    unfold has_id in *.
    now rewrite (updated_row_id m _ row (update_data_no_id m data Hid)).
Qed.

Lemma X14_witness :
  exists row' w',
    @handler Sample.runtime User Update
      (Sample.with_parsed Sample.rename_body (Sample.with_id (JInt 1) Sample.request))
      (Sample.world Sample.store)
    = (inr (@sendSuccess Sample.runtime (VObj row') 200
              (Some (Sample.with_parsed Sample.rename_body
                       (Sample.with_id (JInt 1) Sample.request)))), w')
    /\ row' !! "name" = Some (VStr "Alice Updated").
Proof.
  destruct (@X14_get_after_update_returns_the_updated_row Sample.runtime User
              (Sample.with_parsed Sample.rename_body (Sample.with_id (JInt 1) Sample.request))
              (Sample.world Sample.store) Sample.rename_body Sample.alice)
    as (row' & w' & Hrun & _).
  - split; reflexivity.
  - reflexivity.
  - reflexivity.
  - intros _ v Hv. vm_compute in Hv. injection Hv as <-.
    right. eexists. split; [reflexivity | cbn; lia].
  - reflexivity.
  - vm_compute. reflexivity.
  - exists row', w'. split; [exact Hrun |].
    rewrite (@update_run Sample.runtime User _ _ Sample.rename_body Sample.alice) in Hrun.
    + vm_compute in Hrun. injection Hrun as <- _. vm_compute. reflexivity.
    + split; reflexivity.
    + reflexivity.
    + intros _ v Hv. vm_compute in Hv. injection Hv as <-.
      right. eexists. split; [reflexivity | cbn; lia].
    + reflexivity.
Defined.

(** ** Referential integrity *)

Lemma has_id_both (i n : JsNum) (a b : Obj) :
  has_id i a = true -> has_id i b = true -> has_id n a = has_id n b.
Proof.
  unfold has_id.
  destruct (a !! "id") as [[| | | x | | | | | |] |]; try discriminate.
  destruct (b !! "id") as [[| | | y | | | | | |] |]; try discriminate.
  intros Ha Hb.
  rewrite (js_eq_sym x n), (js_eq_sym y n). apply js_eq_congr.
  rewrite js_eq_sym in Hb. exact (js_eq_trans _ _ _ Ha Hb).
Qed.

Lemma has_id_same_id (n : JsNum) (a b : Obj) :
  a !! "id" = b !! "id" -> has_id n a = has_id n b.
Proof. unfold has_id. now intros ->. Qed.

Lemma existsb_replace (i n : JsNum) (row row' : Obj) (l : list Obj) :
  has_id i row = true -> row' !! "id" = row !! "id" ->
  existsb (has_id n) (List.map (fun x => if has_id i x then row' else x) l)
  = existsb (has_id n) l.
Proof.
  intros Hrow Hid. induction l as [| x l IH]; [reflexivity |].
  cbn [List.map existsb]. rewrite IH. f_equal.
  destruct (has_id i x) eqn:E; [| reflexivity].
  rewrite (has_id_same_id n row' row Hid). now apply (has_id_both i).
Qed.

Lemma owner_exists_ext (k : string) (o1 o2 : list Obj) (r : Obj) :
  (forall n, existsb (has_id n) o1 = existsb (has_id n) o2) ->
  owner_exists k o1 r = owner_exists k o2 r.
Proof.
  intros Hext. unfold owner_exists.
  destruct (r !! k) as [[| | | n | | | | | |] |]; try reflexivity. apply Hext.
Qed.

Lemma cleanUndefined_store_shaped (data : Obj) :
  schema_shaped data -> store_shaped (cleanUndefined data).
Proof.
  intros (Hid & Hu & Ht). unfold store_shaped.
  rewrite !cleanUndefined_lookup, Hid. split; [reflexivity |].
  split; intros v.
  - destruct (data !! "userId") as [x |]; [| discriminate].
    destruct (Hu x eq_refl) as [-> | (n & ->)]; [discriminate |].
    intros [= <-]. eauto.
  - destruct (data !! "taxProfileId") as [x |]; [| discriminate].
    destruct (Ht x eq_refl) as [-> | (n & ->)]; [discriminate |].
    intros [= <-]. eauto.
Qed.

Lemma store_shaped_insert_password (data : Obj) (v : Val) :
  store_shaped data -> store_shaped (<["password" := v]> data).
Proof.
  intros (Hid & Hu & Ht). unfold store_shaped.
  rewrite !lookup_insert_ne by discriminate. auto.
Qed.

Lemma updated_row_lookup `{Runtime} (m : Model) (data row : Obj) (k : string) :
  k <> "updatedAt" ->
  updated_row m data row !! k
  = match data !! k with Some v => Some v | None => row !! k end.
Proof.
  intros Hk.
  assert (Hs : spread data row !! k
               = match data !! k with Some v => Some v | None => row !! k end).
  { unfold spread. rewrite lookup_union.
    destruct (data !! k), (row !! k); reflexivity. }
  unfold updated_row. destruct m; try exact Hs;
    rewrite lookup_insert_ne by congruence; exact Hs.
Qed.

Lemma references_after_update `{Runtime} (m : Model) (i : JsNum) (data row : Obj)
    (s : Store) :
  references_hold s -> store_shaped data ->
  List.find (has_id i) (table m s) = Some row ->
  update_violation m i data s = None ->
  references_hold
    (set_table m
       (List.map (fun x => if has_id i x then updated_row m data row else x) (table m s))
       s).
Proof.
  intros [Hp Hi] (Hid & Hu & Ht) Hfind Hfree.
  apply find_some in Hfind as [Hin Hrow].
  assert (Hsame : updated_row m data row !! "id" = row !! "id")
    by (now apply updated_row_id).
  destruct m; cbn [table set_table] in *; split;
    cbn [users taxProfiles invoices].
  - intros p Hpin.
    rewrite (owner_exists_ext "userId" _ (users s));
      [now apply Hp | intros n; now apply (existsb_replace i n row)].
  - exact Hi.
  - intros p' Hp'. apply in_map_iff in Hp' as (p & <- & Hpin).
    destruct (has_id i p) eqn:E; [| now apply Hp].
    unfold owner_exists. rewrite updated_row_lookup by discriminate.
    unfold update_violation in Hfree.
    destruct (client_rejects _ _); [discriminate |].
    destruct (data !! "userId") as [v |] eqn:Ev.
    + destruct (Hu v eq_refl) as (n & ->).
      destruct (existsb (has_id n) (users s)); [reflexivity | discriminate].
    + exact (Hp row Hin).
  - intros inv Hinv.
    rewrite (owner_exists_ext "taxProfileId" _ (taxProfiles s));
      [now apply Hi | intros n; now apply (existsb_replace i n row)].
  - exact Hp.
  - intros inv' Hinv'. apply in_map_iff in Hinv' as (inv & <- & Hinv).
    destruct (has_id i inv) eqn:E; [| now apply Hi].
    unfold owner_exists. rewrite updated_row_lookup by discriminate.
    unfold update_violation in Hfree.
    destruct (client_rejects _ _); [discriminate |].
    destruct (data !! "taxProfileId") as [v |] eqn:Ev.
    + destruct (Ht v eq_refl) as (n & ->).
      destruct (existsb (has_id n) (taxProfiles s)); [reflexivity | discriminate].
    + exact (Hi row Hin).
Qed.

Lemma owner_survives (k : string) (i : JsNum) (owners : list Obj) (r : Obj) :
  owner_exists k owners r = true -> num_field_is k i r = false ->
  owner_exists k (List.filter (fun o => negb (has_id i o)) owners) r = true.
Proof.
  unfold owner_exists, num_field_is.
  destruct (r !! k) as [[| | | n | | | | | |] |]; try discriminate.
  intros Hex Hne. apply existsb_exists in Hex as (o & Ho & Hn).
  apply existsb_exists. exists o. split; [| exact Hn].
  apply filter_In. split; [exact Ho |]. apply negb_true_iff.
  destruct (has_id i o) eqn:E; [| reflexivity].
  unfold has_id in Hn, E.
  destruct (o !! "id") as [[| | | x | | | | | |] |]; try discriminate.
  rewrite js_eq_sym in Hn. rewrite (js_eq_trans _ _ _ Hn E) in Hne. discriminate.
Qed.

Lemma references_after_delete `{Runtime} (m : Model) (i : JsNum) (s : Store) :
  references_hold s -> references_hold (cascade_delete m i s).
Proof.
  intros [Hp Hi].
  destruct m; cbn [cascade_delete set_table]; split;
    cbn [users taxProfiles invoices].
  - intros p Hpin. apply filter_In in Hpin as [Hpin Hkeep].
    apply negb_true_iff in Hkeep. now apply owner_survives; [apply Hp |].
  - intros inv Hinv. apply filter_In in Hinv as [Hinv Hkeep].
    apply negb_true_iff in Hkeep.
    specialize (Hi inv Hinv). unfold owner_exists in *.
    destruct (inv !! "taxProfileId") as [[| | | t | | | | | |] |] eqn:Et; try discriminate.
    apply existsb_exists in Hi as (p & Hpin & Ht).
    apply existsb_exists. exists p. split; [| exact Ht].
    apply filter_In. split; [exact Hpin |]. apply negb_true_iff.
    destruct (num_field_is "userId" i p) eqn:Eown; [| reflexivity].
    exfalso. apply not_true_iff_false in Hkeep. apply Hkeep.
    apply existsb_exists. exists p. split; [apply filter_In; now split |].
    unfold num_field_is. rewrite Et.
    unfold has_id in Ht. unfold row_id.
    destruct (p !! "id") as [[| | | x | | | | | |] |]; try discriminate.
    now rewrite js_eq_sym.
  - intros p Hpin. apply filter_In in Hpin as [Hpin _]. now apply Hp.
  - intros inv Hinv. apply filter_In in Hinv as [Hinv Hkeep].
    apply negb_true_iff in Hkeep. now apply owner_survives; [apply Hi |].
  - exact Hp.
  - intros inv Hinv. apply filter_In in Hinv as [Hinv _]. now apply Hi.
Qed.

Ltac case_run_eq :=
  repeat (run_handler;
          match goal with
          | |- context [validateNumericId ?n ?f] => destruct (validateNumericId n f)
          | |- context [parsed ?r] => destruct (parsed r) eqn:?
          | |- context [cleanUndefined ?d !! ?k] => destruct (cleanUndefined d !! k)
          | |- context [val_truthy ?v] => destruct (val_truthy v)
          | |- context [client_rejects ?m ?d] => destruct (client_rejects m d)
          | |- context [List.find ?p ?l] => destruct (List.find p l) eqn:?
          | |- context [update_violation ?m ?i ?d ?s] =>
              destruct (update_violation m i d s) eqn:?
          | |- context [exn_code ?e] => destruct e as [? | []]; cbn [exn_code]
          | |- context [match ?v with VStr _ => _ | _ => _ end] => destruct v
          end).

(** X15: referential integrity is an invariant of every get, update and
    delete endpoint: if every tax profile has its user and every invoice
    its tax profile before the request, the same holds after it, whatever
    the request (the update body being one the schemas let through). *)
Theorem X15_handlers_keep_references `{Runtime} (m : Model) (a : Action) (req : Request)
    (w : World) :
  references_hold (db w) ->
  (forall data, parsed req = Some data -> schema_shaped data) ->
  references_hold (db (snd (handler m a req w))).
Proof.
  intros Href Hschema.
  destruct m, a; cbn [handler]; open_controllers; case_run_eq; cbn [snd db];
    try exact Href;
    try (apply references_after_delete; exact Href);
    match goal with
    | Hp : parsed req = Some ?d,
      Hf : List.find (has_id ?i) _ = Some ?row,
      Hv : update_violation ?m ?i ?data _ = None |- _ =>
        pose proof (cleanUndefined_store_shaped d (Hschema d eq_refl)) as Hshape;
        refine (references_after_update m i data row (db w) Href _ Hf Hv);
        first [ exact Hshape | apply store_shaped_insert_password; exact Hshape ]
    end.
Qed.

Lemma X15_witness :
  references_hold
    (db (snd (@handler Sample.runtime User Remove (Sample.with_id (JInt 1) Sample.request)
                (Sample.world Sample.store)))).
Proof.
  apply (@X15_handlers_keep_references Sample.runtime User Remove
           (Sample.with_id (JInt 1) Sample.request) (Sample.world Sample.store)).
  - split; intros r Hr; cbn in Hr;
      repeat (destruct Hr as [<- | Hr]; [vm_compute; reflexivity |]);
      destruct Hr.
  - intros data Hd. discriminate Hd.
Defined.

(** ** Registration, login, logout *)

Lemma existsb_email_free (e : string) (s : Store) :
  ~ email_taken e s -> existsb (str_field_is "email" e) (users s) = false.
Proof.
  intros Hfree. apply not_true_iff_false. intros Hex.
  apply existsb_exists in Hex as (u & Hin & Hu).
  apply Hfree. exists u. split; [exact Hin | now apply str_field_is_true].
Qed.

Lemma find_snoc_fresh (e : string) (l : list Obj) (u : Obj) :
  List.find (str_field_is "email" e) l = None ->
  str_field_is "email" e u = true ->
  List.find (str_field_is "email" e) (l ++ [u]) = Some u.
Proof.
  intros Hnone Hu. induction l as [| x l IH]; cbn [app List.find] in *.
  - now rewrite Hu.
  - destruct (str_field_is "email" e x); [discriminate | now apply IH].
Qed.

(** The row [create_user] stores. *)
Lemma register_fresh_run `{Runtime} (others : Store -> Store) (req : Request) (w : World)
    (e p : string) :
  AuthController.field req "email" = VStr e ->
  AuthController.field req "password" = VStr p ->
  name_accepted (AuthController.field req "name") = true ->
  ~ email_taken e (db w) -> ~ email_taken e (others (db w)) ->
  let s := others (db w) in
  let name := AuthController.field req "name" in
  let u : Obj :=
    <["id" := VNum (JInt (next_user_id s))]>
      (<["email" := VStr e]>
         (<["password" := VStr (hashPassword p)]>
            (<["name" := if is_undefined name then VNull else name]>
               (<["createdAt" := VDate now]>
                  (<["updatedAt" := VDate now]> ∅))))) in
  AuthController.register others req w
  = (inr (AuthController.session_reply 201 req u (VStr e) name),
     {| db := {| users := users s ++ [u]; taxProfiles := taxProfiles s;
                 invoices := invoices s; next_user_id := next_user_id s + 1 |};
        calls := (calls w ++ [(User, OpFindUnique)]) ++ [(User, OpCreate)] |}).
Proof.
  intros He Hp Hname Hfree Hfree'. cbn zeta.
  unfold AuthController.register, findUnique_email, create_user,
    AuthController.interleave.
  rewrite He, Hp. run_handler.
  rewrite (find_email_free e _ Hfree). run_handler. rewrite Hname. run_handler.
  now rewrite (existsb_email_free e _ Hfree').
Qed.

(** X16: registering with an e-mail no account has, a string password and
    a name that is a string, null or absent answers 201, stores one new
    account whose password column is the bcrypt hash (never the plaintext)
    and whose id is the next of the sequence, and sets the cookie to the
    token signed for that id; a later login with the same credentials
    answers 200 with a token signed for the same id at that later time,
    provided bcrypt accepts the password against the stored hash. *)
Theorem X16_register_then_login (at_register at_login : Runtime)
    (others : Store -> Store) (req : Request) (w : World) (e p : string) :
  AuthController.field req "email" = VStr e ->
  AuthController.field req "password" = VStr p ->
  name_accepted (AuthController.field req "name") = true ->
  ~ email_taken e (db w) -> ~ email_taken e (others (db w)) ->
  @comparePassword at_login p (@hashPassword at_register p) = true ->
  exists u r w',
    @AuthController.register at_register others req w = (inr r, w')
    /\ status r = 201
    /\ users (db w') = (users (others (db w)) ++ [u])%list
    /\ u !! "email" = Some (VStr e)
    /\ u !! "password" = Some (VStr (@hashPassword at_register p))
    /\ u !! "id" = Some (VNum (JInt (next_user_id (others (db w)))))
    /\ set_cookie r
       = Some (@signJwt at_register
                 {[ "sub" := VNum (JInt (next_user_id (others (db w)))) ]})
    /\ data_field r "token"
       = Some (VStr (@signJwt at_register
                       {[ "sub" := VNum (JInt (next_user_id (others (db w)))) ]}))
    /\ exists r', answered (@AuthController.login at_login req w') = Some r'
                  /\ status r' = 200
                  /\ set_cookie r'
                     = Some (@signJwt at_login
                               {[ "sub" := VNum (JInt (next_user_id (others (db w)))) ]}).
Proof.
  intros He Hp Hname Hfree Hfree' Hbcrypt.
  pose proof (@register_fresh_run at_register others req w e p He Hp Hname Hfree Hfree')
    as Hrun.
  cbn zeta in Hrun.
  set (s := others (db w)) in *.
  set (name := AuthController.field req "name") in *.
  set (u := <["id" := VNum (JInt (next_user_id s))]> _) in Hrun.
  assert (Hemail : u !! "email" = Some (VStr e)) by (subst u; now simplify_map_eq).
  assert (Hpass : u !! "password" = Some (VStr (@hashPassword at_register p)))
    by (subst u; now simplify_map_eq).
  assert (Hid : u !! "id" = Some (VNum (JInt (next_user_id s))))
    by (subst u; now simplify_map_eq).
  exists u. do 2 eexists. split; [exact Hrun |].
  unfold AuthController.session_reply, AuthController.with_cookie.
  rewrite Hid. cbn [default].
  split; [reflexivity |]. split; [reflexivity |].
  split; [exact Hemail |]. split; [exact Hpass |]. split; [reflexivity |].
  split; [reflexivity |]. split.
  - unfold data_field, sendSuccess, spread; cbn [json].
    rewrite lookup_union_r by (apply requestIdField_lookup; discriminate).
    now simplify_map_eq.
  - eexists. split.
    + unfold answered, AuthController.login, findUnique_email,
        AuthController.password_matches.
      rewrite He, Hp. run_handler. cbn [users].
      rewrite (find_snoc_fresh e _ u (find_email_free e _ Hfree'))
        by now apply str_field_is_true.
      run_handler. rewrite Hpass. run_handler. rewrite Hbcrypt. reflexivity.
    + unfold AuthController.session_reply, AuthController.with_cookie.
      cbn [status set_cookie]. rewrite Hid. cbn [default].
      split; reflexivity.
Qed.

Lemma X16_witness :
  exists r w',
    @AuthController.register Sample.runtime (fun s => s)
      (Sample.with_body Sample.signup_body Sample.request) (Sample.world Sample.empty)
    = (inr r, w')
    /\ status r = 201.
Proof.
  destruct (X16_register_then_login Sample.runtime Sample.runtime (fun s => s)
              (Sample.with_body Sample.signup_body Sample.request)
              (Sample.world Sample.empty) "Alice@Example.com" "AnotherSecret1!")
    as (u & r & w' & Hrun & Hstatus & _).
  - reflexivity.
  - reflexivity.
  - reflexivity.
  - intros (x & [] & _).
  - intros (x & [] & _).
  - reflexivity.
  - exists r, w'. split; assumption.
Defined.

Lemma data_field_sendError `{Runtime} (e : string) (code : Z) (req : option Request)
    (k : string) :
  data_field (sendError e code req None) k = None.
Proof.
  unfold data_field, sendError, spread; cbn [json default].
  rewrite lookup_union_r by apply lookup_empty.
  rewrite lookup_union_r by (apply requestIdField_lookup; discriminate).
  now simplify_map_eq.
Qed.

Lemma data_field_sendSuccess `{Runtime} (d : Obj) (code : Z) (req : option Request)
    (k : string) :
  data_field (sendSuccess (VObj d) code req) k = d !! k.
Proof.
  unfold data_field, sendSuccess, spread; cbn [json].
  rewrite lookup_union_r by (apply requestIdField_lookup; discriminate).
  now simplify_map_eq.
Qed.

Lemma data_field_session_reply `{Runtime} (code : Z) (req : Request) (u : Obj)
    (email name : Val) (k : string) :
  data_field (AuthController.session_reply code req u email name) k
  = (<["token" := VStr (signJwt {[ "sub" := default VUndefined (u !! "id") ]})]>
       (<["user" := VObj (<["id" := default VUndefined (u !! "id")]>
                            (<["email" := email]> (<["name" := name]> ∅)))]>
          (∅ : Obj))) !! k.
Proof.
  unfold AuthController.session_reply, AuthController.with_cookie, data_field.
  cbn [json]. apply (data_field_sendSuccess _ code (Some req) k).
Qed.

Ltac case_auth :=
  repeat (run_handler;
          match goal with
          | |- context [AuthController.field ?r ?k] =>
              destruct (AuthController.field r k)
          | |- context [List.find ?p ?l] => destruct (List.find p l)
          | |- context [existsb ?p ?l] => destruct (existsb p l)
          | |- context [comparePassword ?p ?h] => destruct (comparePassword p h)
          | |- context [match ?o !! ?k with _ => _ end] => destruct (o !! k)
          | |- context [match ?v with VStr _ => _ | _ => _ end] => destruct v
          end).

(** What a registration or a login can answer. *)
Lemma session_answers `{Runtime} (others : Store -> Store) (req : Request) (w : World)
    (r : Response) :
  answered (AuthController.register others req w) = Some r
  \/ answered (AuthController.login req w) = Some r ->
  (exists e code, r = sendError e code (Some req) None)
  \/ (exists code u email name, r = AuthController.session_reply code req u email name).
Proof.
  unfold answered.
  intros [Hr | Hr]; revert Hr;
    unfold AuthController.register, AuthController.login, findUnique_email,
      create_user, AuthController.interleave, AuthController.password_matches,
      AuthController.is_email_conflict;
    case_auth; cbn [fst existsb String.eqb Ascii.eqb Bool.eqb orb];
    intros [= <-]; eauto 6.
Qed.

(** X17: no answer of [register] or [login] carries a password, hashed or
    not: when the response has a [user] object its fields are exactly
    [id], [email] and [name], and beside it the data holds only the token. *)
Theorem X17_session_replies_carry_no_password `{Runtime} (others : Store -> Store)
    (req : Request) (w : World) (r : Response) (o : Obj) :
  answered (AuthController.register others req w) = Some r
  \/ answered (AuthController.login req w) = Some r ->
  data_field r "user" = Some (VObj o) ->
  dom o = {[ "id"; "email"; "name" ]}
  /\ o !! "password" = None
  /\ data_field r "password" = None.
Proof.
  intros Hr Ho.
  destruct (session_answers others req w r Hr)
    as [(e & code & ->) | (code & u & email & name & ->)].
  - rewrite data_field_sendError in Ho. discriminate.
  - rewrite data_field_session_reply in *.
    simplify_map_eq.
    split; [| split; [| reflexivity]].
    + rewrite !dom_insert_L, dom_empty_L. set_solver.
    + now simplify_map_eq.
Qed.

Lemma X17_witness :
  exists r o,
    answered (@AuthController.register Sample.runtime (fun s => s)
                (Sample.with_body Sample.signup_body Sample.request)
                (Sample.world Sample.empty)) = Some r
    /\ data_field r "user" = Some (VObj o)
    /\ o !! "password" = None.
Proof.
  do 2 eexists. split; [reflexivity |]. split; [vm_compute; reflexivity |].
  eapply (@X17_session_replies_carry_no_password Sample.runtime (fun s => s)
            (Sample.with_body Sample.signup_body Sample.request)
            (Sample.world Sample.empty)).
  - left. reflexivity.
  - vm_compute. reflexivity.
Defined.

(** X18: the user get answers with the row as the store holds it: the
    response data carries the [password] column, that is the bcrypt hash of
    the account. *)
Theorem X18_user_get_returns_the_password_hash `{Runtime} (req : Request) (w : World)
    (row : Obj) (h : string) :
  positive_integer (params_id req) ->
  List.find (has_id (params_id req)) (users (db w)) = Some row ->
  row !! "password" = Some (VStr h) ->
  exists r,
    answered (UserController.get req w) = Some r
    /\ status r = 200
    /\ data_field r "password" = Some (VStr h).
Proof.
  intros Hok Hrow Hh. eexists. split.
  - unfold answered. change UserController.get with (handler User Get).
    rewrite (get_run User req w Hok). cbn [fst table]. now rewrite Hrow.
  - split; [reflexivity |]. now rewrite data_field_sendSuccess.
Qed.

Lemma X18_witness :
  exists r,
    answered (@UserController.get Sample.runtime (Sample.with_id (JInt 1) Sample.request)
                (Sample.world Sample.store)) = Some r
    /\ data_field r "password" = Some (VStr "$2a$10$SuperSecret123!").
Proof.
  destruct (@X18_user_get_returns_the_password_hash Sample.runtime
              (Sample.with_id (JInt 1) Sample.request) (Sample.world Sample.store)
              Sample.alice "$2a$10$SuperSecret123!") as (r & Hr & _ & Hp).
  - split; reflexivity.
  - reflexivity.
  - reflexivity.
  - exists r. split; assumption.
Defined.

(** ** Accounts: unique e-mail addresses *)

Lemma emails_existsb (e : string) (s : Store) :
  e ∈ emails s -> existsb (str_field_is "email" e) (users s) = true.
Proof.
  unfold emails. intros Hin. apply list_elem_of_omap in Hin as (u & Hu & He).
  apply existsb_exists. exists u. split; [now apply list_elem_of_In |].
  destruct (u !! "email") as [[| | | | s0 | | | | |] |] eqn:E; try discriminate.
  injection He as ->. now apply str_field_is_true.
Qed.

Lemma NoDup_emails_filter (f : Obj -> bool) (l : list Obj) :
  NoDup (omap (fun u => match u !! "email" with
                        | Some (VStr e) => Some e
                        | _ => None
                        end) l) ->
  NoDup (omap (fun u => match u !! "email" with
                        | Some (VStr e) => Some e
                        | _ => None
                        end) (List.filter f l)).
Proof.
  induction l as [| x l IH]; [intros; exact (NoDup_nil_2) |].
  cbn [omap List.filter list_omap].
  destruct (f x).
  - cbn [omap list_omap].
    destruct (x !! "email") as [[| | | | e | | | | |] |]; auto.
    rewrite !NoDup_cons. intros [Hnot Hnd]. split; [| now apply IH].
    intros Hin. apply Hnot.
    apply list_elem_of_omap in Hin as (u & Hu & He).
    apply list_elem_of_omap. exists u. split; [| exact He].
    apply list_elem_of_In in Hu. apply filter_In in Hu as [Hu _].
    now apply list_elem_of_In.
  - destruct (x !! "email") as [[| | | | e | | | | |] |]; auto.
    rewrite NoDup_cons. intros [_ Hnd]. now apply IH.
Qed.

Lemma create_user_keeps_unique_emails `{Runtime} (email : Val) (hashed : string)
    (name : Val) (w : World) :
  NoDup (emails (db w)) ->
  NoDup (emails (db (snd (create_user email hashed name w)))).
Proof.
  intros Hnd. unfold create_user. run_handler.
  destruct email as [| | | | e | | | | |]; try exact Hnd.
  destruct (negb (name_accepted name)); [exact Hnd |].
  destruct (existsb (str_field_is "email" e) (users (db w))) eqn:E; [exact Hnd |].
  run_handler. unfold emails; cbn [users].
  rewrite omap_app. cbn [omap list_omap]. rewrite lookup_insert_ne by discriminate.
  rewrite lookup_insert_eq.
  apply NoDup_app. split; [exact Hnd |]. split; [| apply NoDup_singleton].
  intros x Hx Hin. apply list_elem_of_singleton in Hin. subst x.
  apply emails_existsb in Hx. congruence.
Qed.

(** X19: the accounts' e-mail addresses stay pairwise distinct through
    every registration, every user creation and every user deletion,
    however the request ends; for a registration, the writes of concurrent
    requests between its two store calls are assumed to keep them distinct
    too. *)
Theorem X19_accounts_keep_distinct_emails `{Runtime} (others : Store -> Store)
    (result : option Obj) (req : Request) (w : World) :
  NoDup (emails (db w)) -> NoDup (emails (others (db w))) ->
  NoDup (emails (db (snd (AuthController.register others req w))))
  /\ NoDup (emails (db (snd (UserController.create result req w))))
  /\ NoDup (emails (db (snd (UserController.remove req w)))).
Proof.
  intros Hnd Hnd'. split; [| split].
  - unfold AuthController.register, findUnique_email, AuthController.interleave.
    run_handler.
    destruct (AuthController.field req "email") as [| | | | e | | | | |];
      run_handler; try exact Hnd.
    destruct (List.find _ _); run_handler; [exact Hnd |].
    destruct (AuthController.field req "password") as [| | | | p | | | | |];
      run_handler; try (now destruct (AuthController.is_email_conflict _)).
    match goal with
    | |- context [create_user ?a ?b ?c ?w0] =>
        pose proof (create_user_keeps_unique_emails a b c w0 Hnd') as Hc;
        destruct (create_user a b c w0) as [[err | u] w1]
    end; cbn [snd] in Hc; [| exact Hc].
    now destruct (AuthController.is_email_conflict err).
  - unfold UserController.create. run_handler.
    destruct result as [data |]; run_handler; [| exact Hnd].
    destruct (default VUndefined (data !! "password")) as [| | | | p | | | | |];
      run_handler; try exact Hnd.
    match goal with
    | |- context [create_user ?a ?b ?c ?w0] =>
        pose proof (create_user_keeps_unique_emails a b c w0 Hnd) as Hc;
        destruct (create_user a b c w0) as [[err | u] w1]
    end; exact Hc.
  - unfold UserController.remove, UserService.deleteUser. case_run; try exact Hnd.
    unfold emails. cbn [snd db users cascade_delete].
    now apply NoDup_emails_filter.
Qed.

Lemma X19_witness :
  NoDup (emails (db (snd (@AuthController.register Sample.runtime (fun s => s)
                            (Sample.with_body Sample.signup_body Sample.request)
                            (Sample.world Sample.store))))).
Proof.
  apply (@X19_accounts_keep_distinct_emails Sample.runtime (fun s => s) None
           (Sample.with_body Sample.signup_body Sample.request)
           (Sample.world Sample.store));
    (vm_compute; apply NoDup_singleton).
Defined.

(** ** Creating a user through the user controller *)

Lemma UserCreateSchema_accepts `{Runtime} (body : Obj) (e p n : string) :
  body !! "email" = Some (VStr e) -> zod_email e = true ->
  body !! "password" = Some (VStr p) -> (12 <= String.length p)%nat ->
  body !! "name" = Some (VStr n) ->
  safeParse UserCreateSchema body
  = Some (<["email" := VStr e]> (<["password" := VStr p]> (<["name" := VStr n]> ∅))).
Proof.
  intros He Hzod Hp Hlen Hn.
  unfold safeParse, UserCreateSchema, Email, Password, Name, z_string.
  cbn [foldr run]. rewrite He, Hp, Hn. cbn [default from_option id mbind option_bind].
  rewrite Hzod. apply Nat.leb_le in Hlen. rewrite Hlen. reflexivity.
Qed.

Lemma UserCreateSchema_short_password `{Runtime} (body : Obj) (p : string) :
  body !! "password" = Some (VStr p) -> (String.length p < 12)%nat ->
  safeParse UserCreateSchema body = None.
Proof.
  intros Hp Hlen. unfold UserCreateSchema. rewrite !safeParse_cons.
  destruct (safeParse [] body ≫= _) as [data |]; [| reflexivity].
  unfold Password, z_string. cbn [run mbind option_bind]. rewrite Hp.
  cbn [default from_option id]. apply Nat.leb_gt in Hlen. now rewrite Hlen.
Qed.

(** X20: the user-creation endpoint parses the body with the create
    schema. A body the schema rejects, such as one whose password has
    fewer than twelve characters, is answered 400 "Validation failed"
    without touching the store. For a valid body whose e-mail is already
    taken the answer is 500 "Creation failed" (not the 409 that
    registration gives), no account is added and the id drawn for the
    insert is spent; otherwise the answer is 201 with the stored row, whose
    password is the bcrypt hash. *)
Theorem X20_user_create_outcomes `{Runtime} (req : Request) (w : World) :
  let result := safeParse UserCreateSchema (body req) in
  (result = None ->
   UserController.create result req w
   = (inr (sendError "Validation failed" 400 (Some req) None), w))
  /\ (forall p, body req !! "password" = Some (VStr p) -> (String.length p < 12)%nat ->
        result = None)
  /\ (forall e p n,
        body req !! "email" = Some (VStr e) -> zod_email e = true ->
        body req !! "password" = Some (VStr p) -> (12 <= String.length p)%nat ->
        body req !! "name" = Some (VStr n) ->
        (email_taken e (db w) ->
         UserController.create result req w
         = (inr (sendError "Creation failed" 500 (Some req) None),
            {| db := id_drawn (db w); calls := calls w ++ [(User, OpCreate)] |}))
        /\ (~ email_taken e (db w) ->
            exists u w',
              UserController.create result req w
              = (inr (sendSuccess (VObj u) 201 (Some req)), w')
              /\ users (db w') = (users (db w) ++ [u])%list
              /\ u !! "email" = Some (VStr e)
              /\ u !! "password" = Some (VStr (hashPassword p))
              /\ u !! "name" = Some (VStr n))).
Proof.
  cbn zeta. split; [| split].
  - intros ->. reflexivity.
  - intros p Hp Hlen. exact (UserCreateSchema_short_password _ p Hp Hlen).
  - intros e p n He Hzod Hp Hlen Hn.
    rewrite (UserCreateSchema_accepts _ e p n He Hzod Hp Hlen Hn).
    unfold UserController.create, create_user.
    rewrite lookup_insert_ne by discriminate. rewrite !lookup_insert_eq.
    rewrite !lookup_insert_ne by discriminate. rewrite lookup_insert_eq.
    cbn [from_option id name_accepted negb]. split.
    + intros Htaken. run_handler. now rewrite (existsb_email_taken e _ Htaken).
    + intros Hfree. run_handler. rewrite (existsb_email_free e _ Hfree).
      do 2 eexists. split; [reflexivity |]. cbn [db users].
      split; [reflexivity |]. repeat split; now simplify_map_eq.
Qed.

Lemma X20_witness :
  status <$> answered (@UserController.create Sample.runtime
                         (@safeParse (@UserCreateSchema Sample.runtime) Sample.signup_body)
                         (Sample.with_body Sample.signup_body Sample.request)
                         (Sample.world Sample.store)) = Some 500.
Proof.
  destruct (@X20_user_create_outcomes Sample.runtime
              (Sample.with_body Sample.signup_body Sample.request)
              (Sample.world Sample.store)) as (_ & _ & Hvalid).
  destruct (Hvalid "Alice@Example.com" "AnotherSecret1!" "Impostor")
    as (Hdup & _); [reflexivity | reflexivity | reflexivity | cbn; lia | reflexivity |].
  unfold answered. cbn [body Sample.with_body] in Hdup. rewrite Hdup; [reflexivity |].
  exists Sample.alice. split; [left; reflexivity | reflexivity].
Defined.

(** ** Logout *)

(** X21: logout sits behind the gate: without a token that verifies it is
    answered 401 and the cookie is left as it is; with one it is answered
    200 in the envelope, with the [access_token] cookie cleared. In both
    cases the store is neither read nor written. *)
Theorem X21_logout_needs_a_valid_token `{Runtime} (req : Request) (w : World) :
  (forall r, verifyJwt req = Responded r ->
     AuthController.logout_route req w = (inr r, w)
     /\ status r = 401 /\ set_cookie r = None)
  /\ (forall req', verifyJwt req = Next req' ->
        exists r,
          AuthController.logout_route req w = (inr r, w)
          /\ status r = 200
          /\ set_cookie r = Some ""
          /\ has_envelope r = true
          /\ data_field r "message" = Some (VStr "Logged out")).
Proof.
  unfold AuthController.logout_route, protected. split.
  - intros r Hr. rewrite Hr. split; [reflexivity |].
    unfold verifyJwt in Hr.
    destruct (negb (str_truthy (request_token req))); [now injection Hr as <- |].
    destruct (jwt_verify _); [discriminate | now injection Hr as <-].
  - intros req' Hr. rewrite Hr. eexists. split; [reflexivity |].
    split; [reflexivity |]. split; [reflexivity |]. split.
    + apply (sendSuccess_has_envelope _ 200 (Some req')). reflexivity.
    + change (data_field (sendSuccess (VObj {[ "message" := VStr "Logged out" ]}) 200
                            (Some req')) "message" = Some (VStr "Logged out")).
      rewrite data_field_sendSuccess. apply lookup_singleton_eq.
Qed.

Lemma X21_witness :
  exists r,
    @AuthController.logout_route Sample.runtime Sample.request
      (Sample.world Sample.store) = (inr r, Sample.world Sample.store)
    /\ status r = 401.
Proof.
  exists (bare_error 401 "Missing token").
  destruct (@X21_logout_needs_a_valid_token Sample.runtime Sample.request
              (Sample.world Sample.store)) as [Hno _].
  destruct (Hno (bare_error 401 "Missing token") eq_refl) as (Hrun & Hs & _).
  split; assumption.
Defined.

(** ** Lists: totals, membership and order *)

Lemma In_insert_desc (key : Obj -> Z) (r x : Obj) (l : list Obj) :
  In x (insert_desc key r l) <-> r = x \/ In x l.
Proof.
  induction l as [| y l IH]; cbn [insert_desc In]; [tauto |].
  destruct (key y <=? key r); cbn [In]; [tauto |]. rewrite IH. tauto.
Qed.

Lemma In_orderBy_desc (k : string) (x : Obj) (l : list Obj) :
  In x (orderBy_desc k l) <-> In x l.
Proof.
  unfold orderBy_desc. induction l as [| y l IH]; cbn [foldr In]; [tauto |].
  rewrite In_insert_desc, IH. tauto.
Qed.

Lemma In_firstn_skipn (a b : nat) (x : Obj) (l : list Obj) :
  In x (firstn a (skipn b l)) -> In x l.
Proof.
  intros Hin. apply list_elem_of_In. apply (subseteq_drop b l).
  apply (subseteq_take a). now apply list_elem_of_In.
Qed.

Lemma page_rows_subset (sk tk : JsNum) (rows pg : list Obj) (x : Obj) :
  page_rows sk tk rows = Some pg -> In x pg -> In x rows.
Proof.
  unfold page_rows.
  destruct (to_int64 sk) as [s |]; [| discriminate].
  destruct (to_int64 tk) as [t |]; [| discriminate].
  destruct (s <? 0); [discriminate |].
  destruct (0 <=? t); intros [= <-] Hin.
  - exact (In_firstn_skipn _ _ _ _ Hin).
  - apply in_rev in Hin. apply In_firstn_skipn in Hin. now apply in_rev.
Qed.

Lemma string_filter_ok_contains (req : Request) (k : string) (m : QueryMode)
    (v : option Val) :
  string_filter_ok (contains_param req k m) v = true ->
  forall text, query req !! k = Some text -> text <> "" ->
    exists s, v = Some (VStr s)
              /\ match m with
                 | ModeDefault => includes text s
                 | ModeInsensitive => includes_ci text s
                 end = true.
Proof.
  unfold contains_param. intros Hok text Hq Hne.
  rewrite Hq in *. rewrite (str_truthy_Some text Hne) in Hok.
  cbn [string_filter_ok default contains mode from_option id] in Hok.
  destruct v as [[| | | | s | | | | |] |]; try discriminate.
  exists s. split; [reflexivity |]. now destruct m.
Qed.

(** X22: every record the user list returns is a row of the users table
    that passes each filter given: for a text without the pattern
    characters [%], [_] and backslash, its e-mail contains the [email] text
    and its name the [name] text, letter case included. *)
Theorem X22_user_list_returns_only_matching_rows `{Runtime} (req : Request) (w : World)
    (r : Response) (v : Val) :
  answered (UserController.list req w) = Some r ->
  In v (items r) ->
  exists u,
    v = VObj u /\ In u (users (db w))
    /\ (forall text, query req !! "email" = Some text -> text <> "" ->
          wildcard_free text = true ->
          exists s, u !! "email" = Some (VStr s) /\ contains_text text s)
    /\ (forall text, query req !! "name" = Some text -> text <> "" ->
          wildcard_free text = true ->
          exists s, u !! "name" = Some (VStr s) /\ contains_text text s).
Proof.
  unfold answered, UserController.list, UserService.listUsers. run_handler.
  destruct (page_rows _ _ _) as [rows |] eqn:Hrows; run_handler; intros [= <-].
  - erewrite items_sendSuccess by (now simplify_map_eq).
    intros Hin. apply in_map_iff in Hin as (u & <- & Hu).
    unfold plain in Hu. rewrite map_id in Hu.
    apply (page_rows_subset _ _ _ _ _ Hrows) in Hu.
    apply In_orderBy_desc, filter_In in Hu as [Hu Hmatch].
    unfold user_matches in Hmatch; cbn [uw_email uw_name] in Hmatch.
    apply andb_true_iff in Hmatch as [He Hn].
    exists u. split; [reflexivity |]. split; [exact Hu |]. split.
    + intros text Hq Hne Hfree.
      destruct (string_filter_ok_contains req "email" ModeDefault _ He text Hq Hne)
        as (s & Hs & Hin).
      exists s. split; [exact Hs |]. apply occurs_spec.
      now rewrite <- includes_occurs.
    + intros text Hq Hne Hfree.
      destruct (string_filter_ok_contains req "name" ModeDefault _ Hn text Hq Hne)
        as (s & Hs & Hin).
      exists s. split; [exact Hs |]. apply occurs_spec.
      now rewrite <- includes_occurs.
  - rewrite items_sendError. intros [].
Qed.

Lemma X22_witness :
  exists r,
    answered (@UserController.list Sample.runtime
                (Sample.with_query JNaN JNaN {[ "email" := "Alice" ]} DAbsent DAbsent
                   Sample.request)
                (Sample.world Sample.store)) = Some r
    /\ exists u s, In (VObj u) (items r) /\ In u (users Sample.store)
                   /\ u !! "email" = Some (VStr s) /\ contains_text "Alice" s.
Proof.
  eexists. split; [reflexivity |].
  destruct (@X22_user_list_returns_only_matching_rows Sample.runtime
              (Sample.with_query JNaN JNaN {[ "email" := "Alice" ]} DAbsent DAbsent
                 Sample.request)
              (Sample.world Sample.store) _ (VObj Sample.alice) eq_refl)
    as (u & Hv & Hu & Hmail & _).
  - vm_compute. left. reflexivity.
  - destruct (Hmail "Alice") as (s & Hs & Hin);
      [reflexivity | discriminate | reflexivity |].
    exists u, s. split; [| split; [exact Hu | split; assumption]].
    rewrite <- Hv. vm_compute. left. reflexivity.
Defined.

(** The two ways the invoice list ends once its filter is assembled. *)
Lemma invoice_list_answers `{Runtime} (req : Request) (w : World) :
  (forall t, query_minAmount req <> DInvalid t) ->
  (forall t, query_maxAmount req <> DInvalid t) ->
  let p := inlinePagination (query_page req) (query_limit req) in
  let matching := List.filter (invoice_matches (db w) (assembled_filter req))
                    (invoices (db w)) in
  answered (InvoiceController.list req w)
  = Some match (if decimal_filter_accepted (iw_amount (assembled_filter req))
                then page_rows (skipOf p) (limit p) (orderBy_desc "issuedAt" matching)
                else None) with
         | Some rows =>
             sendSuccess
               (VObj (<["page" := VNum (page p)]>
                        (<["limit" := VNum (limit p)]>
                           (<["total" := VNum (JInt (Z.of_nat (length matching)))]>
                              (<["data" := VArr (VObj <$> List.map (include_owner (db w)) rows)]>
                                 ∅)))))
               200 (Some req)
         | None => sendError "Internal server error" 500 (Some req) None
         end.
Proof.
  intros Hlo Hhi. cbn zeta. unfold answered, InvoiceController.list.
  unfold bind at 1. rewrite (build_filter_assembled req w Hlo Hhi).
  run_handler.
  destruct (decimal_filter_accepted _); run_handler; [| reflexivity].
  now destruct (page_rows _ _ _).
Qed.

(** An amount that is not a decimal ends the handler before it answers. *)
Lemma invoice_list_invalid_amount `{Runtime} (req : Request) (w : World) (t : string) :
  query_minAmount req = DInvalid t \/ query_maxAmount req = DInvalid t ->
  answered (InvoiceController.list req w) = None.
Proof.
  unfold answered, InvoiceController.list, InvoiceController.build_filter,
    InvoiceController.to_decimal.
  intros [-> | ->]; [reflexivity |].
  now destruct (query_minAmount req).
Qed.


Lemma taxProfile_list_answers `{Runtime} (req : Request) (w : World) :
  query_userId req = None ->
  let p := inlinePagination (query_page req) (query_limit req) in
  let filter := {| tw_name := contains_param req "name" ModeDefault;
                   tw_userId := None;
                   tw_tax_id_number := contains_param req "tax_id_number" ModeDefault |} in
  let matching := List.filter (taxProfile_matches filter) (taxProfiles (db w)) in
  answered (TaxProfileController.list req w)
  = Some match page_rows (skipOf p) (limit p) (orderBy_desc "id" matching) with
         | Some rows =>
             sendSuccess
               (VObj (<["page" := VNum (page p)]>
                        (<["limit" := VNum (limit p)]>
                           (<["total" := VNum (JInt (Z.of_nat (length matching)))]>
                              (<["data" := VArr (VObj <$> List.map (plain (db w)) rows)]>
                                 ∅)))))
               200 (Some req)
         | None => sendError "Internal server error" 500 (Some req) None
         end.
Proof.
  intros Hu. cbn zeta. unfold answered, TaxProfileController.list. rewrite Hu.
  run_handler. now destruct (page_rows _ _ _).
Qed.

Lemma filter_all (f : Obj -> bool) (l : list Obj) :
  (forall x, f x = true) -> List.filter f l = l.
Proof.
  intros Hf. induction l as [| x l IH]; [reflexivity |].
  cbn [List.filter]. now rewrite Hf, IH.
Qed.

(** X23: with no filter parameter given (each absent or empty), the [total]
    the invoice list and the tax-profile list report is the number of rows
    of the whole table, whatever page and limit are. *)
Theorem X23_unfiltered_total_is_the_table_size `{Runtime} (req : Request) (w : World)
    (r : Response) :
  (forall k, str_truthy (query req !! k) = false) ->
  query_minAmount req = DAbsent -> query_maxAmount req = DAbsent ->
  query_userId req = None ->
  status r = 200 ->
  (answered (InvoiceController.list req w) = Some r ->
   data_field r "total" = Some (VNum (JInt (Z.of_nat (length (invoices (db w)))))))
  /\ (answered (TaxProfileController.list req w) = Some r ->
      data_field r "total" = Some (VNum (JInt (Z.of_nat (length (taxProfiles (db w))))))).
Proof.
  intros Hq Hlo Hhi Hu Hstatus. split.
  - rewrite invoice_list_answers by (rewrite ?Hlo, ?Hhi; discriminate).
    assert (decimal_filter_accepted (iw_amount (assembled_filter req)) = true) as ->
      by (cbn [assembled_filter iw_amount]; now rewrite Hlo, Hhi).
    rewrite filter_all.
    + destruct (page_rows _ _ _); intros [= <-];
        [| cbn [status sendError] in Hstatus; discriminate].
      rewrite data_field_sendSuccess. now simplify_map_eq.
    + intros x. unfold invoice_matches, assembled_filter, contains_param.
      cbn [iw_status iw_taxProfile_user_email iw_amount].
      now rewrite !Hq, Hlo, Hhi.
  - rewrite taxProfile_list_answers by exact Hu.
    rewrite filter_all.
    + destruct (page_rows _ _ _); intros [= <-];
        [| cbn [status sendError] in Hstatus; discriminate].
      rewrite data_field_sendSuccess. now simplify_map_eq.
    + intros x. unfold taxProfile_matches, contains_param.
      cbn [tw_name tw_userId tw_tax_id_number]. now rewrite !Hq.
Qed.

Lemma X23_witness :
  exists r,
    answered (@InvoiceController.list Sample.runtime
                (Sample.with_query (JInt 2) (JInt 2) ∅ DAbsent DAbsent Sample.request)
                (Sample.world Sample.store)) = Some r
    /\ data_field r "total" = Some (VNum (JInt 3)).
Proof.
  eexists. split; [reflexivity |].
  match goal with
  | |- data_field ?r _ = _ =>
      refine (proj1 (@X23_unfiltered_total_is_the_table_size Sample.runtime
                       (Sample.with_query (JInt 2) (JInt 2) ∅ DAbsent DAbsent
                          Sample.request)
                       (Sample.world Sample.store) r _ eq_refl eq_refl eq_refl eq_refl)
                    eq_refl)
  end.
  intros k. reflexivity.
Defined.

(** With primary keys in force, the record [include] builds carries the
    tax profile the invoice names and the account that profile names. *)
Lemma include_owner_attached (s : Store) (inv : Obj) :
  unique_ids (taxProfiles s) -> unique_ids (users s) ->
  with_owner_attached s inv (include_owner s inv).
Proof.
  intros Hp Hu. unfold include_owner, taxProfile_of. split.
  - intros k Hk. destruct (inv !! "taxProfileId") as [[] |]; try reflexivity.
    destruct (List.find _ _); [| reflexivity].
    now rewrite lookup_insert_ne by congruence.
  - intros t p Ht Hin Hid. rewrite Ht.
    rewrite (find_has_id_unique _ t p Hp Hin Hid).
    eexists. split; [now simplify_map_eq |]. unfold user_of. split.
    + intros k Hk. destruct (p !! "userId") as [[] |]; try reflexivity.
      destruct (List.find _ _); [| reflexivity].
      now rewrite lookup_insert_ne by congruence.
    + intros i u Hi Hinu Hidu. rewrite Hi.
      rewrite (find_has_id_unique _ i u Hu Hinu Hidu). now simplify_map_eq.
Qed.

(** X24: every record the invoice list returns is an invoice of the table
    that passes each filter given, returned with the tax profile it names
    under [taxProfile] and the account that profile names under [user] of
    it; ids are primary keys and the e-mail text holds none of the pattern
    characters [%], [_] and backslash. *)
Theorem X24_invoice_list_returns_only_matching_rows `{Runtime} (req : Request)
    (w : World) (r : Response) (v : Val) :
  unique_ids (taxProfiles (db w)) -> unique_ids (users (db w)) ->
  (forall e, query req !! "email" = Some e -> wildcard_free e = true) ->
  answered (InvoiceController.list req w) = Some r ->
  In v (items r) ->
  exists inv o,
    v = VObj o
    /\ In inv (invoices (db w))
    /\ invoice_selected (db w) req inv
    /\ with_owner_attached (db w) inv o.
Proof.
  intros Hp Hu Hfree.
  assert (Hcases : (exists t, query_minAmount req = DInvalid t
                              \/ query_maxAmount req = DInvalid t)
                   \/ ((forall t, query_minAmount req <> DInvalid t)
                       /\ (forall t, query_maxAmount req <> DInvalid t))).
  { destruct (query_minAmount req) as [| lo | | t];
      destruct (query_maxAmount req) as [| hi | | t'];
      first [ right; split; discriminate
            | left; eexists; left; reflexivity
            | left; eexists; right; reflexivity ]. }
  destruct Hcases as [(t & Hbad) | (Hlo & Hhi)].
  { rewrite (invoice_list_invalid_amount req w t Hbad). discriminate. }
  rewrite (invoice_list_answers req w Hlo Hhi).
  destruct (decimal_filter_accepted _) eqn:Hacc;
    [| intros [= <-]; rewrite items_sendError; intros []].
  assert (Hfin : finite_or_absent (query_minAmount req)
                 /\ finite_or_absent (query_maxAmount req)).
  { revert Hacc. cbn [assembled_filter iw_amount]. unfold finite_or_absent.
    destruct (query_minAmount req) as [| lo | | t];
      destruct (query_maxAmount req) as [| hi | | t'];
      cbn [bound_of decimal_filter_accepted gte lte andb];
      first [ discriminate
            | now destruct (Hlo t)
            | now destruct (Hhi t')
            | intros _; split; eauto ]. }
  destruct Hfin as [Hflo Hfhi].
  destruct (page_rows _ _ _) as [rows |] eqn:Hrows; intros [= <-].
  - erewrite items_sendSuccess by (now simplify_map_eq).
    intros Hin. apply in_map_iff in Hin as (x & <- & Hx).
    apply in_map_iff in Hx as (inv & <- & Hinv).
    apply (page_rows_subset _ _ _ _ _ Hrows) in Hinv.
    apply In_orderBy_desc, filter_In in Hinv as [Hinv Hmatch].
    exists inv, (include_owner (db w) inv).
    split; [reflexivity |]. split; [exact Hinv |]. split.
    + now apply invoice_matches_selected.
    + now apply include_owner_attached.
  - rewrite items_sendError. intros [].
Qed.

Lemma X24_witness :
  exists r inv o,
    answered (@InvoiceController.list Sample.runtime
                (Sample.with_query (JInt 1) (JInt 2) {[ "status" := "draft" ]}
                   DAbsent DAbsent Sample.request)
                (Sample.world Sample.store)) = Some r
    /\ In (VObj o) (items r)
    /\ In inv (invoices Sample.store)
    /\ inv !! "status" = Some (VStr "draft")
    /\ with_owner_attached Sample.store inv o.
Proof.
  eexists.
  edestruct (@X24_invoice_list_returns_only_matching_rows Sample.runtime
               (Sample.with_query (JInt 1) (JInt 2) {[ "status" := "draft" ]}
                  DAbsent DAbsent Sample.request)
               (Sample.world Sample.store))
    as (inv & o & Hv & Hin & Hsel & Hown).
  - apply unique_ids_singleton.
  - apply unique_ids_singleton.
  - intros e [=].
  - reflexivity.
  - vm_compute. left. reflexivity.
  - exists inv, o. split; [reflexivity |]. split.
    + rewrite <- Hv. vm_compute. left. reflexivity.
    + split; [exact Hin |]. split; [| exact Hown].
      apply (proj1 Hsel "draft"); [reflexivity | discriminate].
Defined.

Lemma pairwise_app (R : Obj -> Obj -> Prop) (l1 l2 : list Obj) :
  pairwise R (l1 ++ l2)%list
  <-> pairwise R l1 /\ pairwise R l2 /\ (forall x y, In x l1 -> In y l2 -> R x y).
Proof.
  induction l1 as [| a l1 IH]; cbn [pairwise app In].
  - intuition.
  - rewrite IH. split.
    + intros (Ha & H1 & H2 & H12). repeat split; try assumption.
      * intros y Hy. apply Ha, in_or_app. now left.
      * intros x y [<- | Hx] Hy; [apply Ha, in_or_app; now right | now apply H12].
    + intros ((Ha & H1) & H2 & H12). repeat split; try assumption.
      * intros y Hy. apply in_app_or in Hy as [Hy | Hy]; [now apply Ha |].
        apply H12; [now left | exact Hy].
      * intros x y Hx Hy. apply H12; [now right | exact Hy].
Qed.

Lemma pairwise_rev (R : Obj -> Obj -> Prop) (l : list Obj) :
  pairwise R (rev l) <-> pairwise (fun a b => R b a) l.
Proof.
  induction l as [| a l IH]; cbn [pairwise rev]; [tauto |].
  rewrite pairwise_app, IH. cbn [pairwise In]. split.
  - intros (Hl & _ & Hla). split; [| exact Hl].
    intros y Hy. apply Hla; [now apply in_rev in Hy | now left].
  - intros (Ha & Hl). repeat split; try assumption; try tauto.
    intros x y Hx [<- | []]. apply Ha. now apply in_rev.
Qed.

Lemma pairwise_firstn_skipn (R : Obj -> Obj -> Prop) (a b : nat) (l : list Obj) :
  pairwise R l -> pairwise R (firstn a (skipn b l)).
Proof.
  intros Hl. rewrite <- (firstn_skipn b l) in Hl.
  apply pairwise_app in Hl as (_ & Hl & _).
  rewrite <- (firstn_skipn a (skipn b l)) in Hl.
  now apply pairwise_app in Hl as (Hl & _).
Qed.

Lemma pairwise_page_rows (R : Obj -> Obj -> Prop) (sk tk : JsNum) (rows pg : list Obj) :
  page_rows sk tk rows = Some pg -> pairwise R rows -> pairwise R pg.
Proof.
  unfold page_rows.
  destruct (to_int64 sk) as [s |]; [| discriminate].
  destruct (to_int64 tk) as [t |]; [| discriminate].
  destruct (s <? 0); [discriminate |].
  destruct (0 <=? t); intros [= <-] Hrows.
  - now apply pairwise_firstn_skipn.
  - apply pairwise_rev, pairwise_firstn_skipn, pairwise_rev.
    exact Hrows.
Qed.

Lemma pairwise_insert_desc (key : Obj -> Z) (r : Obj) (l : list Obj) :
  pairwise (fun a b => key b <= key a) l ->
  pairwise (fun a b => key b <= key a) (insert_desc key r l).
Proof.
  induction l as [| x l IH]; cbn [insert_desc pairwise].
  { intros _. split; [intros y [] | exact I]. }
  intros (Hx & Hl). destruct (key x <=? key r) eqn:E; cbn [pairwise].
  - apply Z.leb_le in E. repeat split; try assumption.
    intros y [<- | Hy]; [exact E |]. specialize (Hx y Hy). lia.
  - apply Z.leb_gt in E. split; [| now apply IH].
    intros y Hy. apply In_insert_desc in Hy as [<- | Hy]; [lia | now apply Hx].
Qed.

Lemma pairwise_orderBy_desc (k : string) (l : list Obj) :
  pairwise (fun a b => sort_key k b <= sort_key k a) (orderBy_desc k l).
Proof.
  unfold orderBy_desc. induction l as [| x l IH]; cbn [foldr]; [exact I |].
  now apply pairwise_insert_desc.
Qed.

Lemma pairwise_map (R : Obj -> Obj -> Prop) (f : Obj -> Obj) (l : list Obj) :
  pairwise (fun a b => R (f a) (f b)) l -> pairwise R (List.map f l).
Proof.
  induction l as [| x l IH]; cbn [pairwise List.map]; [tauto |].
  intros [Hx Hl]. split; [| now apply IH].
  intros y Hy. apply in_map_iff in Hy as (z & <- & Hz). now apply Hx.
Qed.

Lemma sort_key_include_owner (s : Store) (k : string) (inv : Obj) :
  k <> "taxProfile" -> sort_key k (include_owner s inv) = sort_key k inv.
Proof.
  intros Hk. unfold include_owner, sort_key.
  destruct (taxProfile_of s inv); [| reflexivity].
  now rewrite lookup_insert_ne by congruence.
Qed.

Lemma descending_page (k : string) (sk tk : JsNum) (rows pg : list Obj)
    (f : Obj -> Obj) :
  (forall r, sort_key k (f r) = sort_key k r) ->
  page_rows sk tk (orderBy_desc k rows) = Some pg ->
  descending k (VObj <$> List.map f pg).
Proof.
  intros Hf Hpg. exists (List.map f pg). split; [reflexivity |].
  apply pairwise_map.
  pose proof (pairwise_page_rows _ _ _ _ _ Hpg (pairwise_orderBy_desc k rows)) as Hs.
  revert Hs. clear Hpg. induction pg as [| x pg IH]; cbn [pairwise]; [tauto |].
  intros [Hx Hl]. split; [| now apply IH].
  intros y Hy. rewrite !Hf. now apply Hx.
Qed.

Lemma descending_nil (k : string) : descending k [].
Proof. exists []. split; [reflexivity | exact I]. Qed.

(** X25: each list endpoint returns its page newest first: users by
    [createdAt], tax profiles by [id] and invoices by [issuedAt], each in
    descending order. *)
Theorem X25_lists_are_ordered_newest_first `{Runtime} (req : Request) (w : World)
    (r : Response) :
  (answered (UserController.list req w) = Some r -> descending "createdAt" (items r))
  /\ (answered (TaxProfileController.list req w) = Some r -> descending "id" (items r))
  /\ (answered (InvoiceController.list req w) = Some r ->
      descending "issuedAt" (items r)).
Proof.
  split; [| split].
  - unfold answered, UserController.list, UserService.listUsers. run_handler.
    destruct (page_rows _ _ _) as [rows |] eqn:Hrows; run_handler; intros [= <-].
    + erewrite items_sendSuccess by (now simplify_map_eq).
      now apply (descending_page _ _ _ _ _ (plain (db w)) ltac:(reflexivity) Hrows).
    + rewrite items_sendError. apply descending_nil.
  - unfold answered, TaxProfileController.list.
    destruct (query_userId req) as [raw |]; run_handler.
    + destruct (validateNumericId raw "ID") as [e | u]; run_handler; [discriminate |].
      destruct (page_rows _ _ _) as [rows |] eqn:Hrows; run_handler; intros [= <-].
      * erewrite items_sendSuccess by (now simplify_map_eq).
        now apply (descending_page _ _ _ _ _ (plain (db w)) ltac:(reflexivity) Hrows).
      * rewrite items_sendError. apply descending_nil.
    + destruct (page_rows _ _ _) as [rows |] eqn:Hrows; run_handler; intros [= <-].
      * erewrite items_sendSuccess by (now simplify_map_eq).
        now apply (descending_page _ _ _ _ _ (plain (db w)) ltac:(reflexivity) Hrows).
      * rewrite items_sendError. apply descending_nil.
  - unfold answered, InvoiceController.list, InvoiceController.build_filter,
      InvoiceController.to_decimal.
    destruct (query_minAmount req), (query_maxAmount req); run_handler;
      try discriminate;
      cbn [iw_amount decimal_filter_accepted gte lte andb]; run_handler;
      try (intros [= <-]; rewrite items_sendError; apply descending_nil);
      (destruct (page_rows _ _ _) as [rows |] eqn:Hrows; run_handler; intros [= <-];
       [ erewrite items_sendSuccess by (now simplify_map_eq);
         apply (descending_page "issuedAt" _ _ _ _ (include_owner (db w))
                  ltac:(intros; now apply sort_key_include_owner) Hrows)
       | rewrite items_sendError; apply descending_nil ]).
Qed.

Lemma X25_witness :
  descending "issuedAt"
    (from_option items []
       (answered (@InvoiceController.list Sample.runtime
                    (Sample.with_query (JInt 1) (JInt 2) ∅ DAbsent DAbsent Sample.request)
                    (Sample.world Sample.store)))).
Proof.
  apply (proj2 (proj2 (@X25_lists_are_ordered_newest_first Sample.runtime
                         (Sample.with_query (JInt 1) (JInt 2) ∅ DAbsent DAbsent
                            Sample.request)
                         (Sample.world Sample.store) _))).
  reflexivity.
Defined.


